(** * HvspFuseRestore: a shallow embedding of [HvspFuseRestore.c]

    The firmware bit-bangs the High-voltage Serial Programming protocol of
    the ATtiny family on six lines of PORTC and reports on an LED on PORTB.
    The embedding keeps the 8-bit I/O registers as [Z] with the C bit
    operations written out, threads them through a small state monad that
    also collects every register write, input read and delay as an event,
    and takes the values seen on the input registers from an input trace
    indexed by the number of reads made so far.  The only unbounded loop of
    an attempt, [pollSDO], carries fuel. *)

From Stdlib Require Import ZArith List Bool Lia.
Import ListNotations.
Local Open Scope Z_scope.

(** ** 8-bit register arithmetic *)


(** Conversion to [uint8_t]. *)
Definition uint8 (x : Z) : Z := x mod 256.

(** [v |= m], [v &= m] and [v ^= m] on an 8-bit register. *)
Definition or8 (v m : Z) : Z := uint8 (Z.lor v m).
Definition and8 (v m : Z) : Z := uint8 (Z.land v m).
Definition xor8 (v m : Z) : Z := uint8 (Z.lxor v m).

(** [(v & m) != 0] *)
Definition masked (v m : Z) : bool := negb (Z.land v m =? 0).

(** [1 << k] and [~(1 << k)] *)
Definition bv (k : Z) : Z := Z.shiftl 1 k.
Definition nbv (k : Z) : Z := Z.lnot (Z.shiftl 1 k).

(** ** Pins, events and the machine state *)

(** Bit numbers of the port pins ([PCn = n], [PBn = n] in <avr/io.h>). *)
Definition HVSP_SDI : Z := 0.   (* PC0: Serial Data Input on target *)
Definition HVSP_SII : Z := 1.   (* PC1: Serial Instruction Input on target *)
Definition HVSP_SDO : Z := 2.   (* PC2: Serial Data Output on target *)
Definition HVSP_SCI : Z := 3.   (* PC3: Serial Clock Input on target *)
Definition HVSP_VCC : Z := 4.   (* PC4: VCC to target *)
Definition HVSP_RST : Z := 5.   (* PC5: +12V to reset pin, inverted *)
Definition LED_PIN : Z := 0.    (* PB0 *)
Definition SWITCH_PIN : Z := 1. (* PB1 *)

(** Everything the firmware does to, or learns from, the outside. *)
Inductive Event : Type :=
| WrPORTB (v : Z)
| WrDDRB (v : Z)
| WrPORTC (v : Z)
| WrDDRC (v : Z)
| RdPINB (v : Z)
| RdPINC (v : Z)
| DelayUs (n : Z)
| DelayMs (n : Z).

(** The output and direction registers, and how many times each input
    register has been read. *)
Record World : Type := mkWorld {
  PORTB : Z;
  DDRB : Z;
  PORTC : Z;
  DDRC : Z;
  readsB : nat;
  readsC : nat
}.

(** The input trace: the value the n-th read of each input register sees. *)
Record Input : Type := mkInput {
  PINB : nat -> Z;
  PINC : nat -> Z
}.

(** ** The monad: state, collected events, and running out of fuel *)

Definition M (A : Type) : Type := World -> option (A * World * list Event).

Definition ret {A : Type} (a : A) : M A := fun w => Some (a, w, []).

Definition bind {A B : Type} (m : M A) (f : A -> M B) : M B :=
  fun w =>
    match m w with
    | None => None
    | Some (a, w1, e1) =>
        match f a w1 with
        | None => None
        | Some (b, w2, e2) => Some (b, w2, e1 ++ e2)
        end
    end.

Notation "x <- m1 ;; m2" := (bind m1 (fun x => m2))
  (at level 61, m1 at next level, right associativity).
Notation "m1 ;; m2" := (bind m1 (fun _ => m2))
  (at level 61, right associativity).

Definition PORTB_or (m : Z) : M unit := fun w =>
  let v := or8 (PORTB w) m in
  Some (tt, mkWorld v (DDRB w) (PORTC w) (DDRC w) (readsB w) (readsC w), [WrPORTB v]).
Definition PORTB_and (m : Z) : M unit := fun w =>
  let v := and8 (PORTB w) m in
  Some (tt, mkWorld v (DDRB w) (PORTC w) (DDRC w) (readsB w) (readsC w), [WrPORTB v]).
Definition PORTB_xor (m : Z) : M unit := fun w =>
  let v := xor8 (PORTB w) m in
  Some (tt, mkWorld v (DDRB w) (PORTC w) (DDRC w) (readsB w) (readsC w), [WrPORTB v]).
Definition DDRB_assign (x : Z) : M unit := fun w =>
  let v := uint8 x in
  Some (tt, mkWorld (PORTB w) v (PORTC w) (DDRC w) (readsB w) (readsC w), [WrDDRB v]).
Definition DDRB_and (m : Z) : M unit := fun w =>
  let v := and8 (DDRB w) m in
  Some (tt, mkWorld (PORTB w) v (PORTC w) (DDRC w) (readsB w) (readsC w), [WrDDRB v]).
Definition PORTC_or (m : Z) : M unit := fun w =>
  let v := or8 (PORTC w) m in
  Some (tt, mkWorld (PORTB w) (DDRB w) v (DDRC w) (readsB w) (readsC w), [WrPORTC v]).
Definition PORTC_and (m : Z) : M unit := fun w =>
  let v := and8 (PORTC w) m in
  Some (tt, mkWorld (PORTB w) (DDRB w) v (DDRC w) (readsB w) (readsC w), [WrPORTC v]).
Definition DDRC_or (m : Z) : M unit := fun w =>
  let v := or8 (DDRC w) m in
  Some (tt, mkWorld (PORTB w) (DDRB w) (PORTC w) v (readsB w) (readsC w), [WrDDRC v]).
Definition DDRC_and (m : Z) : M unit := fun w =>
  let v := and8 (DDRC w) m in
  Some (tt, mkWorld (PORTB w) (DDRB w) (PORTC w) v (readsB w) (readsC w), [WrDDRC v]).
Definition _delay_us (n : Z) : M unit := fun w => Some (tt, w, [DelayUs n]).
Definition _delay_ms (n : Z) : M unit := fun w => Some (tt, w, [DelayMs n]).

(** ** The device table *)

Record TargetCpuInfo_t : Type := mkCpu {
  signature : list Z;
  fuseLowBits : Z;
  fuseHighBits : Z;
  fuseExtendedBits : Z
}.

(** Modelled from the spec: [SIGNATURE_0] is a macro of <avr/io.h>, which is
    not part of the sources; the spec's scenarios give the first signature
    byte of every supported chip as 0x1E. *)
Definition SIGNATURE_0 : Z := 0x1E.

Definition targetCpu : list TargetCpuInfo_t :=
  [ mkCpu [SIGNATURE_0; 0x90; 0x07] 0x6A 0xFF 0x00   (* ATtiny13 *)
  ; mkCpu [SIGNATURE_0; 0x91; 0x0B] 0x62 0xDF 0xFF   (* ATtiny24 *)
  ; mkCpu [SIGNATURE_0; 0x92; 0x07] 0x62 0xDF 0xFF   (* ATtiny44 *)
  ; mkCpu [SIGNATURE_0; 0x93; 0x0C] 0x62 0xDF 0xFF   (* ATtiny84 *)
  ; mkCpu [SIGNATURE_0; 0x91; 0x08] 0x62 0xDF 0xFF   (* ATtiny25 *)
  ; mkCpu [SIGNATURE_0; 0x92; 0x06] 0x62 0xDF 0xFF   (* ATtiny45 *)
  ; mkCpu [SIGNATURE_0; 0x93; 0x0B] 0x62 0xDF 0xFF   (* ATtiny85 *)
  ; mkCpu [0; 0; 0] 0 0 0                            (* mark end of list *)
  ].

(** [pgm_read_byte(&cpu.signature[k])] *)
Definition sig_byte (cpu : TargetCpuInfo_t) (k : nat) : Z := nth k (signature cpu) 0.

(** ** The firmware *)

Section Firmware.

Variable inp : Input.

Definition read_PINB : M Z := fun w =>
  let v := PINB inp (readsB w) in
  Some (v, mkWorld (PORTB w) (DDRB w) (PORTC w) (DDRC w) (S (readsB w)) (readsC w), [RdPINB v]).
Definition read_PINC : M Z := fun w =>
  let v := PINC inp (readsC w) in
  Some (v, mkWorld (PORTB w) (DDRB w) (PORTC w) (DDRC w) (readsB w) (S (readsC w)), [RdPINC v]).

(** [clockit]: one pulse on SCI, held for 1 us. *)
Definition clockit : M unit :=
  PORTC_or (bv HVSP_SCI) ;;
  _delay_us 1 ;;
  PORTC_and (nbv HVSP_SCI).

(** The body of the [for (i=0; i<8; i++)] loop of [transferByte], with [n]
    iterations still to run. *)
Fixpoint transferByte_loop (n : nat) (data instruction byteRead : Z) : M Z :=
  match n with
  | O => ret byteRead
  | S n' =>
      let byteRead := uint8 (Z.shiftl byteRead 1) in
      pins <- read_PINC ;;
      let byteRead := if masked pins (bv HVSP_SDO) then uint8 (Z.lor byteRead 1) else byteRead in
      (if masked data 0x80 then PORTC_or (bv HVSP_SDI) else PORTC_and (nbv HVSP_SDI)) ;;
      (if masked instruction 0x80 then PORTC_or (bv HVSP_SII) else PORTC_and (nbv HVSP_SII)) ;;
      clockit ;;
      transferByte_loop n' (uint8 (Z.shiftl data 1)) (uint8 (Z.shiftl instruction 1)) byteRead
  end.

(** [transferByte]: send instruction and data byte, read one byte. *)
Definition transferByte (data instruction : Z) : M Z :=
  PORTC_and (nbv HVSP_SDI) ;;
  PORTC_and (nbv HVSP_SII) ;;
  clockit ;;
  byteRead <- transferByte_loop 8 data instruction 0 ;;
  PORTC_and (nbv HVSP_SDI) ;;
  PORTC_and (nbv HVSP_SII) ;;
  clockit ;;
  clockit ;;
  ret byteRead.

(** [pollSDO]: wait until SDO goes high; [fuel] bounds the number of reads. *)
Fixpoint pollSDO (fuel : nat) : M unit :=
  match fuel with
  | O => fun _ => None
  | S fuel' =>
      pins <- read_PINC ;;
      if Z.land pins (bv HVSP_SDO) =? 0 then pollSDO fuel' else ret tt
  end.

Definition getSignature (code : Z) : M Z :=
  transferByte 0x08 0x4C ;;
  transferByte code 0x0C ;;
  transferByte 0x00 0x68 ;;
  transferByte 0x00 0x6C.

Definition writeFuseLowBits (fuel : nat) (code : Z) : M unit :=
  transferByte 0x40 0x4C ;;
  transferByte code 0x2C ;;
  transferByte 0x00 0x64 ;;
  transferByte 0x00 0x6C ;;
  pollSDO fuel ;;
  transferByte 0x00 0x4C ;;
  pollSDO fuel.

Definition writeFuseHighBits (fuel : nat) (code : Z) : M unit :=
  transferByte 0x40 0x4C ;;
  transferByte code 0x2C ;;
  transferByte 0x00 0x74 ;;
  transferByte 0x00 0x7C ;;
  pollSDO fuel ;;
  transferByte 0x00 0x4C ;;
  pollSDO fuel.

Definition writeFuseExtendedBits (fuel : nat) (code : Z) : M unit :=
  transferByte 0x40 0x4C ;;
  transferByte code 0x2C ;;
  transferByte 0x00 0x66 ;;
  transferByte 0x00 0x6E ;;
  pollSDO fuel ;;
  transferByte 0x00 0x4C ;;
  pollSDO fuel.

Definition readFuseLowBits : M Z :=
  transferByte 0x04 0x4C ;;
  transferByte 0x00 0x68 ;;
  transferByte 0x00 0x6C.

Definition readFuseHighBits : M Z :=
  transferByte 0x04 0x4C ;;
  transferByte 0x00 0x7A ;;
  transferByte 0x00 0x7E.

Definition readFuseExtendedBits : M Z :=
  transferByte 0x04 0x4C ;;
  transferByte 0x00 0x6A ;;
  transferByte 0x00 0x6E.

(** The condition of the [if] in the device loop: the three comparisons are
    joined by [&&], so a later signature byte is read only when the earlier
    ones matched. *)
Definition signature_matches (cpu : TargetCpuInfo_t) : M bool :=
  s0 <- getSignature 0 ;;
  if s0 =? sig_byte cpu 0 then
    s1 <- getSignature 1 ;;
    if s1 =? sig_byte cpu 1 then
      s2 <- getSignature 2 ;;
      ret (s2 =? sig_byte cpu 2)
    else ret false
  else ret false.

(** "write default fuse bits" *)
Definition restore_fuses (fuel : nat) (cpu : TargetCpuInfo_t) : M unit :=
  writeFuseLowBits fuel (fuseLowBits cpu) ;;
  writeFuseHighBits fuel (fuseHighBits cpu) ;;
  if negb (fuseExtendedBits cpu =? 0)
  then writeFuseExtendedBits fuel (fuseExtendedBits cpu)
  else ret tt.

(** "verify": the condition that sets [fuseRestoreSuccessful]. *)
Definition verify_fuses (cpu : TargetCpuInfo_t) : M bool :=
  lo <- readFuseLowBits ;;
  if fuseLowBits cpu =? lo then
    hi <- readFuseHighBits ;;
    if fuseHighBits cpu =? hi then
      if 0 =? fuseExtendedBits cpu then ret true
      else
        ex <- readFuseExtendedBits ;;
        ret (fuseExtendedBits cpu =? ex)
    else ret false
  else ret false.

(** The device loop.  [rest] is the table from index [device] on; the loop
    returns the final value of [device] and of [fuseRestoreSuccessful].
    Running past the end of the array is not modelled: the table ends with
    its terminator record. *)
Fixpoint device_loop (fuel : nat) (rest : list TargetCpuInfo_t) (device : Z) : M (Z * bool) :=
  match rest with
  | [] => ret (device, false)
  | cpu :: rest' =>
      if negb (sig_byte cpu 0 =? 0) then
        found <- signature_matches cpu ;;
        if found then
          restore_fuses fuel cpu ;;
          ok <- verify_fuses cpu ;;
          ret (device, ok)
        else device_loop fuel rest' (uint8 (device + 1))
      else ret (device, false)
  end.

(** Steps 1 to 6: enter High-voltage Serial Programming mode. *)
Definition power_up : M unit :=
  DDRC_or (bv HVSP_SCI) ;;
  DDRC_or (bv HVSP_SII) ;;
  DDRC_or (bv HVSP_SDI) ;;
  DDRC_or (bv HVSP_SDO) ;;
  DDRC_or (bv HVSP_RST) ;;
  DDRC_or (bv HVSP_VCC) ;;
  PORTC_and (nbv HVSP_SCI) ;;
  PORTC_and (nbv HVSP_SII) ;;
  PORTC_and (nbv HVSP_SDI) ;;
  PORTC_and (nbv HVSP_SDO) ;;
  PORTC_or (bv HVSP_RST) ;;
  PORTC_and (nbv HVSP_VCC) ;;
  PORTC_or (bv HVSP_VCC) ;;
  _delay_us 60 ;;
  PORTC_and (nbv HVSP_RST) ;;
  _delay_us 20 ;;
  DDRC_and (nbv HVSP_SDO) ;;
  _delay_us 300.

(** Step 7: exit programming mode and power the target down. *)
Definition power_down : M unit :=
  PORTC_and (nbv HVSP_SCI) ;;
  PORTC_and (nbv HVSP_SII) ;;
  PORTC_and (nbv HVSP_SDI) ;;
  PORTC_or (bv HVSP_RST) ;;
  _delay_us 10 ;;
  PORTC_and (nbv HVSP_VCC).

(** The LED loop, with [n] iterations still to run. *)
Fixpoint report_loop (n : nat) (fuseRestoreSuccessful : bool) : M unit :=
  match n with
  | O => ret tt
  | S n' =>
      (if fuseRestoreSuccessful
       then PORTB_and (nbv LED_PIN)
       else PORTB_xor (bv LED_PIN)) ;;
      _delay_ms 250 ;;
      report_loop n' fuseRestoreSuccessful
  end.

(** The block run when the push button is pressed; it returns the final
    values of [device] and [fuseRestoreSuccessful]. *)
Definition attempt (fuel : nat) : M (Z * bool) :=
  power_up ;;
  r <- device_loop fuel targetCpu 0 ;;
  power_down ;;
  report_loop 16 (snd r) ;;
  ret r.

(** One iteration of [while(1)]. *)
Definition main_iteration (fuel : nat) : M unit :=
  PORTB_or (bv LED_PIN) ;;
  sw <- read_PINB ;;
  if Z.land sw (bv SWITCH_PIN) =? 0
  then attempt fuel ;; ret tt
  else ret tt.

(** [n] iterations of [while(1)]. *)
Fixpoint main_loop (n : nat) (fuel : nat) : M unit :=
  match n with
  | O => ret tt
  | S n' => main_iteration fuel ;; main_loop n' fuel
  end.

(** [main], cut off after [n] iterations of its loop. *)
Definition main (n : nat) (fuel : nat) : M unit :=
  DDRB_assign (bv LED_PIN) ;;
  PORTB_or (bv LED_PIN) ;;
  DDRB_and (nbv SWITCH_PIN) ;;
  PORTB_or (bv SWITCH_PIN) ;;
  main_loop n fuel.

End Firmware.

(** Conversion unfolds the sequencing functions before the monad and the
    frame-level functions they are built from. *)
Strategy 100 [bind ret transferByte transferByte_loop pollSDO clockit read_PINB read_PINC].

(** ** Observing the programming lines

    What the target sees of a run is the sequence of levels on SDI, SII and
    SCI; what the firmware learns is the level of SDO at each read.  The
    definitions below read an event list the way a protocol analyser on the
    four lines would: clock pulses, 11-pulse frames, and the instructions of
    the High-voltage Serial Programming instruction set. *)

(** [lines p sdi sii sci]: the 8-bit value of PORTC [p] with the three
    programming outputs replaced. *)
Definition lines (p : Z) (sdi sii sci : bool) : Z :=
  Z.lor (Z.land p 0xF4)
    (Z.lor (Z.b2z sdi) (Z.lor (Z.shiftl (Z.b2z sii) 1) (Z.shiftl (Z.b2z sci) 3))).

Inductive LineEvent : Type :=
| Lines (sdi sii sci : bool)   (* PORTC written: the levels now driven *)
| Sample (sdo : bool)          (* PINC read: the level seen on SDO *)
| Hold                         (* a delay *)
| Other.                       (* anything off the programming lines *)

Definition lview (e : Event) : LineEvent :=
  match e with
  | WrPORTC v => Lines (Z.testbit v HVSP_SDI) (Z.testbit v HVSP_SII) (Z.testbit v HVSP_SCI)
  | RdPINC v => Sample (Z.testbit v HVSP_SDO)
  | DelayUs _ | DelayMs _ => Hold
  | _ => Other
  end.

(** A clock pulse is SCI driven high, held, and driven low again; it carries
    the levels of SDI and SII driven while it was raised. *)
Inductive Clock : Type :=
| ClkLow
| ClkRaised (sdi sii : bool)
| ClkHeld (sdi sii : bool).

Inductive Sym : Type :=
| Pulse (sdi sii : bool)
| Smp (sdo : bool).

Definition clock_step (clk : Clock) (e : LineEvent) : Clock :=
  match e with
  | Lines a b true => ClkRaised a b
  | Lines _ _ false => ClkLow
  | Hold => match clk with ClkRaised a b => ClkHeld a b | _ => clk end
  | _ => clk
  end.

Definition emitted (clk : Clock) (e : LineEvent) : list Sym :=
  match e with
  | Lines _ _ false => match clk with ClkHeld a b => [Pulse a b] | _ => [] end
  | Sample s => [Smp s]
  | _ => []
  end.

Fixpoint wire (clk : Clock) (evs : list LineEvent) : list Sym :=
  match evs with
  | [] => []
  | e :: rest => emitted clk e ++ wire (clock_step clk e) rest
  end.

(** The value of a list of bits, most significant bit first. *)
Definition byte_of_bits (l : list bool) : Z :=
  fold_left (fun acc b => 2 * acc + Z.b2z b) l 0.

(** The bits 7..0 of a byte, most significant bit first. *)
Definition bits_msb (x : Z) : list bool :=
  map (fun j => Z.testbit x (7 - Z.of_nat j)) (seq 0 8).

Record Frame : Type := mkFrame { f_data : Z; f_instr : Z; f_resp : Z }.

Inductive Item : Type :=
| Fr (f : Frame)       (* a complete 11-pulse frame *)
| Polled (sdo : bool)  (* SDO sampled outside a frame *)
| Stray.               (* a pulse that starts no complete frame *)

(** A frame is a pulse with both lines low, eight pulses each preceded by a
    sample of SDO, and two pulses with both lines low. *)
Fixpoint frames (l : list Sym) : list Item :=
  match l with
  | [] => []
  | Smp s :: rest => Polled s :: frames rest
  | Pulse false false ::
    Smp s7 :: Pulse d7 i7 :: Smp s6 :: Pulse d6 i6 ::
    Smp s5 :: Pulse d5 i5 :: Smp s4 :: Pulse d4 i4 ::
    Smp s3 :: Pulse d3 i3 :: Smp s2 :: Pulse d2 i2 ::
    Smp s1 :: Pulse d1 i1 :: Smp s0 :: Pulse d0 i0 ::
    Pulse false false :: Pulse false false :: rest =>
      Fr (mkFrame (byte_of_bits [d7; d6; d5; d4; d3; d2; d1; d0])
                  (byte_of_bits [i7; i6; i5; i4; i3; i2; i1; i0])
                  (byte_of_bits [s7; s6; s5; s4; s3; s2; s1; s0])) :: frames rest
  | Pulse _ _ :: rest => Stray :: frames rest
  end.

(** The instructions of the High-voltage Serial Programming instruction set
    that the firmware uses, as sequences of frames. *)
Inductive Fuse : Type := FuseLow | FuseHigh | FuseExtended.

Inductive Op : Type :=
| SigRead (code answer : Z)          (* read signature byte [code] *)
| FuseWrite (f : Fuse) (value : Z)   (* write fuse bits *)
| FuseRead (f : Fuse) (answer : Z)   (* read fuse bits *)
| LoadNop                            (* the frame 0x00/0x4C *)
| Poll (sdo : bool)                  (* SDO sampled outside a frame *)
| Unknown.                           (* a frame or pulse of no known instruction *)

Definition frame_is (f : Frame) (data instr : Z) : bool :=
  (f_data f =? data) && (f_instr f =? instr).

(** The third and fourth frame of a fuse write. *)
Definition write_kind (f3 f4 : Frame) : option Fuse :=
  if frame_is f3 0x00 0x64 && frame_is f4 0x00 0x6C then Some FuseLow
  else if frame_is f3 0x00 0x74 && frame_is f4 0x00 0x7C then Some FuseHigh
  else if frame_is f3 0x00 0x66 && frame_is f4 0x00 0x6E then Some FuseExtended
  else None.

(** The second and third frame of a fuse read. *)
Definition read_kind (f2 f3 : Frame) : option Fuse :=
  if frame_is f2 0x00 0x68 && frame_is f3 0x00 0x6C then Some FuseLow
  else if frame_is f2 0x00 0x7A && frame_is f3 0x00 0x7E then Some FuseHigh
  else if frame_is f2 0x00 0x6A && frame_is f3 0x00 0x6E then Some FuseExtended
  else None.

Fixpoint ops (l : list Item) : list Op :=
  match l with
  | [] => []
  | Polled s :: rest => Poll s :: ops rest
  | Stray :: rest => Unknown :: ops rest
  | Fr f1 :: rest1 =>
      if frame_is f1 0x00 0x4C then LoadNop :: ops rest1
      else
        match rest1 with
        | Fr f2 :: Fr f3 :: rest3 =>
            if frame_is f1 0x04 0x4C then
              match read_kind f2 f3 with
              | Some k => FuseRead k (f_resp f3) :: ops rest3
              | None => Unknown :: ops rest1
              end
            else
              match rest3 with
              | Fr f4 :: rest4 =>
                  if frame_is f1 0x08 0x4C && (f_instr f2 =? 0x0C)
                     && frame_is f3 0x00 0x68 && frame_is f4 0x00 0x6C
                  then SigRead (f_data f2) (f_resp f4) :: ops rest4
                  else if frame_is f1 0x40 0x4C && (f_instr f2 =? 0x2C) then
                    match write_kind f3 f4 with
                    | Some k => FuseWrite k (f_data f2) :: ops rest4
                    | None => Unknown :: ops rest1
                    end
                  else Unknown :: ops rest1
              | _ => Unknown :: ops rest1
              end
        | _ => Unknown :: ops rest1
        end
  end.

(** What an event list amounts to on the programming lines. *)
Definition items (evs : list Event) : list Item :=
  frames (wire ClkLow (map lview evs)).

Definition transcript (evs : list Event) : list Op := ops (items evs).

(** The fuse writes and the signature reads of a transcript. *)
Definition fuse_writes (t : list Op) : list (Fuse * Z) :=
  flat_map (fun o => match o with FuseWrite k v => [(k, v)] | _ => [] end) t.

Definition fuse_reads (t : list Op) : list (Fuse * Z) :=
  flat_map (fun o => match o with FuseRead k v => [(k, v)] | _ => [] end) t.

Definition sig_reads (t : list Op) : list (Z * Z) :=
  flat_map (fun o => match o with SigRead c a => [(c, a)] | _ => [] end) t.

(** ** Closed forms

    The event list of one [transferByte] written out, in terms of the PORTC
    value [p] at entry, the two bytes and the eight values read from PINC. *)

Definition sdo (v : Z) : bool := Z.testbit v HVSP_SDO.

Definition pulse_events (p : Z) (a b : bool) : list Event :=
  [WrPORTC (lines p a b true); DelayUs 1; WrPORTC (lines p a b false)].

(** One cycle per bit pair: sample, drive SDI, drive SII, pulse.  [sii0] is
    the level left on SII by the cycle before. *)
Fixpoint data_events (p : Z) (sii0 : bool) (bits : list (bool * bool)) (rds : list Z)
  : list Event :=
  match bits, rds with
  | (d, i) :: bits', r :: rds' =>
      RdPINC r :: WrPORTC (lines p d sii0 false) :: WrPORTC (lines p d i false)
        :: pulse_events p d i ++ data_events p i bits' rds'
  | _, _ => []
  end.

Definition lead_events (p : Z) : list Event :=
  [WrPORTC (lines p false (Z.testbit p HVSP_SII) (Z.testbit p HVSP_SCI));
   WrPORTC (lines p false false (Z.testbit p HVSP_SCI))]
  ++ pulse_events p false false.

Definition trail_events (p : Z) (sii0 : bool) : list Event :=
  [WrPORTC (lines p false sii0 false); WrPORTC (lines p false false false)]
  ++ pulse_events p false false ++ pulse_events p false false.

Definition tb_events (p data instr : Z) (rds : list Z) : list Event :=
  lead_events p
  ++ data_events p false (combine (bits_msb data) (bits_msb instr)) rds
  ++ trail_events p (Z.testbit instr 0).

(** The values the next [n] reads of PINC return. *)
Definition pinc_reads (inp : Input) (from n : nat) : list Z :=
  map (PINC inp) (seq from n).

(** The byte spelled, most significant bit first, by SDO at the eight reads
    of PINC from read [n] on. *)
Definition reply (inp : Input) (n : nat) : Z :=
  byte_of_bits (map sdo (pinc_reads inp n 8)).

(** The state [k] reads of PINC later, with the three programming outputs
    low: where every frame leaves the machine. *)
Definition advance (w : World) (k : nat) : World :=
  mkWorld (PORTB w) (DDRB w) (lines (PORTC w) false false false) (DDRC w)
          (readsB w) (readsC w + k).

(** The bits the loop of [transferByte] tests, and the byte it builds. *)
Fixpoint tested (n : nat) (x : Z) : list bool :=
  match n with
  | O => []
  | S n' => masked x 0x80 :: tested n' (uint8 (Z.shiftl x 1))
  end.

Definition shift_in (byteRead : Z) (s : bool) : Z :=
  if s then uint8 (Z.lor (uint8 (Z.shiftl byteRead 1)) 1)
  else uint8 (Z.shiftl byteRead 1).

(** ** Vocabulary of the statements *)

Definition bits_eqb (l1 l2 : list bool) : bool :=
  if list_eq_dec bool_dec l1 l2 then true else false.

(** [evs] reads as the instructions [t], whatever follows it. *)
Definition reads_as (evs : list Event) (t : list Op) : Prop :=
  forall rest, transcript (evs ++ rest) = t ++ transcript rest.

(** [evs] shows the frames and samples [its], whatever follows it. *)
Definition frames_as (evs : list Event) (its : list Item) : Prop :=
  forall rest, items (evs ++ rest) = its ++ items rest.

Definition emits {A : Type} (m : M A) (w : World) (a : A) (w' : World) (its : list Item) : Prop :=
  exists evs, m w = Some (a, w', evs) /\ frames_as evs its.

(** [m] started in [w] returns [a] in state [w'], and what it did on the
    programming lines reads as [t]. *)
Definition runs {A : Type} (m : M A) (w : World) (a : A) (w' : World) (t : list Op) : Prop :=
  exists evs, m w = Some (a, w', evs) /\ reads_as evs t.

(** The state [k] reads of PINC later, nothing else changed. *)
Definition skip (w : World) (k : nat) : World :=
  mkWorld (PORTB w) (DDRB w) (PORTC w) (DDRC w) (readsB w) (readsC w + k).

(** From read [from] on, SDO is seen low [n] times and then high. *)
Definition first_high (inp : Input) (from n : nat) : Prop :=
  (forall k, (k < n)%nat -> sdo (PINC inp (from + k)) = false)
  /\ sdo (PINC inp (from + n)) = true.

(** SDO is seen low at every read from [from] on. *)
Definition never_high (inp : Input) (from : nat) : Prop :=
  forall k, sdo (PINC inp (from + k)) = false.

(** Whenever the firmware starts to wait, SDO is seen high at some later read. *)
Definition live (inp : Input) : Prop :=
  forall n, exists m, (n <= m)%nat /\ sdo (PINC inp m) = true.

(** A completed wait: [n] samples low, one high. *)
Definition polls (n : nat) : list Op := repeat (Poll false) n ++ [Poll true].

Definition polled (n : nat) : list Item := repeat (Polled false) n ++ [Polled true].

(** The third and fourth instruction byte of each fuse write. *)
Definition write_opcodes (k : Fuse) : Z * Z :=
  match k with
  | FuseLow => (0x64, 0x6C)
  | FuseHigh => (0x74, 0x7C)
  | FuseExtended => (0x66, 0x6E)
  end.

Definition writeFuse (inp : Input) (k : Fuse) : nat -> Z -> M unit :=
  match k with
  | FuseLow => writeFuseLowBits inp
  | FuseHigh => writeFuseHighBits inp
  | FuseExtended => writeFuseExtendedBits inp
  end.

Definition readFuse (inp : Input) (k : Fuse) : M Z :=
  match k with
  | FuseLow => readFuseLowBits inp
  | FuseHigh => readFuseHighBits inp
  | FuseExtended => readFuseExtendedBits inp
  end.

Strategy expand [writeFuse readFuse].

(** The matching part of the device loop: its header and the condition of
    its [if], without the block run on a match.  It returns the final value
    of [device] and the matched record, if any. *)
Fixpoint find_device (inp : Input) (rest : list TargetCpuInfo_t) (device : Z)
  : M (Z * option TargetCpuInfo_t) :=
  match rest with
  | [] => ret (device, None)
  | cpu :: rest' =>
      if negb (sig_byte cpu 0 =? 0) then
        found <- signature_matches inp cpu ;;
        if found then ret (device, Some cpu)
        else find_device inp rest' (uint8 (device + 1))
      else ret (device, None)
  end.

(** The block run on a match. *)
Definition on_match (inp : Input) (fuel : nat) (device : Z) (cpu : TargetCpuInfo_t)
  : M (Z * bool) :=
  restore_fuses inp fuel cpu ;;
  ok <- verify_fuses inp cpu ;;
  ret (device, ok).

(** The target answers every signature read of the transcript with the byte
    of the signature [s] that was asked for. *)
Definition answers_with (s : list Z) (t : list Op) : Prop :=
  forall c a, In (c, a) (sig_reads t) -> a = nth (Z.to_nat c) s 0.

Fixpoint sig_eqb (a b : list Z) : bool :=
  match a, b with
  | [], [] => true
  | x :: a', y :: b' => (x =? y) && sig_eqb a' b'
  | _, _ => false
  end.

(** The lookup as the specification words it: the first record whose
    signature equals [s], unless the terminator record, whose signature is
    all zero, comes first. *)
Fixpoint first_match (s : list Z) (table : list TargetCpuInfo_t) : option TargetCpuInfo_t :=
  match table with
  | [] => None
  | cpu :: rest =>
      if sig_eqb (signature cpu) [0; 0; 0] then None
      else if sig_eqb s (signature cpu) then Some cpu
      else first_match s rest
  end.

(** The comparison the loop makes on one record, on the bytes read. *)
Definition cpu_matches (s0 s1 s2 : Z) (cpu : TargetCpuInfo_t) : bool :=
  (s0 =? sig_byte cpu 0) && (s1 =? sig_byte cpu 1) && (s2 =? sig_byte cpu 2).

Fixpoint scan_result (s0 s1 s2 : Z) (rest : list TargetCpuInfo_t) (device : Z)
  : Z * option TargetCpuInfo_t :=
  match rest with
  | [] => (device, None)
  | cpu :: rest' =>
      if negb (sig_byte cpu 0 =? 0) then
        if cpu_matches s0 s1 s2 cpu then (device, Some cpu)
        else scan_result s0 s1 s2 rest' (uint8 (device + 1))
      else (device, None)
  end.

(** The signature byte indices asked for while one record is examined, and
    over the whole scan, by a target of signature [s0 s1 s2]. *)
Definition codes_for (s0 s1 : Z) (cpu : TargetCpuInfo_t) : list Z :=
  0 :: (if s0 =? sig_byte cpu 0
        then 1 :: (if s1 =? sig_byte cpu 1 then [2] else [])
        else []).

Fixpoint requested_codes (s0 s1 s2 : Z) (rest : list TargetCpuInfo_t) : list Z :=
  match rest with
  | [] => []
  | cpu :: rest' =>
      if negb (sig_byte cpu 0 =? 0) then
        codes_for s0 s1 cpu
        ++ (if cpu_matches s0 s1 s2 cpu then [] else requested_codes s0 s1 s2 rest')
      else []
  end.

(** What a run returned, the state it left and the events it produced; a
    run that is out of fuel has none. *)
Definition result_of {A : Type} (r : option (A * World * list Event)) : option A :=
  match r with Some (a, _, _) => Some a | None => None end.
Definition state_of {A : Type} (w : World) (r : option (A * World * list Event)) : World :=
  match r with Some (_, w', _) => w' | None => w end.
Definition events_of {A : Type} (r : option (A * World * list Event)) : list Event :=
  match r with Some (_, _, e) => e | None => [] end.

(** The state in which the device loop of an attempt starts. *)
Definition powered (w : World) : World := state_of w (power_up w).

(** The clock pulses among the symbols seen on the wire, each with the
    levels of SDI and SII it carries. *)
Definition pulses_of (l : list Sym) : list (bool * bool) :=
  flat_map (fun s => match s with Pulse a b => [(a, b)] | Smp _ => [] end) l.

(** ** Inputs used in the examples *)

(** PINC reads 0x04 (SDO high) for a [true] sample and 0x00 for a [false]. *)
Definition level (b : bool) : Z := if b then 0x04 else 0x00.

(** The eight samples that spell the byte [x], and [k] frames of silence. *)
Definition spell (x : Z) : list Z := map level (bits_msb x).
Definition silence (k : nat) : list Z := repeat 0x00 (8 * k).

(** The button held down (PINB reads 0), PINC as listed and high ever after. *)
Definition input_of (samples : list Z) : Input :=
  mkInput (fun _ => 0x00) (fun n => nth n samples 0x04).

(** SDO never goes high. *)
Definition input_dead : Input := mkInput (fun _ => 0x00) (fun _ => 0x00).

(** The registers after reset. *)
Definition w_reset : World := mkWorld 0 0 0 0 0 0.

(** [w'] is [w] some frames and polls later: only PORTC's three programming
    outputs and the count of PINC reads can differ. *)
Definition later (w w' : World) : Prop :=
  w' = w \/ exists k, w' = advance w k.

(** The signature reads [(code, answer)] as instructions. *)
Definition sig_ops (qs : list (Z * Z)) : list Op :=
  map (fun q => SigRead (fst q) (snd q)) qs.

(** A completed fuse write with its two waits. *)
Definition write_ops (k : Fuse) (v : Z) (n1 n2 : nat) : list Op :=
  FuseWrite k v :: polls n1 ++ LoadNop :: polls n2.

(** A fuse write that starts at read [from] of PINC completes after [n1]
    and [n2] low samples in its two waits; it then has used [write_len]
    reads. *)
Definition write_done (inp : Input) (from n1 n2 : nat) : Prop :=
  first_high inp (from + 32) n1 /\ first_high inp (from + 32 + S n1 + 8) n2.

Definition write_len (n1 n2 : nat) : nat := 32 + S n1 + 8 + S n2.

(** The fuse bytes of a record are bytes. *)
Definition fuse_bytes (cpu : TargetCpuInfo_t) : Prop :=
  0 <= fuseLowBits cpu < 256 /\ 0 <= fuseHighBits cpu < 256
  /\ 0 <= fuseExtendedBits cpu < 256.

(** Records of the table, by index. *)
Definition record (i : nat) : TargetCpuInfo_t := nth i targetCpu (mkCpu [0; 0; 0] 0 0 0).
Definition ATtiny13 : TargetCpuInfo_t := record 0.
Definition ATtiny24 : TargetCpuInfo_t := record 1.
Definition ATtiny85 : TargetCpuInfo_t := record 6.

(** The samples a target sends in answer to signature reads that return the
    bytes [bs]: three frames of silence, then the byte. *)
Definition sig_answers (bs : list Z) : list Z :=
  flat_map (fun b => silence 3 ++ spell b) bs.

(** An ATtiny85 in front of the table: each record is asked for as far as
    its bytes agree with 0x1E 0x93 0x0B. *)
Definition tiny85_answers : list Z :=
  sig_answers [0x1E; 0x93;  0x1E; 0x93;  0x1E; 0x93;  0x1E; 0x93; 0x0B;
               0x1E; 0x93;  0x1E; 0x93;  0x1E; 0x93; 0x0B].

(** ** The phases of an attempt, written out *)

(** The events of [power_down] from PORTC value [p]. *)
Definition power_down_values (p : Z) : list Z :=
  let c1 := and8 p (nbv HVSP_SCI) in
  let c2 := and8 c1 (nbv HVSP_SII) in
  let c3 := and8 c2 (nbv HVSP_SDI) in
  let c4 := or8 c3 (bv HVSP_RST) in
  let c5 := and8 c4 (nbv HVSP_VCC) in
  [c1; c2; c3; c4; c5].

Definition power_down_events (p : Z) : list Event :=
  match power_down_values p with
  | [c1; c2; c3; c4; c5] =>
      [WrPORTC c1; WrPORTC c2; WrPORTC c3; WrPORTC c4; DelayUs 10; WrPORTC c5]
  | _ => []
  end.

(** The values written to PORTB by the LED loop, from PORTB value [pb]. *)
Fixpoint report_values (n : nat) (ok : bool) (pb : Z) : list Z :=
  match n with
  | O => []
  | S n' =>
      let v := if ok then and8 pb (nbv LED_PIN) else xor8 pb (bv LED_PIN) in
      v :: report_values n' ok v
  end.

Definition report_events (n : nat) (ok : bool) (pb : Z) : list Event :=
  flat_map (fun v => [WrPORTB v; DelayMs 250]) (report_values n ok pb).

(** The milliseconds of [_delay_ms] in an event list. *)
Definition total_ms (evs : list Event) : Z :=
  fold_right (fun e acc => match e with DelayMs n => n + acc | _ => acc end) 0 evs.

(** The level of the LED pin in a PORTB value: the LED is lit when low. *)
Definition led (v : Z) : bool := Z.testbit v LED_PIN.

(** Events that the target does not see as a pulse or that sample nothing:
    PORTC written with SCI low, delays, anything off PORTC. *)
Definition quiet (e : Event) : bool :=
  match e with
  | WrPORTC v => negb (Z.testbit v HVSP_SCI)
  | RdPINC _ => false
  | _ => true
  end.

(** The state after the LED is switched off and the push button read, at
    the top of the main loop. *)
Definition triggered (w : World) : World :=
  mkWorld (or8 (PORTB w) (bv LED_PIN)) (DDRB w) (PORTC w) (DDRC w)
          (S (readsB w)) (readsC w).

(** The push button is seen pressed at read [n] of PINB. *)
Definition pressed (inp : Input) (n : nat) : Prop :=
  Z.land (PINB inp n) (bv SWITCH_PIN) = 0.

(** A target that reads as an ATtiny13, answers each wait at once and reads
    its fuses back as 0x6A and 0xFF. *)
Definition tiny13_session : list Z :=
  sig_answers [0x1E; 0x90; 0x07]
  ++ (silence 4 ++ [0x04] ++ silence 1 ++ [0x04])
  ++ (silence 4 ++ [0x04] ++ silence 1 ++ [0x04])
  ++ (silence 2 ++ spell 0x6A)
  ++ (silence 2 ++ spell 0xFF).

(** A target whose signature 0x1E 0x95 0x0F (an ATmega328P) is in no record:
    every record is asked for bytes 0 and 1. *)
Definition unknown_answers : list Z :=
  sig_answers [0x1E; 0x95;  0x1E; 0x95;  0x1E; 0x95;  0x1E; 0x95;
               0x1E; 0x95;  0x1E; 0x95;  0x1E; 0x95].

(** The state an attempt leaves: PORTC powered down from [p], PORTB as the
    LED loop left it. *)
Definition finished (w1 : World) (ok : bool) : World :=
  mkWorld (last (report_values 16 ok (PORTB w1)) (PORTB w1)) (DDRB w1)
          (last (power_down_values (PORTC w1)) 0) (DDRC w1) (readsB w1) (readsC w1).


(** ** Further vocabulary *)

(** The second and third instruction byte of each fuse read. *)
Definition read_opcodes (k : Fuse) : Z * Z :=
  match k with
  | FuseLow => (0x68, 0x6C)
  | FuseHigh => (0x7A, 0x7E)
  | FuseExtended => (0x6A, 0x6E)
  end.

(** The events a frame may consist of: writes to PORTC, reads of PINC and
    the 1 us hold of the clock. *)
Definition frame_event (e : Event) : bool :=
  match e with
  | WrPORTC _ | RdPINC _ => true
  | DelayUs n => n =? 1
  | _ => false
  end.

(** The events of an idle iteration of the main loop: PORTB written with
    the LED pin high (LED off), PINB read. *)
Definition idle_event (e : Event) : bool :=
  match e with
  | WrPORTB v => led v
  | RdPINB _ => true
  | _ => false
  end.

(** The button released (PINB reads 0x02) at every read. *)
Definition input_released : Input := mkInput (fun _ => 0x02) (fun _ => 0x00).

(** The three signature bytes of a record, as signature reads answered
    with them. *)
Definition matched_reads (cpu : TargetCpuInfo_t) : list (Z * Z) :=
  [(0, sig_byte cpu 0); (1, sig_byte cpu 1); (2, sig_byte cpu 2)].

(** The fuse writes of the restore block for a record. *)
Definition default_writes (cpu : TargetCpuInfo_t) : list (Fuse * Z) :=
  (FuseLow, fuseLowBits cpu) :: (FuseHigh, fuseHighBits cpu)
    :: (if fuseExtendedBits cpu =? 0 then []
        else [(FuseExtended, fuseExtendedBits cpu)]).

(** The state in which [main] enters its loop. *)
Definition initialised (w : World) : World :=
  mkWorld (or8 (or8 (PORTB w) (bv LED_PIN)) (bv SWITCH_PIN)) 1
          (PORTC w) (DDRC w) (readsB w) (readsC w).

(** A target powered and held in programming mode: VCC high, the RST pin
    low (12 V applied), SDO an input. *)
Definition w_powered : World := mkWorld 0x01 0x01 0x10 0x3B 0 0.

(** The values [power_up] writes to PORTC and to DDRC, from the values [p]
    and [dc] the registers hold at entry. *)
Definition power_up_ports (p : Z) : list Z :=
  let c1 := and8 p (nbv HVSP_SCI) in
  let c2 := and8 c1 (nbv HVSP_SII) in
  let c3 := and8 c2 (nbv HVSP_SDI) in
  let c4 := and8 c3 (nbv HVSP_SDO) in
  let c5 := or8 c4 (bv HVSP_RST) in
  let c6 := and8 c5 (nbv HVSP_VCC) in
  let c7 := or8 c6 (bv HVSP_VCC) in
  let c8 := and8 c7 (nbv HVSP_RST) in
  [c1; c2; c3; c4; c5; c6; c7; c8].

Definition power_up_ddrs (dc : Z) : list Z :=
  let d1 := or8 dc (bv HVSP_SCI) in
  let d2 := or8 d1 (bv HVSP_SII) in
  let d3 := or8 d2 (bv HVSP_SDI) in
  let d4 := or8 d3 (bv HVSP_SDO) in
  let d5 := or8 d4 (bv HVSP_RST) in
  let d6 := or8 d5 (bv HVSP_VCC) in
  let d7 := and8 d6 (nbv HVSP_SDO) in
  [d1; d2; d3; d4; d5; d6; d7].

Definition power_up_events (p dc : Z) : list Event :=
  match power_up_ports p, power_up_ddrs dc with
  | [c1; c2; c3; c4; c5; c6; c7; c8], [d1; d2; d3; d4; d5; d6; d7] =>
      [WrDDRC d1; WrDDRC d2; WrDDRC d3; WrDDRC d4; WrDDRC d5; WrDDRC d6;
       WrPORTC c1; WrPORTC c2; WrPORTC c3; WrPORTC c4; WrPORTC c5; WrPORTC c6;
       WrPORTC c7; DelayUs 60; WrPORTC c8; DelayUs 20; WrDDRC d7; DelayUs 300]
  | _, _ => []
  end.

(** A write to PORTC or DDRC. *)
Definition port_write (e : Event) : bool :=
  match e with
  | WrPORTC _ | WrDDRC _ => true
  | _ => false
  end.


(** The fuse bytes a successful verification read back. *)
Definition default_reads (cpu : TargetCpuInfo_t) : list (Fuse * Z) :=
  (FuseLow, fuseLowBits cpu) :: (FuseHigh, fuseHighBits cpu)
    :: (if fuseExtendedBits cpu =? 0 then []
        else [(FuseExtended, fuseExtendedBits cpu)]).

(** The instructions of the restore block for a record: each fuse write
    with its two completed waits. *)
Definition restore_ops (cpu : TargetCpuInfo_t) (n1 n2 n3 n4 n5 n6 : nat) : list Op :=
  write_ops FuseLow (fuseLowBits cpu) n1 n2
  ++ write_ops FuseHigh (fuseHighBits cpu) n3 n4
  ++ (if fuseExtendedBits cpu =? 0 then []
      else write_ops FuseExtended (fuseExtendedBits cpu) n5 n6).

(** The fuse reads [(fuse, answer)] as instructions. *)
Definition read_ops (rs : list (Fuse * Z)) : list Op :=
  map (fun q => FuseRead (fst q) (snd q)) rs.

(** The button pressed at the first read of PINB and released at every
    later one; PINC as listed and high ever after. *)
Definition input_press_once (samples : list Z) : Input :=
  mkInput (fun n => match n with O => 0x00 | S _ => 0x02 end)
          (fun n => nth n samples 0x04).
(** ** Facts about the 8-bit register arithmetic *)

Lemma uint8_land (x : Z) : uint8 x = Z.land x 255.
Proof.
  unfold uint8. change 255 with (Z.ones 8). rewrite Z.land_ones by lia.
  reflexivity.
Qed.

Lemma uint8_range (x : Z) : 0 <= uint8 x < 256.
Proof. unfold uint8. apply Z.mod_pos_bound. lia. Qed.

Lemma uint8_small (x : Z) : 0 <= x < 256 -> uint8 x = x.
Proof. intros H. unfold uint8. apply Z.mod_small. exact H. Qed.

Lemma testbit_uint8 (x n : Z) :
  Z.testbit (uint8 x) n = Z.testbit x n && (n <? 8).
Proof.
  unfold uint8. change 256 with (2 ^ 8).
  destruct (Z.ltb_spec n 8) as [Hlt | Hge].
  - rewrite Z.mod_pow2_bits_low by lia. now rewrite andb_true_r.
  - rewrite Z.mod_pow2_bits_high by lia. now rewrite andb_false_r.
Qed.

Lemma testbit_bv (k n : Z) : 0 <= k -> Z.testbit (bv k) n = (k =? n).
Proof.
  intros Hk. unfold bv. rewrite Z.shiftl_1_l. now apply Z.pow2_bits_eqb.
Qed.

Lemma testbit_nbv (k n : Z) :
  0 <= k -> 0 <= n -> Z.testbit (nbv k) n = negb (k =? n).
Proof.
  intros Hk Hn. unfold nbv. rewrite Z.lnot_spec by lia.
  fold (bv k). now rewrite testbit_bv.
Qed.

Lemma testbit_or8_bv (v k n : Z) :
  0 <= k ->
  Z.testbit (or8 v (bv k)) n = ((Z.testbit v n || (k =? n)) && (n <? 8)).
Proof.
  intros Hk. unfold or8. rewrite testbit_uint8, Z.lor_spec, testbit_bv by lia.
  reflexivity.
Qed.

Lemma testbit_and8_nbv (v k n : Z) :
  0 <= k -> 0 <= n ->
  Z.testbit (and8 v (nbv k)) n = (Z.testbit v n && negb (k =? n) && (n <? 8)).
Proof.
  intros Hk Hn. unfold and8.
  rewrite testbit_uint8, Z.land_spec, testbit_nbv by lia. reflexivity.
Qed.

Lemma testbit_xor8_bv (v k n : Z) :
  0 <= k ->
  Z.testbit (xor8 v (bv k)) n = (xorb (Z.testbit v n) (k =? n) && (n <? 8)).
Proof.
  intros Hk. unfold xor8.
  rewrite testbit_uint8, Z.lxor_spec, testbit_bv by lia. reflexivity.
Qed.

Lemma masked_bv (v k : Z) : 0 <= k -> masked v (bv k) = Z.testbit v k.
Proof.
  intros Hk. unfold masked.
  destruct (Z.testbit v k) eqn:E.
  - destruct (Z.eqb_spec (Z.land v (bv k)) 0) as [H0 | ]; [ | reflexivity].
    exfalso.
    assert (Hb : Z.testbit (Z.land v (bv k)) k = true).
    { rewrite Z.land_spec, E, testbit_bv, Z.eqb_refl by lia. reflexivity. }
    rewrite H0, Z.bits_0 in Hb. discriminate.
  - assert (H0 : Z.land v (bv k) = 0).
    { apply Z.bits_inj'. intros n Hn.
      rewrite Z.land_spec, testbit_bv, Z.bits_0 by lia.
      destruct (Z.eqb_spec k n) as [-> | ].
      - now rewrite E.
      - apply andb_false_r. }
    rewrite H0. reflexivity.
Qed.

Lemma testbit_b2z (b : bool) (n : Z) : Z.testbit (Z.b2z b) n = b && (n =? 0).
Proof.
  destruct b; simpl Z.b2z.
  - destruct n; reflexivity.
  - now rewrite Z.bits_0.
Qed.


Lemma testbit_244 (n : Z) :
  0 <= n ->
  Z.testbit 244 n = negb (n =? 0) && negb (n =? 1) && negb (n =? 3) && (n <? 8).
Proof.
  intros Hn.
  assert (Hc : n = 0 \/ n = 1 \/ n = 2 \/ n = 3 \/ n = 4 \/ n = 5 \/ n = 6 \/ n = 7 \/ 8 <= n) by lia.
  destruct Hc as [-> | [-> | [-> | [-> | [-> | [-> | [-> | [-> | Hge]]]]]]]];
    try reflexivity.
  rewrite Z.bits_above_log2 by (simpl; lia).
  destruct (Z.ltb_spec n 8); [lia | ].
  now rewrite andb_false_r.
Qed.

Lemma testbit_lines (p : Z) (a b c : bool) (n : Z) :
  0 <= n ->
  Z.testbit (lines p a b c) n =
    if n =? 0 then a else if n =? 1 then b else if n =? 3 then c
    else Z.testbit p n && (n <? 8).
Proof.
  intros Hn. unfold lines.
  rewrite !Z.lor_spec, Z.land_spec, !Z.shiftl_spec, !testbit_b2z, testbit_244 by lia.
  assert (Hc : n = 0 \/ n = 1 \/ n = 3 \/ (n <> 0 /\ n <> 1 /\ n <> 3)) by lia.
  destruct Hc as [-> | [-> | [-> | (H0 & H1 & H3)]]].
  - simpl. rewrite andb_false_r. destruct a, b, c; reflexivity.
  - simpl. rewrite andb_false_r. destruct a, b, c; reflexivity.
  - simpl. rewrite andb_false_r. destruct a, b, c; reflexivity.
  - destruct (Z.eqb_spec n 0); [contradiction | ].
    destruct (Z.eqb_spec n 1); [contradiction | ].
    destruct (Z.eqb_spec n 3); [contradiction | ].
    destruct (Z.eqb_spec (n - 1) 0); [lia | ].
    destruct (Z.eqb_spec (n - 3) 0); [lia | ].
    simpl. rewrite !andb_false_r, !orb_false_r. reflexivity.
Qed.

Lemma lines_unique (p x : Z) (a b c : bool) :
  (forall n, 0 <= n ->
     Z.testbit x n =
       if n =? 0 then a else if n =? 1 then b else if n =? 3 then c
       else Z.testbit p n && (n <? 8)) ->
  x = lines p a b c.
Proof.
  intros H. apply Z.bits_inj'. intros n Hn.
  rewrite H, testbit_lines by lia. reflexivity.
Qed.

Ltac lines_bits :=
  apply lines_unique; intros n Hn;
  rewrite ?testbit_or8_bv, ?testbit_and8_nbv, ?testbit_lines by (unfold HVSP_SDI, HVSP_SII, HVSP_SCI; lia);
  unfold HVSP_SDI, HVSP_SII, HVSP_SCI;
  destruct (Z.eqb_spec n 0) as [-> | ?]; [simpl; rewrite ?andb_true_r, ?orb_false_r, ?orb_true_r, ?andb_false_r; try reflexivity | ];
  destruct (Z.eqb_spec n 1) as [-> | ?]; [simpl; rewrite ?andb_true_r, ?orb_false_r, ?orb_true_r, ?andb_false_r; try reflexivity | ];
  destruct (Z.eqb_spec n 3) as [-> | ?]; [simpl; rewrite ?andb_true_r, ?orb_false_r, ?orb_true_r, ?andb_false_r; try reflexivity | ];
  repeat match goal with
         | |- context [?k =? n] =>
             destruct (Z.eqb_spec k n); [lia | ]
         end;
  simpl; rewrite ?andb_true_r, ?orb_false_r;
  destruct (n <? 8); rewrite ?andb_true_r, ?andb_false_r; reflexivity.

Lemma lines_set_sdi (p : Z) (a b c : bool) :
  or8 (lines p a b c) (bv HVSP_SDI) = lines p true b c.
Proof. lines_bits. Qed.

Lemma lines_clr_sdi (p : Z) (a b c : bool) :
  and8 (lines p a b c) (nbv HVSP_SDI) = lines p false b c.
Proof. lines_bits. Qed.

Lemma lines_set_sii (p : Z) (a b c : bool) :
  or8 (lines p a b c) (bv HVSP_SII) = lines p a true c.
Proof. lines_bits. Qed.

Lemma lines_clr_sii (p : Z) (a b c : bool) :
  and8 (lines p a b c) (nbv HVSP_SII) = lines p a false c.
Proof. lines_bits. Qed.

Lemma lines_set_sci (p : Z) (a b c : bool) :
  or8 (lines p a b c) (bv HVSP_SCI) = lines p a b true.
Proof. lines_bits. Qed.

Lemma lines_clr_sci (p : Z) (a b c : bool) :
  and8 (lines p a b c) (nbv HVSP_SCI) = lines p a b false.
Proof. lines_bits. Qed.

Lemma lines_enter (p : Z) :
  and8 p (nbv HVSP_SDI) = lines p false (Z.testbit p HVSP_SII) (Z.testbit p HVSP_SCI).
Proof. lines_bits. Qed.

Lemma lines_lines (p : Z) (a b c a' b' c' : bool) :
  lines (lines p a b c) a' b' c' = lines p a' b' c'.
Proof. lines_bits. Qed.

(** ** Bytes, bit by bit *)

Lemma byte_forall (f : Z -> bool) :
  forallb (fun n => f (Z.of_nat n)) (seq 0 256) = true ->
  forall x, 0 <= x < 256 -> f x = true.
Proof.
  intros H x Hx. rewrite forallb_forall in H.
  rewrite <- (Z2Nat.id x) by lia. apply H. apply in_seq. lia.
Qed.

Lemma bits_eqb_eq (l1 l2 : list bool) : bits_eqb l1 l2 = true -> l1 = l2.
Proof. unfold bits_eqb. destruct (list_eq_dec bool_dec l1 l2); [auto | discriminate]. Qed.

Lemma tested_bits_msb (x : Z) : 0 <= x < 256 -> tested 8 x = bits_msb x.
Proof.
  intros Hx. apply bits_eqb_eq.
  apply (byte_forall (fun x => bits_eqb (tested 8 x) (bits_msb x))); [ | exact Hx].
  vm_compute. reflexivity.
Qed.

Lemma byte_of_bits_msb (x : Z) : 0 <= x < 256 -> byte_of_bits (bits_msb x) = x.
Proof.
  intros Hx. apply Z.eqb_eq.
  apply (byte_forall (fun x => byte_of_bits (bits_msb x) =? x)); [ | exact Hx].
  vm_compute. reflexivity.
Qed.

Lemma shift_in_byte (s7 s6 s5 s4 s3 s2 s1 s0 : bool) :
  fold_left shift_in [s7; s6; s5; s4; s3; s2; s1; s0] 0
  = byte_of_bits [s7; s6; s5; s4; s3; s2; s1; s0].
Proof. destruct s7, s6, s5, s4, s3, s2, s1, s0; reflexivity. Qed.

Lemma byte_of_bits_testbit (s7 s6 s5 s4 s3 s2 s1 s0 : bool) :
  map (Z.testbit (byte_of_bits [s7; s6; s5; s4; s3; s2; s1; s0])) [7; 6; 5; 4; 3; 2; 1; 0]
  = [s7; s6; s5; s4; s3; s2; s1; s0].
Proof. destruct s7, s6, s5, s4, s3, s2, s1, s0; reflexivity. Qed.

Lemma byte_of_bits_range (s7 s6 s5 s4 s3 s2 s1 s0 : bool) :
  0 <= byte_of_bits [s7; s6; s5; s4; s3; s2; s1; s0] < 256.
Proof. destruct s7, s6, s5, s4, s3, s2, s1, s0; vm_compute; split; congruence. Qed.

Lemma last_cons {A : Type} (x d : A) (l : list A) : last (x :: l) d = last l x.
Proof.
  revert x d. induction l as [ | y l IH]; intros x d; [reflexivity | ].
  change (last (x :: y :: l) d) with (last (y :: l) d).
  rewrite !IH. reflexivity.
Qed.

(** ** Running the monad *)

Lemma bind_run {A B : Type} (m : M A) (f : A -> M B) (w w1 : World) (a : A) (e1 : list Event) :
  m w = Some (a, w1, e1) ->
  bind m f w = match f a w1 with
               | None => None
               | Some (b, w2, e2) => Some (b, w2, e1 ++ e2)
               end.
Proof. intros H. unfold bind. rewrite H. reflexivity. Qed.

Lemma bind_run2 {A B : Type} (m : M A) (f : A -> M B) (w w1 w2 : World)
      (a : A) (b : B) (e1 e2 : list Event) :
  m w = Some (a, w1, e1) ->
  f a w1 = Some (b, w2, e2) ->
  bind m f w = Some (b, w2, e1 ++ e2).
Proof. intros H1 H2. rewrite (bind_run _ _ _ _ _ _ H1), H2. reflexivity. Qed.

Lemma bind_none {A B : Type} (m : M A) (f : A -> M B) (w : World) :
  m w = None -> bind m f w = None.
Proof. intros H. unfold bind. rewrite H. reflexivity. Qed.

Lemma bind_run_none {A B : Type} (m : M A) (f : A -> M B) (w w1 : World)
      (a : A) (e1 : list Event) :
  m w = Some (a, w1, e1) -> f a w1 = None -> bind m f w = None.
Proof. intros H1 H2. rewrite (bind_run _ _ _ _ _ _ H1), H2. reflexivity. Qed.

(** ** One frame *)

Section Transfer.

Variable inp : Input.

Lemma clockit_run (pb db p dc : Z) (a b c : bool) (rb rc : nat) :
  clockit (mkWorld pb db (lines p a b c) dc rb rc)
  = Some (tt, mkWorld pb db (lines p a b false) dc rb rc, pulse_events p a b).
Proof.
  unfold clockit, bind, PORTC_or, PORTC_and, _delay_us, pulse_events.
  cbn [PORTB DDRB PORTC DDRC readsB readsC app].
  rewrite lines_set_sci, lines_clr_sci. reflexivity.
Qed.

Lemma drive_sdi_run (x : Z) (pb db p dc : Z) (a b c : bool) (rb rc : nat) :
  (if masked x 0x80 then PORTC_or (bv HVSP_SDI) else PORTC_and (nbv HVSP_SDI))
    (mkWorld pb db (lines p a b c) dc rb rc)
  = Some (tt, mkWorld pb db (lines p (masked x 0x80) b c) dc rb rc,
          [WrPORTC (lines p (masked x 0x80) b c)]).
Proof.
  destruct (masked x 0x80); unfold PORTC_or, PORTC_and;
    cbn [PORTB DDRB PORTC DDRC readsB readsC];
    rewrite ?lines_set_sdi, ?lines_clr_sdi; reflexivity.
Qed.

Lemma drive_sii_run (x : Z) (pb db p dc : Z) (a b c : bool) (rb rc : nat) :
  (if masked x 0x80 then PORTC_or (bv HVSP_SII) else PORTC_and (nbv HVSP_SII))
    (mkWorld pb db (lines p a b c) dc rb rc)
  = Some (tt, mkWorld pb db (lines p a (masked x 0x80) c) dc rb rc,
          [WrPORTC (lines p a (masked x 0x80) c)]).
Proof.
  destruct (masked x 0x80); unfold PORTC_or, PORTC_and;
    cbn [PORTB DDRB PORTC DDRC readsB readsC];
    rewrite ?lines_set_sii, ?lines_clr_sii; reflexivity.
Qed.

Lemma transferByte_loop_run (n : nat) :
  forall (data instr br pb db p dc : Z) (a b : bool) (rb rc : nat),
    transferByte_loop inp n data instr br (mkWorld pb db (lines p a b false) dc rb rc)
    = Some (fold_left shift_in (map sdo (pinc_reads inp rc n)) br,
            mkWorld pb db
              (lines p (last (tested n data) a) (last (tested n instr) b) false)
              dc rb (rc + n),
            data_events p b (combine (tested n data) (tested n instr))
              (pinc_reads inp rc n)).
Proof.
  induction n as [ | n IH]; intros data instr br pb db p dc a b rb rc.
  - cbn. rewrite Nat.add_0_r. reflexivity.
  - cbn [transferByte_loop].
    unfold bind at 1. unfold read_PINC at 1.
    cbn [PORTB DDRB PORTC DDRC readsB readsC].
    unfold bind at 1. rewrite drive_sdi_run.
    unfold bind at 1. rewrite drive_sii_run.
    unfold bind at 1. rewrite clockit_run.
    rewrite IH.
    cbn [tested]. rewrite !last_cons.
    unfold pinc_reads. cbn [seq map combine data_events fold_left app].
    replace (S rc + n)%nat with (rc + S n)%nat by lia.
    rewrite masked_bv by (unfold HVSP_SDO; lia).
    unfold shift_in at 2. fold (sdo (PINC inp rc)).
    reflexivity.
Qed.

Lemma last_bits_msb (x : Z) (d : bool) : last (bits_msb x) d = Z.testbit x 0.
Proof. reflexivity. Qed.

Lemma transferByte_run (data instr : Z) (w : World) :
  0 <= data < 256 -> 0 <= instr < 256 ->
  transferByte inp data instr w
  = Some (reply inp (readsC w), advance w 8,
          tb_events (PORTC w) data instr (pinc_reads inp (readsC w) 8)).
Proof.
  intros Hd Hi. destruct w as [pb db p dc rb rc].
  unfold transferByte, advance, reply, tb_events, lead_events, trail_events.
  cbn [PORTB DDRB PORTC DDRC readsB readsC].
  unfold bind at 1. unfold PORTC_and at 1.
  cbn [PORTB DDRB PORTC DDRC readsB readsC]. rewrite lines_enter.
  unfold bind at 1. unfold PORTC_and at 1.
  cbn [PORTB DDRB PORTC DDRC readsB readsC]. rewrite lines_clr_sii.
  unfold bind at 1. rewrite clockit_run.
  unfold bind at 1. rewrite transferByte_loop_run.
  rewrite !tested_bits_msb, !last_bits_msb by assumption.
  unfold bind at 1. unfold PORTC_and at 1.
  cbn [PORTB DDRB PORTC DDRC readsB readsC]. rewrite lines_clr_sdi.
  unfold bind at 1. unfold PORTC_and at 1.
  cbn [PORTB DDRB PORTC DDRC readsB readsC]. rewrite lines_clr_sii.
  unfold bind at 1. rewrite clockit_run.
  unfold bind at 1. rewrite clockit_run.
  unfold ret.
  replace (fold_left shift_in (map sdo (pinc_reads inp rc 8)) 0)
    with (byte_of_bits (map sdo (pinc_reads inp rc 8)))
    by (unfold pinc_reads; cbn [seq map]; symmetry; apply shift_in_byte).
  rewrite !app_nil_r, <- !app_assoc. reflexivity.
Qed.

End Transfer.

(** ** Frames on the wire *)

Lemma lview_lines (p : Z) (a b c : bool) : lview (WrPORTC (lines p a b c)) = Lines a b c.
Proof.
  unfold lview, HVSP_SDI, HVSP_SII, HVSP_SCI.
  rewrite !testbit_lines by lia. reflexivity.
Qed.

Lemma items_transfer_bits (inp : Input) (p data instr : Z) (rc : nat) (rest : list Event) :
  items (tb_events p data instr (pinc_reads inp rc 8) ++ rest)
  = Fr (mkFrame (byte_of_bits (bits_msb data)) (byte_of_bits (bits_msb instr))
          (reply inp rc)) :: items rest.
Proof.
  unfold items, tb_events, lead_events, trail_events, pulse_events, reply.
  unfold pinc_reads, bits_msb.
  cbn [seq map combine data_events app pulse_events].
  unfold pulse_events. cbn [map app].
  rewrite !lview_lines.
  destruct (Z.testbit p HVSP_SCI);
    cbn [lview wire clock_step emitted app frames]; reflexivity.
Qed.

Lemma items_transfer (inp : Input) (p data instr : Z) (rc : nat) (rest : list Event) :
  0 <= data < 256 -> 0 <= instr < 256 ->
  items (tb_events p data instr (pinc_reads inp rc 8) ++ rest)
  = Fr (mkFrame data instr (reply inp rc)) :: items rest.
Proof.
  intros Hd Hi. rewrite items_transfer_bits, !byte_of_bits_msb by assumption.
  reflexivity.
Qed.

Lemma items_polled (vs : list Z) (rest : list Event) :
  items (map RdPINC vs ++ rest) = map (fun v => Polled (sdo v)) vs ++ items rest.
Proof.
  unfold items. induction vs as [ | v vs IH]; [reflexivity | ].
  cbn [map app lview wire emitted clock_step frames]. rewrite IH. reflexivity.
Qed.

(** ** Composing runs *)

Lemma frames_as_nil : frames_as [] [].
Proof. intros rest. reflexivity. Qed.

Lemma frames_as_app (e1 e2 : list Event) (i1 i2 : list Item) :
  frames_as e1 i1 -> frames_as e2 i2 -> frames_as (e1 ++ e2) (i1 ++ i2).
Proof.
  intros H1 H2 rest. rewrite <- !app_assoc, H1, H2. reflexivity.
Qed.

Lemma reads_as_nil : reads_as [] [].
Proof. intros rest. reflexivity. Qed.

Lemma reads_as_app (e1 e2 : list Event) (t1 t2 : list Op) :
  reads_as e1 t1 -> reads_as e2 t2 -> reads_as (e1 ++ e2) (t1 ++ t2).
Proof.
  intros H1 H2 rest. rewrite <- !app_assoc, H1, H2. reflexivity.
Qed.

Lemma reads_as_transcript (evs : list Event) (t : list Op) :
  reads_as evs t -> transcript evs = t.
Proof.
  intros H. specialize (H []). rewrite !app_nil_r in H. exact H.
Qed.

Lemma emits_ret {A : Type} (a : A) (w : World) : emits (ret a) w a w [].
Proof. exists []. split; [reflexivity | apply frames_as_nil]. Qed.

Lemma emits_bind {A B : Type} (m : M A) (f : A -> M B) (w w1 w2 : World)
      (a : A) (b : B) (i1 i2 : list Item) :
  emits m w a w1 i1 -> emits (f a) w1 b w2 i2 -> emits (bind m f) w b w2 (i1 ++ i2).
Proof.
  intros (e1 & R1 & F1) (e2 & R2 & F2). exists (e1 ++ e2). split.
  - now apply bind_run2 with (w1 := w1) (a := a).
  - now apply frames_as_app.
Qed.

Lemma runs_ret {A : Type} (a : A) (w : World) : runs (ret a) w a w [].
Proof. exists []. split; [reflexivity | apply reads_as_nil]. Qed.

Lemma runs_bind {A B : Type} (m : M A) (f : A -> M B) (w w1 w2 : World)
      (a : A) (b : B) (t1 t2 : list Op) :
  runs m w a w1 t1 -> runs (f a) w1 b w2 t2 -> runs (bind m f) w b w2 (t1 ++ t2).
Proof.
  intros (e1 & R1 & F1) (e2 & R2 & F2). exists (e1 ++ e2). split.
  - now apply bind_run2 with (w1 := w1) (a := a).
  - now apply reads_as_app.
Qed.

Lemma emits_runs {A : Type} (m : M A) (w w' : World) (a : A) (its : list Item) (t : list Op) :
  emits m w a w' its ->
  (forall rest, ops (its ++ rest) = t ++ ops rest) ->
  runs m w a w' t.
Proof.
  intros (evs & R & F) H. exists evs. split; [exact R | ].
  intros rest. unfold transcript. rewrite F. apply H.
Qed.

Lemma advance_advance (w : World) (a b : nat) :
  advance (advance w a) b = advance w (a + b).
Proof.
  unfold advance. cbn [PORTB DDRB PORTC DDRC readsB readsC].
  rewrite lines_lines, Nat.add_assoc. reflexivity.
Qed.

Lemma skip_advance (w : World) (a b : nat) :
  skip (advance w a) b = advance w (a + b).
Proof.
  unfold advance, skip. cbn [PORTB DDRB PORTC DDRC readsB readsC].
  rewrite Nat.add_assoc. reflexivity.
Qed.

(** ** The instructions *)

Section Instructions.

Variable inp : Input.

Lemma transferByte_emits (data instr : Z) (w : World) :
  0 <= data < 256 -> 0 <= instr < 256 ->
  emits (transferByte inp data instr) w (reply inp (readsC w)) (advance w 8)
        [Fr (mkFrame data instr (reply inp (readsC w)))].
Proof.
  intros Hd Hi. eexists. split; [now apply transferByte_run | ].
  intros rest. now apply items_transfer.
Qed.

Lemma transferByte_then {B : Type} (data instr : Z) (f : Z -> M B) (w w2 : World)
      (b : B) (its : list Item) :
  0 <= data < 256 -> 0 <= instr < 256 ->
  emits (f (reply inp (readsC w))) (advance w 8) b w2 its ->
  emits (bind (transferByte inp data instr) f) w b w2
        (Fr (mkFrame data instr (reply inp (readsC w))) :: its).
Proof.
  intros Hd Hi H.
  apply (emits_bind _ _ _ _ _ _ _ [_] its (transferByte_emits data instr w Hd Hi) H).
Qed.

Lemma transferByte_then_at {B : Type} (data instr : Z) (f : Z -> M B) (w w2 : World)
      (b : B) (its : list Item) (pos : nat) :
  0 <= data < 256 -> 0 <= instr < 256 ->
  pos = readsC w ->
  emits (f (reply inp pos)) (advance w 8) b w2 its ->
  emits (bind (transferByte inp data instr) f) w b w2
        (Fr (mkFrame data instr (reply inp pos)) :: its).
Proof. intros Hd Hi ->. now apply transferByte_then. Qed.

Lemma emits_to {A : Type} (m : M A) (w w1 w2 : World) (a : A) (its : list Item) :
  emits m w a w1 its -> w1 = w2 -> emits m w a w2 its.
Proof. intros H <-. exact H. Qed.

Ltac xfer :=
  apply transferByte_then; [lia | lia | rewrite ?advance_advance, ?skip_advance].

Ltac xend :=
  eapply emits_to;
  [ apply transferByte_emits; lia
  | rewrite ?advance_advance, ?skip_advance; reflexivity ].

Lemma getSignature_emits (code : Z) (w : World) :
  0 <= code < 256 ->
  emits (getSignature inp code) w (reply inp (readsC w + 24)) (advance w 32)
        [Fr (mkFrame 0x08 0x4C (reply inp (readsC w)));
         Fr (mkFrame code 0x0C (reply inp (readsC w + 8)));
         Fr (mkFrame 0x00 0x68 (reply inp (readsC w + 16)));
         Fr (mkFrame 0x00 0x6C (reply inp (readsC w + 24)))].
Proof.
  intros Hc. unfold getSignature. xfer. xfer. xfer. xend.
Qed.

Lemma getSignature_runs (code : Z) (w : World) :
  0 <= code < 256 ->
  runs (getSignature inp code) w (reply inp (readsC w + 24)) (advance w 32)
       [SigRead code (reply inp (readsC w + 24))].
Proof.
  intros Hc. eapply emits_runs; [now apply getSignature_emits | ].
  intros rest. reflexivity.
Qed.

Lemma readFuse_runs (k : Fuse) (w : World) :
  runs (readFuse inp k) w (reply inp (readsC w + 16)) (advance w 24)
       [FuseRead k (reply inp (readsC w + 16))].
Proof.
  destruct k; cbn [readFuse];
    (eapply emits_runs;
     [ unfold readFuseLowBits, readFuseHighBits, readFuseExtendedBits;
       xfer; xfer; xend
     | intros rest; reflexivity ]).
Qed.

Lemma poll_test (v : Z) : (Z.land v (bv HVSP_SDO) =? 0) = negb (sdo v).
Proof.
  unfold sdo. rewrite <- masked_bv by (unfold HVSP_SDO; lia).
  unfold masked. now rewrite negb_involutive.
Qed.

Lemma pollSDO_run (n : nat) :
  forall (fuel : nat) (w : World),
    first_high inp (readsC w) n -> (n < fuel)%nat ->
    pollSDO inp fuel w
    = Some (tt, skip w (S n), map RdPINC (pinc_reads inp (readsC w) (S n))).
Proof.
  induction n as [ | n IH]; intros fuel w [Hlow Hhigh] Hfuel;
    (destruct fuel as [ | fuel]; [lia | ]);
    cbn [pollSDO]; unfold bind, read_PINC; rewrite poll_test.
  - rewrite Nat.add_0_r in Hhigh. rewrite Hhigh. cbn [negb ret].
    unfold skip. cbn [PORTB DDRB PORTC DDRC readsB readsC].
    replace (readsC w + 1)%nat with (S (readsC w)) by lia. reflexivity.
  - generalize (Hlow 0%nat). rewrite Nat.add_0_r. intros ->; [ | lia]. cbn [negb].
    rewrite IH; cbn [readsC]; [ | | lia].
    + unfold skip, pinc_reads. cbn [PORTB DDRB PORTC DDRC readsB readsC seq map app].
      replace (S (readsC w) + S n)%nat with (readsC w + S (S n))%nat by lia.
      reflexivity.
    + split.
      * intros k Hk. replace (S (readsC w) + k)%nat with (readsC w + S k)%nat by lia.
        apply Hlow. lia.
      * replace (S (readsC w) + n)%nat with (readsC w + S n)%nat by lia. exact Hhigh.
Qed.

Lemma pollSDO_starved (fuel : nat) :
  forall w : World,
    (forall k, (k < fuel)%nat -> sdo (PINC inp (readsC w + k)) = false) ->
    pollSDO inp fuel w = None.
Proof.
  induction fuel as [ | fuel IH]; intros w Hlow; [reflexivity | ].
  cbn [pollSDO]. unfold bind, read_PINC. rewrite poll_test.
  generalize (Hlow 0%nat). rewrite Nat.add_0_r. intros ->; [ | lia]. cbn [negb].
  rewrite IH; [reflexivity | ].
  cbn [readsC]. intros k Hk.
  replace (S (readsC w) + k)%nat with (readsC w + S k)%nat by lia. apply Hlow. lia.
Qed.

Lemma pollSDO_spins (fuel : nat) (w : World) :
  never_high inp (readsC w) -> pollSDO inp fuel w = None.
Proof. intros H. apply pollSDO_starved. intros k _. apply H. Qed.

Lemma first_high_samples (n : nat) :
  forall from : nat,
    first_high inp from n ->
    map sdo (pinc_reads inp from (S n)) = repeat false n ++ [true].
Proof.
  induction n as [ | n IH]; intros from [Hlow Hhigh].
  - unfold pinc_reads. cbn [seq map repeat app].
    rewrite Nat.add_0_r in Hhigh. now rewrite Hhigh.
  - specialize (IH (S from)). unfold pinc_reads in *.
    cbn [seq map repeat app] in *.
    generalize (Hlow 0%nat). rewrite Nat.add_0_r. intros ->; [ | lia].
    f_equal. apply IH. split.
    + intros k Hk. replace (S from + k)%nat with (from + S k)%nat by lia.
      apply Hlow. lia.
    + replace (S from + n)%nat with (from + S n)%nat by lia. exact Hhigh.
Qed.

Lemma pollSDO_emits (n fuel : nat) (w : World) :
  first_high inp (readsC w) n -> (n < fuel)%nat ->
  emits (pollSDO inp fuel) w tt (skip w (S n)) (polled n).
Proof.
  intros Hfh Hfuel. eexists. split; [now apply pollSDO_run | ].
  intros rest. rewrite items_polled. f_equal.
  rewrite <- map_map, first_high_samples by assumption.
  unfold polled. rewrite map_app, map_repeat. reflexivity.
Qed.

Lemma ops_polled (n : nat) (rest : list Item) :
  ops (polled n ++ rest) = polls n ++ ops rest.
Proof.
  unfold polled, polls. rewrite <- !app_assoc. cbn [app].
  induction n as [ | n IH]; [reflexivity | ].
  cbn [repeat app ops]. now rewrite IH.
Qed.

Lemma emits_bind_none {A B : Type} (m : M A) (f : A -> M B) (w w1 : World)
      (a : A) (its : list Item) :
  emits m w a w1 its -> f a w1 = None -> bind m f w = None.
Proof. intros (e1 & R1 & _) H. now apply bind_run_none with (w1 := w1) (a := a) (e1 := e1). Qed.

Lemma pollSDO_then {B : Type} (n fuel : nat) (f : unit -> M B) (w w2 : World)
      (b : B) (its : list Item) :
  first_high inp (readsC w) n -> (n < fuel)%nat ->
  emits (f tt) (skip w (S n)) b w2 its ->
  emits (bind (pollSDO inp fuel) f) w b w2 (polled n ++ its).
Proof.
  intros Hfh Hfuel H.
  apply (emits_bind _ _ _ _ _ _ _ _ its (pollSDO_emits n fuel w Hfh Hfuel) H).
Qed.

Lemma first_high_at (from from' n : nat) :
  first_high inp from n -> from = from' -> first_high inp from' n.
Proof. intros H <-. exact H. Qed.

Lemma never_high_at (from from' : nat) :
  never_high inp from -> from = from' -> never_high inp from'.
Proof. intros H <-. exact H. Qed.

Lemma writeFuse_emits (k : Fuse) (fuel : nat) (code : Z) (w : World) (n1 n2 : nat) :
  0 <= code < 256 ->
  first_high inp (readsC w + 32) n1 ->
  first_high inp (readsC w + 32 + S n1 + 8) n2 ->
  (n1 < fuel)%nat -> (n2 < fuel)%nat ->
  emits (writeFuse inp k fuel code) w tt (advance w (32 + S n1 + 8 + S n2))
        ([Fr (mkFrame 0x40 0x4C (reply inp (readsC w)));
          Fr (mkFrame code 0x2C (reply inp (readsC w + 8)));
          Fr (mkFrame 0x00 (fst (write_opcodes k)) (reply inp (readsC w + 16)));
          Fr (mkFrame 0x00 (snd (write_opcodes k)) (reply inp (readsC w + 24)))]
         ++ polled n1
         ++ [Fr (mkFrame 0x00 0x4C (reply inp (readsC w + 32 + S n1)))]
         ++ polled n2).
Proof.
  intros Hc H1 H2 Hf1 Hf2.
  destruct k; cbn [writeFuse write_opcodes fst snd];
    unfold writeFuseLowBits, writeFuseHighBits, writeFuseExtendedBits;
    (xfer; xfer; xfer; xfer;
     cbn [app];
     apply pollSDO_then;
     [ eapply first_high_at; [exact H1 | cbn [advance readsC]; lia]
     | exact Hf1
     | rewrite ?skip_advance ];
     apply transferByte_then_at;
     [lia | lia | cbn [advance readsC]; lia | rewrite ?advance_advance ];
     eapply emits_to;
     [ apply pollSDO_emits;
       [ eapply first_high_at; [exact H2 | cbn [advance readsC]; lia]
       | exact Hf2 ]
     | rewrite ?skip_advance; f_equal; lia ]).
Qed.

Lemma writeFuse_runs (k : Fuse) (fuel : nat) (code : Z) (w : World) (n1 n2 : nat) :
  0 <= code < 256 ->
  first_high inp (readsC w + 32) n1 ->
  first_high inp (readsC w + 32 + S n1 + 8) n2 ->
  (n1 < fuel)%nat -> (n2 < fuel)%nat ->
  runs (writeFuse inp k fuel code) w tt (advance w (32 + S n1 + 8 + S n2))
       (FuseWrite k code :: polls n1 ++ LoadNop :: polls n2).
Proof.
  intros Hc H1 H2 Hf1 Hf2.
  eapply emits_runs; [now apply writeFuse_emits | ].
  intros rest.
  transitivity (FuseWrite k code
                  :: ops (polled n1
                          ++ Fr (mkFrame 0x00 0x4C (reply inp (readsC w + 32 + S n1)))
                          :: polled n2 ++ rest)).
  - rewrite <- !app_assoc. destruct k; reflexivity.
  - rewrite ops_polled.
    change (ops (Fr (mkFrame 0x00 0x4C (reply inp (readsC w + 32 + S n1))) :: polled n2 ++ rest))
      with (LoadNop :: ops (polled n2 ++ rest)).
    rewrite ops_polled. cbn [app]. rewrite <- !app_assoc. reflexivity.
Qed.

Lemma four_transfers_then_none {B : Type} (code i3 i4 : Z) (f : M B) (w : World) :
  0 <= code < 256 -> 0 <= i3 < 256 -> 0 <= i4 < 256 ->
  f (advance w 32) = None ->
  (transferByte inp 0x40 0x4C ;; transferByte inp code 0x2C ;;
   transferByte inp 0x00 i3 ;; transferByte inp 0x00 i4 ;; f) w = None.
Proof.
  intros Hc H3 H4 Hf.
  eapply emits_bind_none; [apply transferByte_emits; lia | ].
  eapply emits_bind_none; [apply transferByte_emits; lia | ].
  eapply emits_bind_none; [apply transferByte_emits; lia | ].
  eapply emits_bind_none; [apply transferByte_emits; lia | ].
  rewrite !advance_advance. exact Hf.
Qed.

Lemma writeFuse_stuck_first (k : Fuse) (fuel : nat) (code : Z) (w : World) :
  0 <= code < 256 ->
  pollSDO inp fuel (advance w 32) = None ->
  writeFuse inp k fuel code w = None.
Proof.
  intros Hc Hp.
  destruct k; cbn [writeFuse];
    unfold writeFuseLowBits, writeFuseHighBits, writeFuseExtendedBits;
    (apply four_transfers_then_none; [lia | lia | lia | ];
     apply bind_none; exact Hp).
Qed.

Lemma writeFuse_stuck_second (k : Fuse) (fuel : nat) (code : Z) (w : World) (n1 : nat) :
  0 <= code < 256 ->
  first_high inp (readsC w + 32) n1 -> (n1 < fuel)%nat ->
  pollSDO inp fuel (advance w (32 + S n1 + 8)) = None ->
  writeFuse inp k fuel code w = None.
Proof.
  intros Hc H1 Hf1 Hp.
  destruct k; cbn [writeFuse];
    unfold writeFuseLowBits, writeFuseHighBits, writeFuseExtendedBits;
    (apply four_transfers_then_none; [lia | lia | lia | ];
     eapply emits_bind_none;
     [ apply (pollSDO_emits n1); [exact H1 | exact Hf1] | ];
     eapply emits_bind_none; [apply transferByte_emits; lia | ];
     rewrite skip_advance, advance_advance; exact Hp).
Qed.

Lemma writeFuse_hangs_first (k : Fuse) (fuel : nat) (code : Z) (w : World) :
  0 <= code < 256 ->
  never_high inp (readsC w + 32) ->
  writeFuse inp k fuel code w = None.
Proof.
  intros Hc Hnever. apply writeFuse_stuck_first; [exact Hc | ].
  apply pollSDO_spins. exact Hnever.
Qed.

Lemma writeFuse_hangs_second (k : Fuse) (fuel : nat) (code : Z) (w : World) (n1 : nat) :
  0 <= code < 256 ->
  first_high inp (readsC w + 32) n1 ->
  never_high inp (readsC w + 32 + S n1 + 8) ->
  writeFuse inp k fuel code w = None.
Proof.
  intros Hc H1 Hnever.
  destruct (Nat.lt_ge_cases n1 fuel) as [Hf1 | Hf1].
  - apply (writeFuse_stuck_second k fuel code w n1); try assumption.
    apply pollSDO_spins.
    eapply never_high_at; [exact Hnever | cbn [advance readsC]; lia].
  - apply writeFuse_stuck_first; [exact Hc | ].
    apply pollSDO_starved. intros j Hj. apply (proj1 H1). lia.
Qed.

End Instructions.

(** ** Monad laws, pointwise *)

Lemma bind_ret_l {A B : Type} (a : A) (f : A -> M B) (w : World) :
  bind (ret a) f w = f a w.
Proof.
  unfold bind, ret. destruct (f a w) as [[[b w2] e2] | ]; reflexivity.
Qed.

Lemma bind_assoc {A B C : Type} (m : M A) (f : A -> M B) (g : B -> M C) (w : World) :
  bind (bind m f) g w = bind m (fun x => bind (f x) g) w.
Proof.
  unfold bind. destruct (m w) as [[[a w1] e1] | ]; [ | reflexivity].
  destruct (f a w1) as [[[b w2] e2] | ]; [ | reflexivity].
  destruct (g b w2) as [[[c w3] e3] | ]; [ | reflexivity].
  now rewrite app_assoc.
Qed.

Lemma bind_ext {A B : Type} (m : M A) (f g : A -> M B) (w : World) :
  (forall a w1, f a w1 = g a w1) -> bind m f w = bind m g w.
Proof.
  intros H. unfold bind. destruct (m w) as [[[a w1] e1] | ]; [ | reflexivity].
  now rewrite H.
Qed.

(** ** The device loop is the lookup followed by the block run on a match *)

Lemma device_loop_factor (inp : Input) (fuel : nat) (rest : list TargetCpuInfo_t) :
  forall (device : Z) (w : World),
    device_loop inp fuel rest device w
    = (r <- find_device inp rest device ;;
       match snd r with
       | Some cpu => on_match inp fuel (fst r) cpu
       | None => ret (fst r, false)
       end) w.
Proof.
  induction rest as [ | cpu rest IH]; intros device w.
  - cbn [device_loop find_device]. now rewrite bind_ret_l.
  - cbn [device_loop find_device].
    destruct (negb (sig_byte cpu 0 =? 0)); [ | now rewrite bind_ret_l].
    rewrite bind_assoc. apply bind_ext. intros found w1.
    destruct found.
    + rewrite bind_ret_l. cbn [fst snd]. unfold on_match. reflexivity.
    + apply IH.
Qed.

Lemma later_refl (w : World) : later w w.
Proof. now left. Qed.

Lemma later_advance (w : World) (k : nat) : later w (advance w k).
Proof. right. now exists k. Qed.

Lemma later_trans (w w1 w2 : World) : later w w1 -> later w1 w2 -> later w w2.
Proof.
  intros [-> | [k ->]] [-> | [k' ->]].
  - apply later_refl.
  - apply later_advance.
  - apply later_advance.
  - rewrite advance_advance. apply later_advance.
Qed.

Lemma later_same (w w' : World) :
  later w w' ->
  PORTB w' = PORTB w /\ DDRB w' = DDRB w /\ DDRC w' = DDRC w /\ readsB w' = readsB w
  /\ Z.testbit (PORTC w') HVSP_VCC = Z.testbit (PORTC w) HVSP_VCC
  /\ Z.testbit (PORTC w') HVSP_RST = Z.testbit (PORTC w) HVSP_RST.
Proof.
  intros [-> | [k ->]]; [repeat split | ].
  unfold advance, HVSP_VCC, HVSP_RST. cbn [PORTB DDRB PORTC DDRC readsB readsC].
  rewrite !testbit_lines by lia. cbn. rewrite !andb_true_r. repeat split.
Qed.

(** ** The lookup *)

Section Lookup.

Variable inp : Input.

Lemma signature_matches_runs (cpu : TargetCpuInfo_t) (w : World) :
  let a0 := reply inp (readsC w + 24) in
  let a1 := reply inp (readsC w + 56) in
  let a2 := reply inp (readsC w + 88) in
  runs (signature_matches inp cpu) w (cpu_matches a0 a1 a2 cpu)
       (advance w (32 * length (codes_for a0 a1 cpu)))
       (sig_ops (combine (codes_for a0 a1 cpu) [a0; a1; a2])).
Proof.
  intros a0 a1 a2. unfold signature_matches, cpu_matches, codes_for.
  pose proof (getSignature_runs inp 0 w) as R0.
  pose proof (getSignature_runs inp 1 (advance w 32)) as R1.
  pose proof (getSignature_runs inp 2 (advance w 64)) as R2.
  cbn [advance readsC] in R1, R2.
  rewrite advance_advance in R1, R2. cbn [Nat.add] in R1, R2.
  rewrite <- !Nat.add_assoc in R1, R2. cbn [Nat.add] in R1, R2.
  fold a0 in R0. fold a1 in R1. fold a2 in R2.
  destruct (a0 =? sig_byte cpu 0) eqn:E0.
  - destruct (a1 =? sig_byte cpu 1) eqn:E1.
    + cbn [andb combine sig_ops map fst snd length Nat.mul Nat.add].
      apply (runs_bind _ _ _ _ _ _ _ [_] [_; _] (R0 ltac:(lia))).
      cbv beta. rewrite E0.
      apply (runs_bind _ _ _ _ _ _ _ [_] [_] (R1 ltac:(lia))).
      cbv beta. rewrite E1.
      apply (runs_bind _ _ _ _ _ _ _ [_] [] (R2 ltac:(lia))).
      apply runs_ret.
    + cbn [andb combine sig_ops map fst snd length Nat.mul Nat.add].
      apply (runs_bind _ _ _ _ _ _ _ [_] [_] (R0 ltac:(lia))).
      cbv beta. rewrite E0.
      apply (runs_bind _ _ _ _ _ _ _ [_] [] (R1 ltac:(lia))).
      cbv beta. rewrite E1.
      apply runs_ret.
  - cbn [andb combine sig_ops map fst snd length Nat.mul Nat.add].
    apply (runs_bind _ _ _ _ _ _ _ [_] [] (R0 ltac:(lia))).
    cbv beta. rewrite E0.
    apply runs_ret.
Qed.

Lemma answers_record (cpu : TargetCpuInfo_t) (a0 a1 a2 s0 s1 s2 : Z) :
  (forall c a, In (c, a) (combine (codes_for a0 a1 cpu) [a0; a1; a2]) ->
               a = nth (Z.to_nat c) [s0; s1; s2] 0) ->
  cpu_matches a0 a1 a2 cpu = cpu_matches s0 s1 s2 cpu
  /\ map fst (combine (codes_for a0 a1 cpu) [a0; a1; a2]) = codes_for s0 s1 cpu.
Proof.
  unfold codes_for, cpu_matches. intros H.
  assert (E0 : a0 = s0) by (apply (H 0 a0); now left). subst a0.
  destruct (s0 =? sig_byte cpu 0); [ | split; reflexivity].
  assert (E1 : a1 = s1) by (apply (H 1 a1); right; now left). subst a1.
  destruct (s1 =? sig_byte cpu 1); [ | split; reflexivity].
  assert (E2 : a2 = s2) by (apply (H 2 a2); right; right; now left). subst a2.
  split; reflexivity.
Qed.

Lemma find_device_scan (rest : list TargetCpuInfo_t) :
  forall (device : Z) (w : World),
  exists r w' qs,
    runs (find_device inp rest device) w r w' (sig_ops qs)
    /\ later w w'
    /\ forall s0 s1 s2,
        (forall c a, In (c, a) qs -> a = nth (Z.to_nat c) [s0; s1; s2] 0) ->
        r = scan_result s0 s1 s2 rest device
        /\ map fst qs = requested_codes s0 s1 s2 rest.
Proof.
  induction rest as [ | cpu rest IH]; intros device w.
  - exists (device, None), w, []. split; [apply runs_ret | ].
    split; [apply later_refl | ]. intros; split; reflexivity.
  - cbn [find_device scan_result requested_codes].
    destruct (negb (sig_byte cpu 0 =? 0)).
    + pose proof (signature_matches_runs cpu w) as R. cbn zeta in R.
      set (a0 := reply inp (readsC w + 24)) in *.
      set (a1 := reply inp (readsC w + 56)) in *.
      set (a2 := reply inp (readsC w + 88)) in *.
      set (qs1 := combine (codes_for a0 a1 cpu) [a0; a1; a2]) in *.
      set (k := (32 * length (codes_for a0 a1 cpu))%nat) in *.
      destruct (cpu_matches a0 a1 a2 cpu) eqn:Hfound.
      * exists (device, Some cpu), (advance w k), qs1.
        split; [ | split; [apply later_advance | ]].
        -- rewrite <- (app_nil_r (sig_ops qs1)).
           apply (runs_bind _ _ _ _ _ _ _ _ _ R). apply runs_ret.
        -- intros s0 s1 s2 Hans.
           destruct (answers_record cpu a0 a1 a2 s0 s1 s2 Hans) as [Hm Hc].
           rewrite <- Hm, Hfound, app_nil_r. split; [reflexivity | exact Hc].
      * destruct (IH (uint8 (device + 1)) (advance w k)) as (r & w' & qs & R' & L & P).
        exists r, w', (qs1 ++ qs).
        split; [ | split].
        -- unfold sig_ops. rewrite map_app.
           apply (runs_bind _ _ _ _ _ _ _ _ _ R). exact R'.
        -- apply later_trans with (w1 := advance w k); [apply later_advance | exact L].
        -- intros s0 s1 s2 Hans.
           destruct (answers_record cpu a0 a1 a2 s0 s1 s2) as [Hm Hc].
           { intros c a Hin. apply Hans. apply in_or_app. now left. }
           destruct (P s0 s1 s2) as [Hr Hq].
           { intros c a Hin. apply Hans. apply in_or_app. now right. }
           rewrite <- Hm, Hfound, map_app, Hq. split; [exact Hr | ].
           f_equal. exact Hc.
    + exists (device, None), w, []. split; [apply runs_ret | ].
      split; [apply later_refl | ]. intros; split; reflexivity.
Qed.

Lemma sig_reads_sig_ops (qs : list (Z * Z)) : sig_reads (sig_ops qs) = qs.
Proof.
  induction qs as [ | [c a] qs IH]; [reflexivity | ].
  cbn. now rewrite <- IH at 2.
Qed.

Lemma fuse_writes_sig_ops (qs : list (Z * Z)) : fuse_writes (sig_ops qs) = [].
Proof. induction qs as [ | q qs IH]; [reflexivity | exact IH]. Qed.

Lemma fuse_reads_sig_ops (qs : list (Z * Z)) : fuse_reads (sig_ops qs) = [].
Proof. induction qs as [ | q qs IH]; [reflexivity | exact IH]. Qed.

End Lookup.

Lemma find_device_total (inp : Input) (w : World) (s0 s1 s2 : Z) :
  answers_with [s0; s1; s2] (transcript (events_of (find_device inp targetCpu 0 w))) ->
  exists w' qs evs,
    find_device inp targetCpu 0 w = Some (scan_result s0 s1 s2 targetCpu 0, w', evs)
    /\ later w w'
    /\ reads_as evs (sig_ops qs)
    /\ map fst qs = requested_codes s0 s1 s2 targetCpu.
Proof.
  destruct (find_device_scan inp targetCpu 0 w) as (r & w' & qs & (evs & Hrun & T) & L & P).
  rewrite Hrun. cbn [events_of]. rewrite (reads_as_transcript _ _ T).
  unfold answers_with. rewrite sig_reads_sig_ops. intros Hans.
  destruct (P s0 s1 s2 Hans) as [-> Hq].
  exists w', qs, evs.
  split; [reflexivity | split; [exact L | split; [exact T | exact Hq]]].
Qed.

(** ** The device table *)

Lemma sig_eqb3 (s0 s1 s2 c0 c1 c2 : Z) :
  sig_eqb [s0; s1; s2] [c0; c1; c2] = (s0 =? c0) && (s1 =? c1) && (s2 =? c2).
Proof. cbn. now rewrite andb_true_r, andb_assoc. Qed.

Lemma sig_eqb_eq (a b : list Z) : sig_eqb a b = true <-> a = b.
Proof.
  revert b. induction a as [ | x a IH]; intros [ | y b]; cbn; try easy.
  rewrite andb_true_iff, Z.eqb_eq, IH. split.
  - intros [-> ->]. reflexivity.
  - intros H. injection H as -> ->. split; reflexivity.
Qed.

(** On [targetCpu], the comparisons the loop makes select what the lookup
    of the specification selects. *)
Lemma scan_result_targetCpu (s0 s1 s2 : Z) :
  snd (scan_result s0 s1 s2 targetCpu 0) = first_match [s0; s1; s2] targetCpu.
Proof.
  unfold targetCpu. cbn [scan_result first_match signature].
  rewrite !sig_eqb3. unfold cpu_matches, sig_byte. cbn [signature nth].
  cbn [Z.eqb SIGNATURE_0 negb andb Pos.eqb].
  repeat match goal with
         | |- context [if ?b then _ else _] => destruct b; [reflexivity | ]
         end.
  reflexivity.
Qed.

(** The final value of [device] is the index of the record selected, or of
    the terminator record. *)
Lemma scan_device_targetCpu (s0 s1 s2 : Z) :
  let r := scan_result s0 s1 s2 targetCpu 0 in
  match snd r with
  | Some cpu => nth_error targetCpu (Z.to_nat (fst r)) = Some cpu /\ 0 <= fst r < 7
  | None => fst r = 7
  end.
Proof.
  unfold targetCpu. cbn [scan_result].
  unfold sig_byte at 1 3 5 7 9 11 13 15. cbn [signature nth SIGNATURE_0 Z.eqb negb].
  repeat match goal with
         | |- context [if ?b then _ else _] =>
             destruct b; [cbn; split; [reflexivity | lia] | ]
         end.
  reflexivity.
Qed.

Lemma first_match_sound (s : list Z) (table : list TargetCpuInfo_t) (cpu : TargetCpuInfo_t) :
  first_match s table = Some cpu -> In cpu table /\ signature cpu = s.
Proof.
  induction table as [ | c table IH]; [discriminate | ].
  cbn [first_match].
  destruct (sig_eqb (signature c) [0; 0; 0]); [discriminate | ].
  destruct (sig_eqb s (signature c)) eqn:E.
  - intros H. injection H as <-. apply sig_eqb_eq in E. split; [now left | now symmetry].
  - intros H. destruct (IH H) as [Hin Hs]. split; [now right | exact Hs].
Qed.

Lemma first_match_absent (s : list Z) (table : list TargetCpuInfo_t) :
  (forall cpu, In cpu table -> signature cpu <> s) -> first_match s table = None.
Proof.
  intros H. destruct (first_match s table) as [cpu | ] eqn:E; [ | reflexivity].
  destruct (first_match_sound _ _ _ E) as [Hin Hs]. now destruct (H cpu Hin).
Qed.

(** Each record examined costs at least one signature read, and the record
    matched costs three. *)
Lemma requested_codes_length (s0 s1 s2 : Z) (rest : list TargetCpuInfo_t) :
  forall device,
    0 <= device -> device + Z.of_nat (length rest) < 256 ->
    let r := scan_result s0 s1 s2 rest device in
    fst r - device + (match snd r with Some _ => 3 | None => 0 end)
    <= Z.of_nat (length (requested_codes s0 s1 s2 rest)).
Proof.
  induction rest as [ | cpu rest IH]; intros device H0 Hlen; cbn [scan_result requested_codes].
  - cbn. lia.
  - cbn [length] in Hlen.
    destruct (negb (sig_byte cpu 0 =? 0)); [ | cbn; lia].
    unfold codes_for, cpu_matches.
    destruct (s0 =? sig_byte cpu 0); cbn [andb].
    + destruct (s1 =? sig_byte cpu 1); cbn [andb].
      * destruct (s2 =? sig_byte cpu 2).
        -- cbn. lia.
        -- rewrite uint8_small by lia.
           specialize (IH (device + 1) ltac:(lia) ltac:(lia)).
           cbn zeta in IH. rewrite length_app. cbn [length]. lia.
      * rewrite uint8_small by lia.
        specialize (IH (device + 1) ltac:(lia) ltac:(lia)).
        cbn zeta in IH. rewrite length_app. cbn [length]. lia.
    + rewrite uint8_small by lia.
      specialize (IH (device + 1) ltac:(lia) ltac:(lia)).
      cbn zeta in IH. rewrite length_app. cbn [length]. lia.
Qed.

(** ** Runs that returned *)

Lemma bind_inv {A B : Type} (m : M A) (f : A -> M B) (w w2 : World) (b : B) (e : list Event) :
  bind m f w = Some (b, w2, e) ->
  exists a w1 e1 e2,
    m w = Some (a, w1, e1) /\ f a w1 = Some (b, w2, e2) /\ e = e1 ++ e2.
Proof.
  unfold bind. destruct (m w) as [[[a w1] e1] | ] eqn:Hm; [ | discriminate].
  destruct (f a w1) as [[[b' w2'] e2] | ] eqn:Hf; [ | discriminate].
  intros H. injection H as Hb Hw He. subst b' w2' e.
  exists a, w1, e1, e2. split; [reflexivity | split; [exact Hf | reflexivity]].
Qed.

Section Restore.

Variable inp : Input.

Lemma pollSDO_inv (fuel : nat) :
  forall (w w' : World) (u : unit) (evs : list Event),
    pollSDO inp fuel w = Some (u, w', evs) ->
    exists n, first_high inp (readsC w) n /\ (n < fuel)%nat.
Proof.
  induction fuel as [ | fuel IH]; intros w w' u evs H; [discriminate | ].
  cbn [pollSDO] in H. unfold bind, read_PINC in H. rewrite poll_test in H.
  destruct (sdo (PINC inp (readsC w))) eqn:Hs; cbn [negb] in H.
  - exists 0%nat. split; [ | lia]. split; [intros k Hk; lia | ].
    now rewrite Nat.add_0_r.
  - destruct (pollSDO inp fuel _) as [[[u' w1] e1] | ] eqn:Hp; [ | discriminate].
    destruct (IH _ _ _ _ Hp) as (n & [Hlow Hhigh] & Hn). cbn [readsC] in Hlow, Hhigh.
    exists (S n). split; [ | lia]. split.
    + intros k Hk. destruct k as [ | k]; [now rewrite Nat.add_0_r | ].
      replace (readsC w + S k)%nat with (S (readsC w) + k)%nat by lia. apply Hlow. lia.
    + replace (readsC w + S n)%nat with (S (readsC w) + n)%nat by lia. exact Hhigh.
Qed.

Lemma first_high_unique (from n n' : nat) :
  first_high inp from n -> first_high inp from n' -> n = n'.
Proof.
  intros [L H] [L' H'].
  destruct (Nat.lt_trichotomy n n') as [Hlt | [Heq | Hgt]]; [ | exact Heq | ].
  - rewrite (L' n Hlt) in H. discriminate.
  - rewrite (L n' Hgt) in H'. discriminate.
Qed.

Lemma live_first_high (from : nat) : live inp -> exists n, first_high inp from n.
Proof.
  intros Hlive. destruct (Hlive from) as (m & Hle & Hm).
  replace m with (from + (m - from))%nat in Hm by lia.
  remember (m - from)%nat as d eqn:Hd. clear Hd Hle m.
  revert from Hm. induction d as [ | d IH]; intros from Hm.
  - exists 0%nat. split; [intros k Hk; lia | exact Hm].
  - destruct (sdo (PINC inp from)) eqn:Hs.
    + exists 0%nat. split; [intros k Hk; lia | now rewrite Nat.add_0_r].
    + destruct (IH (S from)) as (n & Hlow & Hhigh).
      { replace (S from + d)%nat with (from + S d)%nat by lia. exact Hm. }
      exists (S n). split.
      * intros k Hk. destruct k as [ | k]; [now rewrite Nat.add_0_r | ].
        replace (from + S k)%nat with (S from + k)%nat by lia. apply Hlow. lia.
      * replace (from + S n)%nat with (S from + n)%nat by lia. exact Hhigh.
Qed.

Lemma live_write_done (from : nat) : live inp -> exists n1 n2, write_done inp from n1 n2.
Proof.
  intros Hlive.
  destruct (live_first_high (from + 32) Hlive) as (n1 & H1).
  destruct (live_first_high (from + 32 + S n1 + 8) Hlive) as (n2 & H2).
  now exists n1, n2.
Qed.

Lemma writeFuse_done (k : Fuse) (fuel : nat) (code : Z) (w : World) (n1 n2 : nat) :
  0 <= code < 256 ->
  write_done inp (readsC w) n1 n2 -> (n1 < fuel)%nat -> (n2 < fuel)%nat ->
  runs (writeFuse inp k fuel code) w tt (advance w (write_len n1 n2))
       (write_ops k code n1 n2).
Proof. intros Hc [H1 H2] Hf1 Hf2. now apply writeFuse_runs. Qed.

Lemma writeFuse_inv (k : Fuse) (fuel : nat) (code : Z) (w : World)
      (x : unit * World * list Event) :
  0 <= code < 256 ->
  writeFuse inp k fuel code w = Some x ->
  exists n1 n2, write_done inp (readsC w) n1 n2 /\ (n1 < fuel)%nat /\ (n2 < fuel)%nat.
Proof.
  intros Hc Hrun.
  destruct (pollSDO inp fuel (advance w 32)) as [[[u1 w1] e1] | ] eqn:Hp1.
  2: { rewrite (writeFuse_stuck_first inp k fuel code w Hc Hp1) in Hrun. discriminate. }
  destruct (pollSDO_inv _ _ _ _ _ Hp1) as (n1 & Hn1 & Hf1).
  destruct (pollSDO inp fuel (advance w (32 + S n1 + 8))) as [[[u2 w2] e2] | ] eqn:Hp2.
  2: { rewrite (writeFuse_stuck_second inp k fuel code w n1 Hc Hn1 Hf1 Hp2) in Hrun.
       discriminate. }
  destruct (pollSDO_inv _ _ _ _ _ Hp2) as (n2 & Hn2 & Hf2).
  exists n1, n2. split; [split | split; assumption].
  - exact Hn1.
  - eapply first_high_at; [exact Hn2 | cbn [advance readsC]; lia].
Qed.

Lemma runs_det {A : Type} (m : M A) (w w1 w2 : World) (a1 a2 : A)
      (t : list Op) (evs : list Event) :
  runs m w a1 w1 t -> m w = Some (a2, w2, evs) ->
  a2 = a1 /\ w2 = w1 /\ reads_as evs t.
Proof.
  intros (evs' & R & T) H. rewrite R in H. injection H as <- <- <-. auto.
Qed.

Lemma runs_to {A : Type} (m : M A) (w w1 w2 : World) (a : A) (t : list Op) :
  runs m w a w1 t -> w1 = w2 -> runs m w a w2 t.
Proof. intros H <-. exact H. Qed.

Lemma writeFuseLowBits_done (fuel : nat) (code : Z) (w : World) (n1 n2 : nat) :
  0 <= code < 256 ->
  write_done inp (readsC w) n1 n2 -> (n1 < fuel)%nat -> (n2 < fuel)%nat ->
  runs (writeFuseLowBits inp fuel code) w tt (advance w (write_len n1 n2))
       (write_ops FuseLow code n1 n2).
Proof.
  intros Hc D Hf1 Hf2.
  pose proof (writeFuse_done FuseLow fuel code w n1 n2 Hc D Hf1 Hf2) as H.
  cbn [writeFuse] in H. exact H.
Qed.

Lemma writeFuseHighBits_done (fuel : nat) (code : Z) (w : World) (n1 n2 : nat) :
  0 <= code < 256 ->
  write_done inp (readsC w) n1 n2 -> (n1 < fuel)%nat -> (n2 < fuel)%nat ->
  runs (writeFuseHighBits inp fuel code) w tt (advance w (write_len n1 n2))
       (write_ops FuseHigh code n1 n2).
Proof.
  intros Hc D Hf1 Hf2.
  pose proof (writeFuse_done FuseHigh fuel code w n1 n2 Hc D Hf1 Hf2) as H.
  cbn [writeFuse] in H. exact H.
Qed.

Lemma writeFuseExtendedBits_done (fuel : nat) (code : Z) (w : World) (n1 n2 : nat) :
  0 <= code < 256 ->
  write_done inp (readsC w) n1 n2 -> (n1 < fuel)%nat -> (n2 < fuel)%nat ->
  runs (writeFuseExtendedBits inp fuel code) w tt (advance w (write_len n1 n2))
       (write_ops FuseExtended code n1 n2).
Proof.
  intros Hc D Hf1 Hf2.
  pose proof (writeFuse_done FuseExtended fuel code w n1 n2 Hc D Hf1 Hf2) as H.
  cbn [writeFuse] in H. exact H.
Qed.

Lemma writeFuseLowBits_inv (fuel : nat) (code : Z) (w : World)
      (x : unit * World * list Event) :
  0 <= code < 256 ->
  writeFuseLowBits inp fuel code w = Some x ->
  exists n1 n2, write_done inp (readsC w) n1 n2 /\ (n1 < fuel)%nat /\ (n2 < fuel)%nat.
Proof.
  intros Hc. pose proof (writeFuse_inv FuseLow fuel code w x Hc) as H.
  cbn [writeFuse] in H. exact H.
Qed.

Lemma writeFuseHighBits_inv (fuel : nat) (code : Z) (w : World)
      (x : unit * World * list Event) :
  0 <= code < 256 ->
  writeFuseHighBits inp fuel code w = Some x ->
  exists n1 n2, write_done inp (readsC w) n1 n2 /\ (n1 < fuel)%nat /\ (n2 < fuel)%nat.
Proof.
  intros Hc. pose proof (writeFuse_inv FuseHigh fuel code w x Hc) as H.
  cbn [writeFuse] in H. exact H.
Qed.

Lemma writeFuseExtendedBits_inv (fuel : nat) (code : Z) (w : World)
      (x : unit * World * list Event) :
  0 <= code < 256 ->
  writeFuseExtendedBits inp fuel code w = Some x ->
  exists n1 n2, write_done inp (readsC w) n1 n2 /\ (n1 < fuel)%nat /\ (n2 < fuel)%nat.
Proof.
  intros Hc. pose proof (writeFuse_inv FuseExtended fuel code w x Hc) as H.
  cbn [writeFuse] in H. exact H.
Qed.

Lemma restore_fuses_runs (cpu : TargetCpuInfo_t) (fuel : nat) (w : World)
      (n1 n2 n3 n4 n5 n6 : nat) :
  fuse_bytes cpu ->
  write_done inp (readsC w) n1 n2 ->
  write_done inp (readsC w + write_len n1 n2) n3 n4 ->
  (fuseExtendedBits cpu <> 0 ->
   write_done inp (readsC w + write_len n1 n2 + write_len n3 n4) n5 n6
   /\ (n5 < fuel)%nat /\ (n6 < fuel)%nat) ->
  (n1 < fuel)%nat -> (n2 < fuel)%nat -> (n3 < fuel)%nat -> (n4 < fuel)%nat ->
  runs (restore_fuses inp fuel cpu) w tt
       (advance w (write_len n1 n2 + write_len n3 n4
                   + (if fuseExtendedBits cpu =? 0 then 0 else write_len n5 n6)))
       (write_ops FuseLow (fuseLowBits cpu) n1 n2
        ++ write_ops FuseHigh (fuseHighBits cpu) n3 n4
        ++ (if fuseExtendedBits cpu =? 0 then []
            else write_ops FuseExtended (fuseExtendedBits cpu) n5 n6)).
Proof.
  intros (Hlo & Hhi & Hex) D1 D2 D3 Hf1 Hf2 Hf3 Hf4. unfold restore_fuses.
  eapply runs_bind;
    [apply writeFuseLowBits_done; [exact Hlo | exact D1 | exact Hf1 | exact Hf2] | ].
  eapply runs_bind;
    [apply writeFuseHighBits_done; [exact Hhi | exact D2 | exact Hf3 | exact Hf4] | ].
  rewrite advance_advance.
  destruct (Z.eqb_spec (fuseExtendedBits cpu) 0) as [E | E]; cbn [negb].
  - rewrite Nat.add_0_r. apply runs_ret.
  - destruct (D3 E) as (D & Hf5 & Hf6).
    eapply runs_to;
      [ apply writeFuseExtendedBits_done; [exact Hex | | exact Hf5 | exact Hf6]
      | apply advance_advance ].
    cbn [advance readsC]. rewrite Nat.add_assoc. exact D.
Qed.

Lemma restore_fuses_returned (cpu : TargetCpuInfo_t) (fuel : nat) (w w' : World)
      (u : unit) (evs : list Event) :
  fuse_bytes cpu ->
  restore_fuses inp fuel cpu w = Some (u, w', evs) ->
  exists n1 n2 n3 n4 n5 n6,
    w' = advance w (write_len n1 n2 + write_len n3 n4
                    + (if fuseExtendedBits cpu =? 0 then 0 else write_len n5 n6))
    /\ reads_as evs
         (write_ops FuseLow (fuseLowBits cpu) n1 n2
          ++ write_ops FuseHigh (fuseHighBits cpu) n3 n4
          ++ (if fuseExtendedBits cpu =? 0 then []
              else write_ops FuseExtended (fuseExtendedBits cpu) n5 n6)).
Proof.
  intros Hb Hrun. pose proof Hb as (Hlo & Hhi & Hex).
  pose proof Hrun as H. unfold restore_fuses in H.
  apply bind_inv in H. destruct H as (? & w1 & ? & ? & H1 & H & _).
  destruct (writeFuseLowBits_inv _ _ _ _ Hlo H1) as (n1 & n2 & D1 & Hf1 & Hf2).
  destruct (runs_det _ _ _ _ _ _ _ _
              (writeFuseLowBits_done fuel _ w n1 n2 Hlo D1 Hf1 Hf2) H1)
    as (_ & -> & _).
  apply bind_inv in H. destruct H as (? & w2 & ? & ? & H2 & H & _).
  destruct (writeFuseHighBits_inv _ _ _ _ Hhi H2) as (n3 & n4 & D2 & Hf3 & Hf4).
  destruct (runs_det _ _ _ _ _ _ _ _
              (writeFuseHighBits_done fuel _ _ n3 n4 Hhi D2 Hf3 Hf4) H2)
    as (_ & -> & _).
  cbn [advance readsC] in D2.
  assert (Hn56 : exists n5 n6,
             fuseExtendedBits cpu <> 0 ->
             write_done inp (readsC w + write_len n1 n2 + write_len n3 n4) n5 n6
             /\ (n5 < fuel)%nat /\ (n6 < fuel)%nat).
  { destruct (Z.eqb_spec (fuseExtendedBits cpu) 0) as [E | E]; cbn [negb] in H.
    - exists 0%nat, 0%nat. intros Hne. contradiction.
    - destruct (writeFuseExtendedBits_inv _ _ _ _ Hex H) as (n5 & n6 & D3 & Hf5 & Hf6).
      exists n5, n6. intros _. rewrite advance_advance in D3.
      cbn [advance readsC] in D3. rewrite Nat.add_assoc in D3. auto. }
  destruct Hn56 as (n5 & n6 & D3).
  exists n1, n2, n3, n4, n5, n6.
  destruct (runs_det _ _ _ _ _ _ _ _
              (restore_fuses_runs cpu fuel w n1 n2 n3 n4 n5 n6 Hb D1 D2 D3 Hf1 Hf2 Hf3 Hf4)
              Hrun) as (_ & -> & T).
  split; [reflexivity | exact T].
Qed.

Lemma verify_fuses_runs (cpu : TargetCpuInfo_t) (w : World) :
  let rl := reply inp (readsC w + 16) in
  let rh := reply inp (readsC w + 40) in
  let re := reply inp (readsC w + 64) in
  exists k,
    runs (verify_fuses inp cpu) w
         ((fuseLowBits cpu =? rl) && (fuseHighBits cpu =? rh)
          && ((0 =? fuseExtendedBits cpu) || (fuseExtendedBits cpu =? re)))
         (advance w k)
         (FuseRead FuseLow rl
          :: (if fuseLowBits cpu =? rl then
                FuseRead FuseHigh rh
                :: (if (fuseHighBits cpu =? rh) && negb (0 =? fuseExtendedBits cpu)
                    then [FuseRead FuseExtended re] else [])
              else [])).
Proof.
  intros rl rh re. unfold verify_fuses.
  pose proof (readFuse_runs inp FuseLow w) as R0.
  pose proof (readFuse_runs inp FuseHigh (advance w 24)) as R1.
  pose proof (readFuse_runs inp FuseExtended (advance w 48)) as R2.
  cbn [advance readsC readFuse] in R0, R1, R2.
  rewrite advance_advance in R1, R2. cbn [Nat.add] in R1, R2.
  rewrite <- !Nat.add_assoc in R1, R2. cbn [Nat.add] in R1, R2.
  fold rl in R0. fold rh in R1. fold re in R2.
  destruct (fuseLowBits cpu =? rl) eqn:El.
  - destruct (fuseHighBits cpu =? rh) eqn:Eh.
    + destruct (0 =? fuseExtendedBits cpu) eqn:E0.
      * exists 48%nat. cbn [andb orb negb].
        apply (runs_bind _ _ _ _ _ _ _ [_] [_] R0). cbv beta. rewrite El.
        apply (runs_bind _ _ _ _ _ _ _ [_] [] R1). cbv beta. rewrite Eh.
        apply runs_ret.
      * exists 72%nat. cbn [andb orb negb].
        apply (runs_bind _ _ _ _ _ _ _ [_] [_; _] R0). cbv beta. rewrite El.
        apply (runs_bind _ _ _ _ _ _ _ [_] [_] R1). cbv beta. rewrite Eh.
        apply (runs_bind _ _ _ _ _ _ _ [_] [] R2). apply runs_ret.
    + exists 48%nat. cbn [andb orb negb].
      apply (runs_bind _ _ _ _ _ _ _ [_] [_] R0). cbv beta. rewrite El.
      apply (runs_bind _ _ _ _ _ _ _ [_] [] R1). cbv beta. rewrite Eh.
      apply runs_ret.
  - exists 24%nat. cbn [andb orb negb].
    apply (runs_bind _ _ _ _ _ _ _ [_] [] R0). cbv beta. rewrite El.
    apply runs_ret.
Qed.

End Restore.

(** ** Filtering transcripts *)

Lemma fuse_writes_app (t1 t2 : list Op) :
  fuse_writes (t1 ++ t2) = fuse_writes t1 ++ fuse_writes t2.
Proof. apply flat_map_app. Qed.

Lemma fuse_reads_app (t1 t2 : list Op) :
  fuse_reads (t1 ++ t2) = fuse_reads t1 ++ fuse_reads t2.
Proof. apply flat_map_app. Qed.

Lemma sig_reads_app (t1 t2 : list Op) :
  sig_reads (t1 ++ t2) = sig_reads t1 ++ sig_reads t2.
Proof. apply flat_map_app. Qed.

Lemma fuse_writes_polls (n : nat) : fuse_writes (polls n) = [].
Proof. unfold polls. induction n as [ | n IH]; [reflexivity | exact IH]. Qed.

Lemma fuse_reads_polls (n : nat) : fuse_reads (polls n) = [].
Proof. unfold polls. induction n as [ | n IH]; [reflexivity | exact IH]. Qed.

Lemma sig_reads_polls (n : nat) : sig_reads (polls n) = [].
Proof. unfold polls. induction n as [ | n IH]; [reflexivity | exact IH]. Qed.

Lemma fuse_writes_write_ops (k : Fuse) (v : Z) (n1 n2 : nat) :
  fuse_writes (write_ops k v n1 n2) = [(k, v)].
Proof.
  unfold write_ops. cbn [fuse_writes flat_map app].
  change (flat_map _ (polls n1 ++ LoadNop :: polls n2))
    with (fuse_writes (polls n1 ++ LoadNop :: polls n2)).
  rewrite fuse_writes_app, fuse_writes_polls. cbn [app fuse_writes flat_map].
  change (flat_map _ (polls n2)) with (fuse_writes (polls n2)).
  now rewrite fuse_writes_polls.
Qed.

Lemma fuse_reads_write_ops (k : Fuse) (v : Z) (n1 n2 : nat) :
  fuse_reads (write_ops k v n1 n2) = [].
Proof.
  unfold write_ops. cbn [fuse_reads flat_map app].
  change (flat_map _ (polls n1 ++ LoadNop :: polls n2))
    with (fuse_reads (polls n1 ++ LoadNop :: polls n2)).
  rewrite fuse_reads_app, fuse_reads_polls. cbn [app fuse_reads flat_map].
  change (flat_map _ (polls n2)) with (fuse_reads (polls n2)).
  now rewrite fuse_reads_polls.
Qed.

Lemma sig_reads_write_ops (k : Fuse) (v : Z) (n1 n2 : nat) :
  sig_reads (write_ops k v n1 n2) = [].
Proof.
  unfold write_ops. cbn [sig_reads flat_map app].
  change (flat_map _ (polls n1 ++ LoadNop :: polls n2))
    with (sig_reads (polls n1 ++ LoadNop :: polls n2)).
  rewrite sig_reads_app, sig_reads_polls. cbn [app sig_reads flat_map].
  change (flat_map _ (polls n2)) with (sig_reads (polls n2)).
  now rewrite sig_reads_polls.
Qed.

Lemma live_input_of (samples : list Z) : live (input_of samples).
Proof.
  intros n. exists (Nat.max n (length samples)). split; [lia | ].
  cbn [input_of PINC]. rewrite nth_overflow by lia. reflexivity.
Qed.

Lemma tiny85_loop_result :
  result_of (device_loop (input_of tiny85_answers) 1 targetCpu 0 w_reset) = Some (6, false).
Proof. vm_compute. reflexivity. Qed.

Lemma tiny85_loop_sig_reads :
  sig_reads (transcript (events_of (device_loop (input_of tiny85_answers) 1 targetCpu 0
                                      w_reset)))
  = [(0, 0x1E); (1, 0x93); (0, 0x1E); (1, 0x93); (0, 0x1E); (1, 0x93);
     (0, 0x1E); (1, 0x93); (2, 0x0B); (0, 0x1E); (1, 0x93); (0, 0x1E); (1, 0x93);
     (0, 0x1E); (1, 0x93); (2, 0x0B)].
Proof. vm_compute. reflexivity. Qed.

Lemma tiny85_loop_answered :
  answers_with [0x1E; 0x93; 0x0B]
    (transcript (events_of (device_loop (input_of tiny85_answers) 1 targetCpu 0 w_reset))).
Proof.
  unfold answers_with. rewrite tiny85_loop_sig_reads. intros c a Hin.
  cbn [In] in Hin.
  repeat (destruct Hin as [Hin | Hin]; [injection Hin as <- <-; reflexivity | ]).
  contradiction.
Qed.

Lemma unknown_loop_result :
  result_of (device_loop (input_of unknown_answers) 0 targetCpu 0 w_reset) = Some (7, false).
Proof. vm_compute. reflexivity. Qed.

Lemma unknown_sig_reads :
  sig_reads (transcript (events_of (find_device (input_of unknown_answers) targetCpu 0
                                      (powered w_reset))))
  = [(0, 0x1E); (1, 0x95); (0, 0x1E); (1, 0x95); (0, 0x1E); (1, 0x95); (0, 0x1E); (1, 0x95);
     (0, 0x1E); (1, 0x95); (0, 0x1E); (1, 0x95); (0, 0x1E); (1, 0x95)].
Proof. vm_compute. reflexivity. Qed.

Lemma unknown_answered :
  answers_with [0x1E; 0x95; 0x0F]
    (transcript (events_of (find_device (input_of unknown_answers) targetCpu 0
                              (powered w_reset)))).
Proof.
  unfold answers_with. rewrite unknown_sig_reads. intros c a Hin.
  cbn [In] in Hin.
  repeat (destruct Hin as [Hin | Hin]; [injection Hin as <- <-; reflexivity | ]).
  contradiction.
Qed.

Lemma unknown_absent (cpu : TargetCpuInfo_t) :
  In cpu targetCpu -> signature cpu <> [0x1E; 0x95; 0x0F].
Proof.
  unfold targetCpu. cbn [In]. intros H.
  repeat (destruct H as [<- | H]; [cbn [signature]; discriminate | ]).
  contradiction.
Qed.

(** ** The phases around the device loop *)

Lemma wire_quiet (evs rest : list Event) :
  forallb quiet evs = true ->
  wire ClkLow (map lview (evs ++ rest)) = wire ClkLow (map lview rest).
Proof.
  induction evs as [ | e evs IH]; intros H; [reflexivity | ].
  cbn [forallb] in H. apply andb_true_iff in H. destruct H as [He H].
  cbn [app map wire]. destruct e; cbn [lview quiet] in *; try discriminate;
    try (cbn [emitted clock_step app]; now apply IH).
  apply negb_true_iff in He. rewrite He. cbn [emitted clock_step app]. now apply IH.
Qed.

Lemma reads_as_quiet (evs : list Event) : forallb quiet evs = true -> reads_as evs [].
Proof.
  intros H rest. unfold transcript, items. now rewrite wire_quiet.
Qed.

Ltac port_bits :=
  unfold HVSP_SDI, HVSP_SII, HVSP_SDO, HVSP_SCI, HVSP_VCC, HVSP_RST, LED_PIN, SWITCH_PIN;
  repeat first [ rewrite testbit_or8_bv by lia
               | rewrite testbit_and8_nbv by lia
               | rewrite testbit_xor8_bv by lia ];
  cbn [Z.eqb Pos.eqb negb Z.ltb Z.compare Pos.compare Pos.compare_cont];
  rewrite ?andb_true_r, ?andb_false_r, ?orb_true_r, ?orb_false_r,
    ?andb_true_l, ?andb_false_l, ?orb_true_l, ?orb_false_l.

Lemma PORTC_or_run (m pb db p dc : Z) (rb rc : nat) :
  PORTC_or m (mkWorld pb db p dc rb rc)
  = Some (tt, mkWorld pb db (or8 p m) dc rb rc, [WrPORTC (or8 p m)]).
Proof. reflexivity. Qed.

Lemma PORTC_and_run (m pb db p dc : Z) (rb rc : nat) :
  PORTC_and m (mkWorld pb db p dc rb rc)
  = Some (tt, mkWorld pb db (and8 p m) dc rb rc, [WrPORTC (and8 p m)]).
Proof. reflexivity. Qed.

Lemma DDRC_or_run (m pb db p dc : Z) (rb rc : nat) :
  DDRC_or m (mkWorld pb db p dc rb rc)
  = Some (tt, mkWorld pb db p (or8 dc m) rb rc, [WrDDRC (or8 dc m)]).
Proof. reflexivity. Qed.

Lemma DDRC_and_run (m pb db p dc : Z) (rb rc : nat) :
  DDRC_and m (mkWorld pb db p dc rb rc)
  = Some (tt, mkWorld pb db p (and8 dc m) rb rc, [WrDDRC (and8 dc m)]).
Proof. reflexivity. Qed.

Lemma delay_us_run (n : Z) (w : World) : _delay_us n w = Some (tt, w, [DelayUs n]).
Proof. reflexivity. Qed.

Ltac port_step :=
  eapply bind_run2;
  [ first [ apply PORTC_or_run | apply PORTC_and_run | apply DDRC_or_run
          | apply DDRC_and_run | apply delay_us_run ]
  | ].

Lemma power_up_spec (w : World) :
  exists p' dc' evs,
    power_up w = Some (tt, mkWorld (PORTB w) (DDRB w) p' dc' (readsB w) (readsC w), evs)
    /\ forallb quiet evs = true
    /\ Z.testbit p' HVSP_VCC = true /\ Z.testbit p' HVSP_RST = false.
Proof.
  destruct w as [pb db p dc rb rc]. cbn [PORTB DDRB PORTC DDRC readsB readsC].
  do 3 eexists. split.
  - unfold power_up. do 17 port_step. apply DDRC_and_run || apply delay_us_run.
  - cbn [app forallb quiet]. split; [ | split]; port_bits; reflexivity.
Qed.

Lemma power_up_run (w : World) :
  power_up w = Some (tt, powered w, events_of (power_up w)).
Proof.
  destruct (power_up_spec w) as (p' & dc' & evs & H & _).
  unfold powered. rewrite H. reflexivity.
Qed.

Lemma power_up_quiet (w : World) : forallb quiet (events_of (power_up w)) = true.
Proof.
  destruct (power_up_spec w) as (p' & dc' & evs & H & Hq & _).
  rewrite H. exact Hq.
Qed.

Lemma powered_same (w : World) :
  PORTB (powered w) = PORTB w /\ readsB (powered w) = readsB w
  /\ readsC (powered w) = readsC w
  /\ Z.testbit (PORTC (powered w)) HVSP_VCC = true
  /\ Z.testbit (PORTC (powered w)) HVSP_RST = false.
Proof.
  destruct (power_up_spec w) as (p' & dc' & evs & H & _ & Hv & Hr).
  unfold powered. rewrite H. cbn [state_of PORTB PORTC readsB readsC].
  repeat split; assumption.
Qed.

Lemma power_down_run (w : World) :
  power_down w
  = Some (tt,
          mkWorld (PORTB w) (DDRB w) (last (power_down_values (PORTC w)) 0) (DDRC w)
                  (readsB w) (readsC w),
          power_down_events (PORTC w)).
Proof.
  destruct w as [pb db p dc rb rc]. cbn [PORTB DDRB PORTC DDRC readsB readsC].
  etransitivity; [unfold power_down; do 5 port_step; apply PORTC_and_run | ].
  reflexivity.
Qed.

Lemma power_down_quiet (p : Z) : forallb quiet (power_down_events p) = true.
Proof.
  unfold power_down_events, power_down_values. cbn [forallb quiet].
  port_bits. reflexivity.
Qed.

(** After the lines are low and reset is released, the delay; only then is
    VCC switched off, with the other levels unchanged. *)
Lemma power_down_bits (p : Z) :
  exists c1 c2 c3 c4 c5,
    power_down_values p = [c1; c2; c3; c4; c5]
    /\ Z.testbit c3 HVSP_SCI = false /\ Z.testbit c3 HVSP_SII = false
    /\ Z.testbit c3 HVSP_SDI = false
    /\ Z.testbit c4 HVSP_SCI = false /\ Z.testbit c4 HVSP_SII = false
    /\ Z.testbit c4 HVSP_SDI = false
    /\ Z.testbit c4 HVSP_RST = true
    /\ Z.testbit c1 HVSP_VCC = Z.testbit p HVSP_VCC
    /\ Z.testbit c2 HVSP_VCC = Z.testbit p HVSP_VCC
    /\ Z.testbit c3 HVSP_VCC = Z.testbit p HVSP_VCC
    /\ Z.testbit c4 HVSP_VCC = Z.testbit p HVSP_VCC
    /\ Z.testbit c5 HVSP_VCC = false
    /\ Z.testbit c5 HVSP_RST = true.
Proof.
  unfold power_down_values. do 5 eexists. split; [reflexivity | ].
  repeat split; port_bits; reflexivity.
Qed.

Section Report.

Variable inp : Input.

Lemma report_loop_run (ok : bool) (n : nat) :
  forall w : World,
    report_loop n ok w
    = Some (tt,
            mkWorld (last (report_values n ok (PORTB w)) (PORTB w)) (DDRB w) (PORTC w)
                    (DDRC w) (readsB w) (readsC w),
            report_events n ok (PORTB w)).
Proof.
  induction n as [ | n IH]; intros [pb db p dc rb rc]; [reflexivity | ].
  cbn [report_loop]. unfold bind at 1.
  set (v := if ok then and8 pb (nbv LED_PIN) else xor8 pb (bv LED_PIN)).
  assert (E : (if ok then PORTB_and (nbv LED_PIN) else PORTB_xor (bv LED_PIN))
                (mkWorld pb db p dc rb rc)
              = Some (tt, mkWorld v db p dc rb rc, [WrPORTB v])).
  { subst v. destruct ok; reflexivity. }
  rewrite E. unfold bind at 1. unfold _delay_ms at 1. rewrite IH.
  cbn [PORTB DDRB PORTC DDRC readsB readsC report_values].
  fold v. rewrite last_cons. reflexivity.
Qed.

End Report.

Lemma report_events_quiet (n : nat) (ok : bool) (pb : Z) :
  forallb quiet (report_events n ok pb) = true.
Proof.
  unfold report_events. revert pb. induction n as [ | n IH]; intros pb; [reflexivity | ].
  cbn [report_values flat_map app forallb quiet andb]. apply IH.
Qed.

Lemma report_values_length (n : nat) (ok : bool) (pb : Z) :
  length (report_values n ok pb) = n.
Proof. revert pb. induction n as [ | n IH]; intros pb; cbn; [ | rewrite IH]; reflexivity. Qed.

Lemma report_total_ms (n : nat) (ok : bool) (pb : Z) :
  total_ms (report_events n ok pb) = 250 * Z.of_nat n.
Proof.
  unfold report_events. revert pb. induction n as [ | n IH]; intros pb; [reflexivity | ].
  cbn [report_values flat_map app total_ms fold_right].
  change (fold_right _ 0 ?l) with (total_ms l). rewrite IH. lia.
Qed.

(** On success every write leaves the LED pin low (lit). *)
Lemma report_values_on (n : nat) (pb : Z) :
  map led (report_values n true pb) = repeat false n.
Proof.
  revert pb. induction n as [ | n IH]; intros pb; [reflexivity | ].
  cbn [report_values map repeat]. rewrite IH. f_equal.
  unfold led. port_bits. reflexivity.
Qed.

(** On failure every write inverts the LED pin. *)
Lemma report_values_blink (n : nat) (pb : Z) :
  map led (report_values n false pb)
  = map (fun i => xorb (led pb) (Nat.even i)) (seq 0 n).
Proof.
  assert (H : forall k pb0,
             map led (report_values n false pb0)
             = map (fun i => xorb (led pb0) (Nat.even (i - k))) (seq k n)).
  { induction n as [ | n IH]; intros k pb0; [reflexivity | ].
    cbn [report_values map seq]. rewrite (IH (S k)). f_equal.
    - rewrite Nat.sub_diag. unfold led. port_bits. cbn [Nat.even].
      now rewrite xorb_true_r.
    - apply map_ext_in. intros i Hi. apply in_seq in Hi.
      unfold led. port_bits.
      replace (i - k)%nat with (S (i - S k)) by lia.
      rewrite Nat.even_succ, <- Nat.negb_even.
      destruct (Z.testbit pb0 0), (Nat.even (i - S k)); reflexivity. }
  rewrite (H 0%nat pb). apply map_ext. intros i. now rewrite Nat.sub_0_r.
Qed.

(** ** The device loop and the attempt *)

Lemma targetCpu_fuse_bytes (cpu : TargetCpuInfo_t) : In cpu targetCpu -> fuse_bytes cpu.
Proof.
  unfold targetCpu. cbn [In]. intros H.
  repeat (destruct H as [<- | H]; [unfold fuse_bytes; cbn; lia | ]).
  contradiction.
Qed.

Lemma some3_inv {A B C : Type} (a a' : A) (b b' : B) (c c' : C) :
  Some (a, b, c) = Some (a', b', c') -> a = a' /\ b = b' /\ c = c'.
Proof. intros H. injection H as -> -> ->. repeat split. Qed.

Section Loop.

Variable inp : Input.

Lemma find_device_found (rest : list TargetCpuInfo_t) :
  forall (device d : Z) (w w' : World) (cpu : TargetCpuInfo_t) (evs : list Event),
    find_device inp rest device w = Some ((d, Some cpu), w', evs) -> In cpu rest.
Proof.
  induction rest as [ | c rest IH]; intros device d w w' cpu evs H; cbn [find_device] in H.
  - unfold ret in H. discriminate H.
  - destruct (negb (sig_byte c 0 =? 0)); [ | unfold ret in H; discriminate H].
    apply bind_inv in H. destruct H as (found & w1 & e1 & e2 & _ & Hk & _).
    destruct found.
    + unfold ret in Hk. injection Hk as _ Hc _ _. left. exact Hc.
    + right. exact (IH _ _ _ _ _ _ Hk).
Qed.

Lemma find_device_later (rest : list TargetCpuInfo_t) (device : Z) (w w' : World)
      (r : Z * option TargetCpuInfo_t) (evs : list Event) :
  find_device inp rest device w = Some (r, w', evs) -> later w w'.
Proof.
  intros H.
  destruct (find_device_scan inp rest device w) as (r0 & w0 & qs & R & L & _).
  destruct (runs_det _ _ _ _ _ _ _ _ R H) as (_ & -> & _). exact L.
Qed.

Lemma on_match_later (fuel : nat) (device : Z) (cpu : TargetCpuInfo_t) (w w' : World)
      (r : Z * bool) (evs : list Event) :
  fuse_bytes cpu ->
  on_match inp fuel device cpu w = Some (r, w', evs) -> later w w'.
Proof.
  intros Hb H. unfold on_match in H.
  apply bind_inv in H. destruct H as (u & w1 & e1 & e2 & Hr & H & _).
  destruct (restore_fuses_returned inp cpu fuel w w1 u e1 Hb Hr)
    as (n1 & n2 & n3 & n4 & n5 & n6 & -> & _).
  apply bind_inv in H. destruct H as (ok & w2 & e3 & e4 & Hv & H & _).
  destruct (verify_fuses_runs inp cpu
              (advance w (write_len n1 n2 + write_len n3 n4
                          + (if fuseExtendedBits cpu =? 0 then 0%nat else write_len n5 n6))))
    as (k & R).
  destruct (runs_det _ _ _ _ _ _ _ _ R Hv) as (_ & -> & _).
  unfold ret in H. injection H as _ Hw _. subst w'.
  rewrite advance_advance. apply later_advance.
Qed.

Lemma device_loop_later (fuel : nat) (w w' : World) (r : Z * bool) (evs : list Event) :
  device_loop inp fuel targetCpu 0 w = Some (r, w', evs) -> later w w'.
Proof.
  intros H. rewrite device_loop_factor in H.
  apply bind_inv in H. destruct H as ([d m] & w1 & e1 & e2 & Hf & H & _).
  pose proof (find_device_later _ _ _ _ _ _ Hf) as L1.
  cbn [fst snd] in H. destruct m as [cpu | ].
  - apply later_trans with (w1 := w1); [exact L1 | ].
    apply (on_match_later fuel d cpu w1 w' r e2); [ | exact H].
    apply targetCpu_fuse_bytes. exact (find_device_found _ _ _ _ _ _ _ Hf).
  - unfold ret in H. injection H as _ Hw _. subst w'. exact L1.
Qed.

Lemma on_match_live (device : Z) (cpu : TargetCpuInfo_t) (w : World) :
  fuse_bytes cpu -> live inp ->
  exists fuel r w' evs, on_match inp fuel device cpu w = Some (r, w', evs).
Proof.
  intros Hb Hlive.
  destruct (live_write_done inp (readsC w) Hlive) as (n1 & n2 & D1).
  destruct (live_write_done inp (readsC w + write_len n1 n2) Hlive) as (n3 & n4 & D2).
  destruct (live_write_done inp (readsC w + write_len n1 n2 + write_len n3 n4) Hlive)
    as (n5 & n6 & D3).
  set (fuel := S (n1 + n2 + n3 + n4 + n5 + n6)).
  destruct (restore_fuses_runs inp cpu fuel w n1 n2 n3 n4 n5 n6 Hb D1 D2)
    as (e1 & Hr & _); try (unfold fuel; lia).
  { intros _. split; [exact D3 | unfold fuel; lia]. }
  destruct (verify_fuses_runs inp cpu
              (advance w (write_len n1 n2 + write_len n3 n4
                          + (if fuseExtendedBits cpu =? 0 then 0%nat else write_len n5 n6))))
    as (k & e2 & Hv & _).
  exists fuel. do 3 eexists. unfold on_match.
  eapply bind_run2; [exact Hr | ].
  eapply bind_run2; [exact Hv | ]. reflexivity.
Qed.

Lemma device_loop_live (w : World) :
  live inp ->
  exists fuel r w' evs, device_loop inp fuel targetCpu 0 w = Some (r, w', evs).
Proof.
  intros Hlive.
  destruct (find_device_scan inp targetCpu 0 w) as ([d m] & w1 & qs & (e1 & Hf & _) & _).
  destruct m as [cpu | ].
  - destruct (on_match_live d cpu w1) as (fuel & r & w' & e2 & Hm); [ | exact Hlive | ].
    { apply targetCpu_fuse_bytes. exact (find_device_found _ _ _ _ _ _ _ Hf). }
    exists fuel, r, w', (e1 ++ e2). rewrite device_loop_factor.
    eapply bind_run2; [exact Hf | ]. exact Hm.
  - exists 0%nat, (d, false), w1, (e1 ++ []). rewrite device_loop_factor.
    eapply bind_run2; [exact Hf | ]. reflexivity.
Qed.

Lemma attempt_run (fuel : nat) (w w1 : World) (r : Z * bool) (sevs : list Event) :
  device_loop inp fuel targetCpu 0 (powered w) = Some (r, w1, sevs) ->
  attempt inp fuel w
  = Some (r, finished w1 (snd r),
          events_of (power_up w) ++ sevs ++ power_down_events (PORTC w1)
          ++ report_events 16 (snd r) (PORTB w1)).
Proof.
  intros H. unfold attempt.
  eapply bind_run2; [apply power_up_run | ].
  eapply bind_run2; [exact H | ].
  eapply bind_run2; [apply power_down_run | ].
  etransitivity.
  - eapply bind_run2; [apply report_loop_run | ]. reflexivity.
  - cbn [PORTB DDRB PORTC DDRC readsB readsC]. unfold finished.
    rewrite app_nil_r. reflexivity.
Qed.

Lemma attempt_returned (fuel : nat) (w w' : World) (r : Z * bool) (evs : list Event) :
  attempt inp fuel w = Some (r, w', evs) ->
  exists w1 sevs,
    device_loop inp fuel targetCpu 0 (powered w) = Some (r, w1, sevs)
    /\ later (powered w) w1
    /\ w' = finished w1 (snd r)
    /\ evs = events_of (power_up w) ++ sevs ++ power_down_events (PORTC w1)
             ++ report_events 16 (snd r) (PORTB w1).
Proof.
  intros H.
  destruct (device_loop inp fuel targetCpu 0 (powered w)) as [[[r1 w1] sevs] | ] eqn:Hd.
  - pose proof (attempt_run fuel w w1 r1 sevs Hd) as Hrun.
    rewrite Hrun in H. apply some3_inv in H. destruct H as (Hr & Hw & He). subst r1.
    exists w1, sevs. split; [reflexivity | ].
    split; [exact (device_loop_later _ _ _ _ _ Hd) | ].
    split; [symmetry; exact Hw | symmetry; exact He].
  - exfalso. unfold attempt in H.
    rewrite (bind_run _ _ _ _ _ _ (power_up_run w)) in H.
    rewrite (bind_none _ _ _ Hd) in H. discriminate H.
Qed.

Lemma attempt_transcript (w w1 : World) (ok : bool) (sevs : list Event) (t : list Op) :
  reads_as sevs t ->
  transcript (events_of (power_up w) ++ sevs ++ power_down_events (PORTC w1)
              ++ report_events 16 ok (PORTB w1)) = t.
Proof.
  intros T. apply reads_as_transcript.
  replace t with ([] ++ t ++ [] ++ []) by (cbn [app]; apply app_nil_r).
  apply reads_as_app; [apply reads_as_quiet, power_up_quiet | ].
  apply reads_as_app; [exact T | ].
  apply reads_as_app; [apply reads_as_quiet, power_down_quiet | ].
  apply reads_as_quiet, report_events_quiet.
Qed.

Lemma device_loop_no_match (fuel : nat) (w w1 : World) (d : Z) (e : list Event) :
  find_device inp targetCpu 0 w = Some ((d, None), w1, e) ->
  device_loop inp fuel targetCpu 0 w = Some ((d, false), w1, e).
Proof.
  intros H. rewrite device_loop_factor.
  rewrite (bind_run _ _ _ _ _ _ H). cbn [snd fst]. unfold ret. now rewrite app_nil_r.
Qed.

Lemma PORTB_or_run (m pb db p dc : Z) (rb rc : nat) :
  PORTB_or m (mkWorld pb db p dc rb rc)
  = Some (tt, mkWorld (or8 pb m) db p dc rb rc, [WrPORTB (or8 pb m)]).
Proof. reflexivity. Qed.

Lemma main_iteration_head (fuel : nat) (w0 : World) :
  main_iteration inp fuel w0
  = match (if Z.land (PINB inp (readsB w0)) (bv SWITCH_PIN) =? 0
           then attempt inp fuel ;; ret tt else ret tt) (triggered w0) with
    | Some (u, w2, e2) =>
        Some (u, w2, [WrPORTB (or8 (PORTB w0) (bv LED_PIN)); RdPINB (PINB inp (readsB w0))] ++ e2)
    | None => None
    end.
Proof.
  destruct w0 as [pb db p dc rb rc]. unfold main_iteration, triggered.
  cbn [PORTB DDRB PORTC DDRC readsB readsC].
  rewrite (bind_run _ _ _ _ _ _ (PORTB_or_run (bv LED_PIN) pb db p dc rb rc)).
  unfold bind at 1. unfold read_PINB at 1. cbn [PORTB DDRB PORTC DDRC readsB readsC].
  destruct ((if Z.land (PINB inp rb) (bv SWITCH_PIN) =? 0
             then attempt inp fuel ;; ret tt else ret tt)
              (mkWorld (or8 pb (bv LED_PIN)) db p dc (S rb) rc)) as [[[u w2] e2] | ];
    reflexivity.
Qed.

Lemma main_iteration_pressed (fuel : nat) (w0 w' : World) (r : Z * bool) (evs : list Event) :
  pressed inp (readsB w0) ->
  attempt inp fuel (triggered w0) = Some (r, w', evs) ->
  main_iteration inp fuel w0
  = Some (tt, w',
          [WrPORTB (or8 (PORTB w0) (bv LED_PIN)); RdPINB (PINB inp (readsB w0))] ++ evs).
Proof.
  intros Hp Ha. rewrite main_iteration_head. unfold pressed in Hp. rewrite Hp.
  cbn [Z.eqb]. rewrite (bind_run _ _ _ _ _ _ Ha). unfold ret. now rewrite app_nil_r.
Qed.

Lemma main_iteration_idle (fuel : nat) (w0 : World) :
  ~ pressed inp (readsB w0) ->
  main_iteration inp fuel w0
  = Some (tt, triggered w0,
          [WrPORTB (or8 (PORTB w0) (bv LED_PIN)); RdPINB (PINB inp (readsB w0))]).
Proof.
  intros Hp. rewrite main_iteration_head. unfold pressed in Hp.
  destruct (Z.eqb_spec (Z.land (PINB inp (readsB w0)) (bv SWITCH_PIN)) 0) as [E | E];
    [contradiction | ].
  unfold ret. reflexivity.
Qed.

Lemma on_match_runs (fuel : nat) (device : Z) (cpu : TargetCpuInfo_t) (w : World)
      (n1 n2 n3 n4 n5 n6 : nat) :
  let len := (write_len n1 n2 + write_len n3 n4
              + (if (fuseExtendedBits cpu =? 0)%Z then 0 else write_len n5 n6))%nat in
  let rl := reply inp (readsC w + len + 16) in
  let rh := reply inp (readsC w + len + 40) in
  let re := reply inp (readsC w + len + 64) in
  fuse_bytes cpu ->
  write_done inp (readsC w) n1 n2 ->
  write_done inp (readsC w + write_len n1 n2) n3 n4 ->
  (fuseExtendedBits cpu <> 0 ->
   write_done inp (readsC w + write_len n1 n2 + write_len n3 n4) n5 n6
   /\ (n5 < fuel)%nat /\ (n6 < fuel)%nat) ->
  (n1 < fuel)%nat -> (n2 < fuel)%nat -> (n3 < fuel)%nat -> (n4 < fuel)%nat ->
  exists k,
    runs (on_match inp fuel device cpu) w
         (device,
          (fuseLowBits cpu =? rl) && (fuseHighBits cpu =? rh)
          && ((0 =? fuseExtendedBits cpu) || (fuseExtendedBits cpu =? re)))
         (advance w k)
         ((write_ops FuseLow (fuseLowBits cpu) n1 n2
           ++ write_ops FuseHigh (fuseHighBits cpu) n3 n4
           ++ (if fuseExtendedBits cpu =? 0 then []
               else write_ops FuseExtended (fuseExtendedBits cpu) n5 n6))
          ++ FuseRead FuseLow rl
             :: (if fuseLowBits cpu =? rl then
                   FuseRead FuseHigh rh
                   :: (if (fuseHighBits cpu =? rh) && negb (0 =? fuseExtendedBits cpu)
                       then [FuseRead FuseExtended re] else [])
                 else [])).
Proof.
  intros len rl rh re Hb D1 D2 D3 Hf1 Hf2 Hf3 Hf4.
  pose proof (restore_fuses_runs inp cpu fuel w n1 n2 n3 n4 n5 n6 Hb D1 D2 D3 Hf1 Hf2 Hf3 Hf4)
    as R1.
  fold len in R1.
  destruct (verify_fuses_runs inp cpu (advance w len)) as (k & R2).
  cbn [advance readsC] in R2. rewrite <- !Nat.add_assoc in R2.
  replace (len + 16)%nat with (len + 16)%nat in R2 by reflexivity.
  subst rl rh re. rewrite <- !Nat.add_assoc.
  exists (len + k)%nat. unfold on_match.
  eapply runs_bind; [exact R1 | ].
  match goal with
  | |- runs _ _ _ _ ?t => rewrite <- (app_nil_r t)
  end.
  eapply runs_bind; [exact R2 | ].
  rewrite advance_advance. apply runs_ret.
Qed.

Lemma device_loop_head_match (fuel : nat) (cpu : TargetCpuInfo_t)
      (rest : list TargetCpuInfo_t) (device : Z) (w w' : World) (r : Z * bool)
      (t : list Op) :
  let a0 := reply inp (readsC w + 24) in
  let a1 := reply inp (readsC w + 56) in
  let a2 := reply inp (readsC w + 88) in
  sig_byte cpu 0 <> 0 ->
  cpu_matches a0 a1 a2 cpu = true ->
  runs (on_match inp fuel device cpu) (advance w 96) r w' t ->
  runs (device_loop inp fuel (cpu :: rest) device) w r w'
       (sig_ops [(0, a0); (1, a1); (2, a2)] ++ t).
Proof.
  intros a0 a1 a2 Hs Hm H. cbn [device_loop].
  destruct (Z.eqb_spec (sig_byte cpu 0) 0) as [E | _]; [contradiction | ]. cbn [negb].
  pose proof (signature_matches_runs inp cpu w) as R. cbn zeta in R.
  fold a0 a1 a2 in R. rewrite Hm in R.
  unfold cpu_matches in Hm. apply andb_true_iff in Hm. destruct Hm as [Hm _].
  apply andb_true_iff in Hm. destruct Hm as [H0 H1].
  unfold codes_for in R. rewrite H0, H1 in R.
  cbn [length Nat.mul Nat.add combine] in R.
  eapply runs_bind; [exact R | ].
  cbv beta. unfold on_match in H. exact H.
Qed.

End Loop.

(** ** Frames and the lines they leave alone *)

(** A bit of PORTC other than SDI, SII and SCI. *)
Lemma testbit_lines_kept (p : Z) (a b c : bool) (n : Z) :
  0 <= n < 8 -> n <> HVSP_SDI -> n <> HVSP_SII -> n <> HVSP_SCI ->
  Z.testbit (lines p a b c) n = Z.testbit p n.
Proof.
  unfold HVSP_SDI, HVSP_SII, HVSP_SCI. intros Hn H0 H1 H3.
  rewrite testbit_lines by lia.
  destruct (Z.eqb_spec n 0); [lia | ]. destruct (Z.eqb_spec n 1); [lia | ].
  destruct (Z.eqb_spec n 3); [lia | ].
  destruct (Z.ltb_spec n 8); [ | lia]. apply andb_true_r.
Qed.

Lemma clockit_any (w : World) :
  clockit w
  = Some (tt,
          mkWorld (PORTB w) (DDRB w) (and8 (or8 (PORTC w) (bv HVSP_SCI)) (nbv HVSP_SCI))
                  (DDRC w) (readsB w) (readsC w),
          [WrPORTC (or8 (PORTC w) (bv HVSP_SCI)); DelayUs 1;
           WrPORTC (and8 (or8 (PORTC w) (bv HVSP_SCI)) (nbv HVSP_SCI))]).
Proof. destruct w as [pb db p dc rb rc]. reflexivity. Qed.

(** Every value a frame writes to PORTC is the value at entry with the
    three programming outputs replaced. *)
Lemma tb_events_writes (p data instr : Z) (r0 r1 r2 r3 r4 r5 r6 r7 : Z) (v : Z) :
  In (WrPORTC v) (tb_events p data instr [r0; r1; r2; r3; r4; r5; r6; r7]) ->
  exists a b c, v = lines p a b c.
Proof.
  unfold tb_events, lead_events, trail_events, bits_msb.
  cbn [seq map combine data_events app pulse_events].
  unfold pulse_events. cbn [app In].
  intros H.
  repeat (destruct H as [H | H];
          [ first [ discriminate H
                  | injection H as <-; do 3 eexists; reflexivity ] | ]).
  destruct H.
Qed.

Lemma tb_events_frame_events (p data instr : Z) (r0 r1 r2 r3 r4 r5 r6 r7 : Z) :
  forallb frame_event (tb_events p data instr [r0; r1; r2; r3; r4; r5; r6; r7]) = true.
Proof.
  unfold tb_events, lead_events, trail_events, bits_msb.
  cbn [seq map combine data_events app pulse_events].
  unfold pulse_events. cbn [app forallb frame_event Z.eqb Pos.eqb andb].
  reflexivity.
Qed.

Section MoreInstructions.

Variable inp : Input.

Ltac xfer :=
  apply transferByte_then; [lia | lia | rewrite ?advance_advance, ?skip_advance].

Ltac xend :=
  eapply emits_to;
  [ apply transferByte_emits; lia
  | rewrite ?advance_advance, ?skip_advance; reflexivity ].

Lemma readFuse_emits (k : Fuse) (w : World) :
  emits (readFuse inp k) w (reply inp (readsC w + 16)) (advance w 24)
        [Fr (mkFrame 0x04 0x4C (reply inp (readsC w)));
         Fr (mkFrame 0x00 (fst (read_opcodes k)) (reply inp (readsC w + 8)));
         Fr (mkFrame 0x00 (snd (read_opcodes k)) (reply inp (readsC w + 16)))].
Proof.
  destruct k; cbn [readFuse read_opcodes fst snd];
    unfold readFuseLowBits, readFuseHighBits, readFuseExtendedBits;
    xfer; xfer; xend.
Qed.

End MoreInstructions.

(** ** Power-up written out, the table's shape, and what a returned scan
    has seen *)

Lemma power_up_closed (w : World) :
  power_up w
  = Some (tt,
          mkWorld (PORTB w) (DDRB w) (last (power_up_ports (PORTC w)) 0)
                  (last (power_up_ddrs (DDRC w)) 0) (readsB w) (readsC w),
          power_up_events (PORTC w) (DDRC w)).
Proof.
  destruct w as [pb db p dc rb rc]. cbn [PORTB DDRB PORTC DDRC readsB readsC].
  etransitivity; [unfold power_up; do 17 port_step; apply delay_us_run | ].
  reflexivity.
Qed.

Lemma report_last_on (n : nat) :
  forall pb, led pb = false -> led (last (report_values n true pb) pb) = false.
Proof.
  induction n as [ | n IH]; intros pb H; [exact H | ].
  cbn [report_values]. rewrite last_cons. apply IH.
  unfold led. port_bits. reflexivity.
Qed.

Lemma report_last_on_pos (n : nat) (pb : Z) :
  led (last (report_values (S n) true pb) pb) = false.
Proof.
  cbn [report_values]. rewrite last_cons. apply report_last_on.
  unfold led. port_bits. reflexivity.
Qed.

Lemma report_last_blink (n : nat) :
  forall pb, led (last (report_values n false pb) pb) = xorb (led pb) (Nat.odd n).
Proof.
  induction n as [ | n IH]; intros pb.
  - cbn [report_values last Nat.odd]. now rewrite xorb_false_r.
  - cbn [report_values]. rewrite last_cons, IH.
    rewrite Nat.odd_succ, <- Nat.negb_odd.
    unfold led. port_bits.
    destruct (Z.testbit pb 0), (Nat.odd n); reflexivity.
Qed.

Lemma targetCpu_real (k : nat) (c : TargetCpuInfo_t) :
  (k < 7)%nat -> nth_error targetCpu k = Some c -> sig_byte c 0 = 0x1E.
Proof.
  intros Hk H.
  do 7 (destruct k as [ | k]; [injection H as <-; reflexivity | ]).
  lia.
Qed.

Lemma targetCpu_last (k : nat) (c : TargetCpuInfo_t) :
  (7 <= k)%nat -> nth_error targetCpu k = Some c -> k = 7%nat /\ sig_byte c 0 = 0.
Proof.
  intros Hk H.
  do 7 (destruct k as [ | k]; [lia | ]).
  destruct k as [ | k].
  - injection H as <-. split; reflexivity.
  - destruct k; discriminate H.
Qed.

Section Seen.

Variable inp : Input.

Lemma cpu_matches_reads (a0 a1 a2 : Z) (cpu : TargetCpuInfo_t) :
  cpu_matches a0 a1 a2 cpu = true ->
  combine (codes_for a0 a1 cpu) [a0; a1; a2] = matched_reads cpu.
Proof.
  unfold cpu_matches, codes_for, matched_reads. intros H.
  apply andb_true_iff in H. destruct H as [H H2].
  apply andb_true_iff in H. destruct H as [H0 H1].
  rewrite H0, H1. cbn [combine].
  apply Z.eqb_eq in H0, H1, H2. rewrite <- H0, <- H1, <- H2. reflexivity.
Qed.

(** A scan that starts at [device] stops [k] records later: the records
    before were real and did not match; the scan either has just read the
    three bytes of the record it stopped at, or stopped at a terminator
    or at the end of the list. *)
Lemma find_device_trace (rest : list TargetCpuInfo_t) :
  forall (device : Z) (w : World),
    0 <= device -> device + Z.of_nat (length rest) < 256 ->
    exists r w' qs k,
      runs (find_device inp rest device) w r w' (sig_ops qs)
      /\ later w w'
      /\ fst r = device + Z.of_nat k
      /\ (k <= length rest)%nat
      /\ (forall j c, (j < k)%nat -> nth_error rest j = Some c -> sig_byte c 0 <> 0)
      /\ match snd r with
         | Some cpu =>
             nth_error rest k = Some cpu /\ sig_byte cpu 0 <> 0
             /\ exists qs', qs = qs' ++ matched_reads cpu
         | None => forall c, nth_error rest k = Some c -> sig_byte c 0 = 0
         end.
Proof.
  induction rest as [ | cpu rest IH]; intros device w Hd Hl.
  - exists (device, None), w, [], 0%nat. split; [apply runs_ret | ].
    split; [apply later_refl | ]. cbn [fst snd length nth_error].
    split; [lia | ]. split; [lia | ]. split; [intros j c Hj; lia | ].
    intros c Hc. discriminate Hc.
  - cbn [find_device]. cbn [length] in Hl.
    destruct (Z.eqb_spec (sig_byte cpu 0) 0) as [Hz | Hnz]; cbn [negb].
    + exists (device, None), w, [], 0%nat. split; [apply runs_ret | ].
      split; [apply later_refl | ]. cbn [fst snd length nth_error].
      split; [lia | ]. split; [lia | ]. split; [intros j c Hj; lia | ].
      intros c Hc. injection Hc as <-. exact Hz.
    + pose proof (signature_matches_runs inp cpu w) as R. cbn zeta in R.
      set (a0 := reply inp (readsC w + 24)) in *.
      set (a1 := reply inp (readsC w + 56)) in *.
      set (a2 := reply inp (readsC w + 88)) in *.
      set (qs1 := combine (codes_for a0 a1 cpu) [a0; a1; a2]) in *.
      set (n := (32 * length (codes_for a0 a1 cpu))%nat) in *.
      destruct (cpu_matches a0 a1 a2 cpu) eqn:Hfound.
      * exists (device, Some cpu), (advance w n), qs1, 0%nat.
        split.
        { rewrite <- (app_nil_r (sig_ops qs1)).
          apply (runs_bind _ _ _ _ _ _ _ _ _ R). apply runs_ret. }
        split; [apply later_advance | ]. cbn [fst snd length nth_error].
        split; [lia | ]. split; [lia | ]. split; [intros j c Hj; lia | ].
        split; [reflexivity | ]. split; [exact Hnz | ].
        exists []. subst qs1. rewrite (cpu_matches_reads _ _ _ _ Hfound). reflexivity.
      * destruct (IH (uint8 (device + 1)) (advance w n))
          as (r & w' & qs & k & R' & L & Hr & Hk & Hbefore & Hat).
        { pose proof (uint8_range (device + 1)). lia. }
        { rewrite uint8_small by lia. lia. }
        rewrite uint8_small in Hr by lia.
        exists r, w', (qs1 ++ qs), (S k).
        split.
        { unfold sig_ops. rewrite map_app.
          apply (runs_bind _ _ _ _ _ _ _ _ _ R). exact R'. }
        split; [apply later_trans with (w1 := advance w n);
                [apply later_advance | exact L] | ].
        split; [lia | ]. split; [cbn [length]; lia | ].
        split.
        { intros j c Hj Hc. destruct j as [ | j].
          - injection Hc as <-. exact Hnz.
          - apply (Hbefore j c); [lia | exact Hc]. }
        cbn [nth_error]. destruct (snd r) as [m | ].
        -- destruct Hat as (Hn & Hs & qs' & ->).
           split; [exact Hn | ]. split; [exact Hs | ].
           exists (qs1 ++ qs'). now rewrite app_assoc.
        -- exact Hat.
Qed.

(** The scan of the table returns, whatever the target answers, without
    running past the terminator. *)
Lemma find_device_targetCpu (w : World) :
  exists r w' qs,
    runs (find_device inp targetCpu 0) w r w' (sig_ops qs)
    /\ later w w'
    /\ match snd r with
       | Some cpu =>
           0 <= fst r < 7 /\ nth_error targetCpu (Z.to_nat (fst r)) = Some cpu
           /\ sig_byte cpu 0 <> 0
           /\ exists qs', qs = qs' ++ matched_reads cpu
       | None => fst r = 7
       end.
Proof.
  destruct (find_device_trace targetCpu 0 w)
    as (r & w' & qs & k & R & L & Hr & Hk & Hbefore & Hat);
    [lia | cbn; lia | ].
  exists r, w', qs. split; [exact R | ]. split; [exact L | ].
  cbn [Z.add] in Hr.
  assert (Hk7 : (k <= 7)%nat).
  { destruct (Nat.le_gt_cases k 7) as [H | H]; [exact H | ].
    exfalso. apply (Hbefore 7%nat (mkCpu [0; 0; 0] 0 0 0) H); reflexivity. }
  destruct (snd r) as [cpu | ].
  - destruct Hat as (Hn & Hs & Hq).
    assert (Hlt : (k < 7)%nat).
    { destruct (Nat.eq_dec k 7) as [-> | ]; [ | lia].
      exfalso. apply Hs. injection Hn as <-. reflexivity. }
    rewrite Hr, Nat2Z.id. repeat split; try lia; assumption.
  - destruct (Nat.eq_dec k 7) as [-> | Hne]; [rewrite Hr; reflexivity | ].
    exfalso.
    assert (Hlt : (k < 7)%nat) by lia.
    destruct (nth_error targetCpu k) as [c | ] eqn:Hn.
    + pose proof (targetCpu_real k c Hlt Hn) as H1.
      rewrite (Hat c eq_refl) in H1. discriminate H1.
    + apply nth_error_None in Hn. cbn in Hn. lia.
Qed.

Lemma sig_reads_fuse_read_tail (cpu : TargetCpuInfo_t) (rl rh re : Z) :
  sig_reads (FuseRead FuseLow rl
             :: (if fuseLowBits cpu =? rl then
                   FuseRead FuseHigh rh
                   :: (if (fuseHighBits cpu =? rh) && negb (0 =? fuseExtendedBits cpu)
                       then [FuseRead FuseExtended re] else [])
                 else [])) = []
  /\ fuse_writes (FuseRead FuseLow rl
             :: (if fuseLowBits cpu =? rl then
                   FuseRead FuseHigh rh
                   :: (if (fuseHighBits cpu =? rh) && negb (0 =? fuseExtendedBits cpu)
                       then [FuseRead FuseExtended re] else [])
                 else [])) = [].
Proof.
  destruct (fuseLowBits cpu =? rl);
    destruct ((fuseHighBits cpu =? rh) && negb (0 =? fuseExtendedBits cpu));
    split; reflexivity.
Qed.

Lemma verify_reads_iff (cpu : TargetCpuInfo_t) (rl rh re : Z) :
  (fuseLowBits cpu =? rl) && (fuseHighBits cpu =? rh)
  && ((0 =? fuseExtendedBits cpu) || (fuseExtendedBits cpu =? re)) = true
  <-> fuse_reads (FuseRead FuseLow rl
                  :: (if fuseLowBits cpu =? rl then
                        FuseRead FuseHigh rh
                        :: (if (fuseHighBits cpu =? rh) && negb (0 =? fuseExtendedBits cpu)
                            then [FuseRead FuseExtended re] else [])
                      else []))
      = default_reads cpu.
Proof.
  unfold default_reads. rewrite (Z.eqb_sym 0 (fuseExtendedBits cpu)).
  destruct (Z.eqb_spec (fuseLowBits cpu) rl) as [El | El]; cbn [andb].
  - destruct (Z.eqb_spec (fuseHighBits cpu) rh) as [Eh | Eh]; cbn [andb].
    + destruct (Z.eqb_spec (fuseExtendedBits cpu) 0) as [E0 | E0];
        cbn [orb negb fuse_reads flat_map app]; rewrite <- El, <- Eh.
      * split; reflexivity.
      * destruct (Z.eqb_spec (fuseExtendedBits cpu) re) as [Ee | Ee].
        -- rewrite <- Ee. split; reflexivity.
        -- split; [discriminate | ]. intros H. injection H as H. congruence.
    + cbn [fuse_reads flat_map app].
      split; [discriminate | ]. intros H. injection H as _ H. congruence.
  - cbn [fuse_reads flat_map app].
    split; [discriminate | ]. intros H. injection H as H. congruence.
Qed.

(** What a returned run of the block on a match has put on the lines. *)
Lemma on_match_returned (fuel : nat) (device : Z) (cpu : TargetCpuInfo_t) (w w' : World)
      (r : Z * bool) (evs : list Event) :
  fuse_bytes cpu ->
  on_match inp fuel device cpu w = Some (r, w', evs) ->
  exists t,
    reads_as evs t /\ sig_reads t = [] /\ fuse_writes t = default_writes cpu
    /\ fst r = device
    /\ (snd r = true <-> fuse_reads t = default_reads cpu).
Proof.
  intros Hb H. unfold on_match in H.
  apply bind_inv in H. destruct H as (u & w1 & e1 & e2 & Hr & H & ->).
  destruct (restore_fuses_returned inp cpu fuel w w1 u e1 Hb Hr)
    as (n1 & n2 & n3 & n4 & n5 & n6 & -> & T1).
  apply bind_inv in H. destruct H as (ok & w2 & e3 & e4 & Hv & H & ->).
  destruct (verify_fuses_runs inp cpu
              (advance w (write_len n1 n2 + write_len n3 n4
                          + (if fuseExtendedBits cpu =? 0 then 0%nat else write_len n5 n6))))
    as (k & R).
  cbn zeta in R.
  destruct (runs_det _ _ _ _ _ _ _ _ R Hv) as (_ & _ & T2).
  unfold ret in H. apply some3_inv in H. destruct H as (Hres & _ & <-).
  eexists. split.
  - apply reads_as_app; [exact T1 | ].
    rewrite app_nil_r. exact T2.
  - rewrite !sig_reads_app, !fuse_writes_app.
    match goal with
    | |- context [sig_reads (FuseRead FuseLow ?rl :: (if _ then FuseRead FuseHigh ?rh :: (if _ then [FuseRead FuseExtended ?re] else []) else []))] =>
        destruct (sig_reads_fuse_read_tail cpu rl rh re) as [E1 E2]
    end.
    rewrite E1, E2, !sig_reads_write_ops, !fuse_writes_write_ops.
    split; [ | split; [ | split]].
    + destruct (fuseExtendedBits cpu =? 0); [reflexivity | ].
      rewrite sig_reads_write_ops. reflexivity.
    + unfold default_writes.
      destruct (fuseExtendedBits cpu =? 0); [reflexivity | ].
      rewrite fuse_writes_write_ops. reflexivity.
    + rewrite <- Hres. reflexivity.
    + rewrite <- Hres. cbn [snd].
      rewrite !fuse_reads_app, !fuse_reads_write_ops.
      assert (E : fuse_reads (if fuseExtendedBits cpu =? 0 then []
                              else write_ops FuseExtended (fuseExtendedBits cpu) n5 n6) = []).
      { destruct (fuseExtendedBits cpu =? 0); [reflexivity | apply fuse_reads_write_ops]. }
      rewrite E. cbn [app].
      destruct (runs_det _ _ _ _ _ _ _ _ R Hv) as (-> & _ & _).
      apply verify_reads_iff.
Qed.

(** What a returned device loop has put on the lines: signature reads, and
    after a match, which ends with the three bytes of the matched record
    read in a row, the block on that record. *)
Lemma device_loop_returned (fuel : nat) (w w' : World) (r : Z * bool) (evs : list Event) :
  device_loop inp fuel targetCpu 0 w = Some (r, w', evs) ->
  exists qs t,
    reads_as evs (sig_ops qs ++ t) /\ sig_reads t = []
    /\ ((t = [] /\ r = (7, false))
        \/ exists cpu qs',
             0 <= fst r < 7 /\ nth_error targetCpu (Z.to_nat (fst r)) = Some cpu
             /\ qs = qs' ++ matched_reads cpu
             /\ fuse_writes t = default_writes cpu
             /\ (snd r = true <-> fuse_reads t = default_reads cpu)).
Proof.
  intros H. rewrite device_loop_factor in H.
  apply bind_inv in H. destruct H as ([d m] & w1 & e1 & e2 & Hf & H & ->).
  destruct (find_device_targetCpu w) as (r0 & w0 & qs & R & _ & Hat).
  destruct (runs_det _ _ _ _ _ _ _ _ R Hf) as (<- & _ & T1).
  cbn [fst snd] in H, Hat. destruct m as [cpu | ].
  - destruct Hat as (Hd & Hn & _ & qs' & Hq).
    assert (Hb : fuse_bytes cpu).
    { apply targetCpu_fuse_bytes. exact (find_device_found _ _ _ _ _ _ _ _ Hf). }
    destruct (on_match_returned fuel d cpu w1 w' r e2 Hb H)
      as (t & T2 & Hs & Hw & Hfst & Hok).
    exists qs, t. split; [now apply reads_as_app | ]. split; [exact Hs | ].
    right. exists cpu, qs'. rewrite Hfst.
    split; [lia | ]. split; [exact Hn | ]. split; [exact Hq | ].
    split; [exact Hw | exact Hok].
  - unfold ret in H. apply some3_inv in H. destruct H as (<- & _ & <-).
    exists qs, []. split; [apply reads_as_app; [exact T1 | apply reads_as_nil] | ].
    split; [reflexivity | ]. left. split; [reflexivity | ]. now rewrite Hat.
Qed.

End Seen.

(** ** The main loop while idle *)

Lemma idle_event_quiet (evs : list Event) :
  forallb idle_event evs = true -> forallb quiet evs = true.
Proof.
  induction evs as [ | e evs IH]; [reflexivity | ].
  cbn [forallb]. intros H. apply andb_true_iff in H. destruct H as [He H].
  rewrite (IH H), andb_true_r. destruct e; try discriminate He; reflexivity.
Qed.

Lemma main_loop_idle (inp : Input) (fuel n : nat) :
  forall w : World,
    (forall k, (k < n)%nat -> ~ pressed inp (readsB w + k)) ->
    exists pb evs,
      main_loop inp n fuel w
      = Some (tt, mkWorld pb (DDRB w) (PORTC w) (DDRC w) (readsB w + n) (readsC w), evs)
      /\ forallb idle_event evs = true
      /\ length evs = (2 * n)%nat.
Proof.
  induction n as [ | n IH]; intros w Hidle.
  - exists (PORTB w), []. destruct w as [pb db p dc rb rc].
    cbn [main_loop PORTB DDRB PORTC DDRC readsB readsC]. rewrite Nat.add_0_r.
    repeat split.
  - destruct (IH (triggered w)) as (pb' & evs & Hrun & Hev & Hlen).
    { intros k Hk. cbn [triggered readsB].
      replace (S (readsB w) + k)%nat with (readsB w + S k)%nat by lia.
      apply Hidle. lia. }
    exists pb', ([WrPORTB (or8 (PORTB w) (bv LED_PIN)); RdPINB (PINB inp (readsB w))] ++ evs).
    split; [ | split].
    + cbn [main_loop]. eapply bind_run2.
      * apply main_iteration_idle. specialize (Hidle 0%nat).
        rewrite Nat.add_0_r in Hidle. apply Hidle. lia.
      * rewrite Hrun. cbn [triggered PORTB DDRB PORTC DDRC readsB readsC].
        replace (S (readsB w) + n)%nat with (readsB w + S n)%nat by lia. reflexivity.
    + cbn [app forallb idle_event]. rewrite Hev.
      unfold led. port_bits. reflexivity.
    + cbn [app length]. rewrite Hlen. lia.
Qed.

(** ** The cost of the scan *)

Lemma codes_for_length (a0 a1 a2 : Z) (cpu : TargetCpuInfo_t) :
  length (combine (codes_for a0 a1 cpu) [a0; a1; a2]) = length (codes_for a0 a1 cpu)
  /\ (1 <= length (codes_for a0 a1 cpu) <= 3)%nat.
Proof.
  unfold codes_for.
  destruct (a0 =? sig_byte cpu 0); [destruct (a1 =? sig_byte cpu 1) | ];
    cbn [combine length]; split; lia.
Qed.

Lemma find_device_cost (inp : Input) (rest : list TargetCpuInfo_t) :
  forall (device : Z) (w : World),
  exists r w' qs,
    runs (find_device inp rest device) w r w' (sig_ops qs)
    /\ readsC w' = (readsC w + 32 * length qs)%nat
    /\ (length qs
        <= 3 * length (filter (fun c => negb (sig_byte c 0 =? 0)%Z) rest))%nat
    /\ (match rest with
        | cpu :: _ => sig_byte cpu 0 <> 0 -> (1 <= length qs)%nat
        | [] => True
        end).
Proof.
  induction rest as [ | cpu rest IH]; intros device w.
  - exists (device, None), w, []. split; [apply runs_ret | ].
    cbn [length filter]. repeat split; lia.
  - cbn [find_device filter].
    destruct (Z.eqb_spec (sig_byte cpu 0) 0) as [Hz | Hnz]; cbn [negb].
    + exists (device, None), w, []. split; [apply runs_ret | ].
      cbn [length]. split; [lia | ]. split; [lia | ]. intros Hne. contradiction.
    + pose proof (signature_matches_runs inp cpu w) as R. cbn zeta in R.
      set (a0 := reply inp (readsC w + 24)) in *.
      set (a1 := reply inp (readsC w + 56)) in *.
      set (a2 := reply inp (readsC w + 88)) in *.
      destruct (codes_for_length a0 a1 a2 cpu) as (Hlen & Hrange).
      set (qs1 := combine (codes_for a0 a1 cpu) [a0; a1; a2]) in *.
      set (n := (32 * length (codes_for a0 a1 cpu))%nat) in *.
      destruct (cpu_matches a0 a1 a2 cpu) eqn:Hfound.
      * exists (device, Some cpu), (advance w n), qs1.
        split.
        { rewrite <- (app_nil_r (sig_ops qs1)).
          apply (runs_bind _ _ _ _ _ _ _ _ _ R). apply runs_ret. }
        cbn [advance readsC length]. rewrite Hlen. subst n.
        split; [reflexivity | ]. split; [lia | ]. intros _. lia.
      * destruct (IH (uint8 (device + 1)) (advance w n)) as (r & w' & qs & R' & Hc & Hl & _).
        exists r, w', (qs1 ++ qs).
        split.
        { unfold sig_ops. rewrite map_app.
          apply (runs_bind _ _ _ _ _ _ _ _ _ R). exact R'. }
        rewrite length_app, Hlen. cbn [advance readsC] in Hc. cbn [length].
        split; [subst n; lia | ]. split; [lia | ]. intros _. lia.
Qed.

(** ** What a returned device loop has seen and sent *)

Lemma fuse_reads_read_ops (rs : list (Fuse * Z)) : fuse_reads (read_ops rs) = rs.
Proof.
  induction rs as [ | [k v] rs IH]; [reflexivity | ].
  cbn [read_ops map fuse_reads flat_map fst snd app]. f_equal. exact IH.
Qed.

Lemma sig_reads_read_ops (rs : list (Fuse * Z)) : sig_reads (read_ops rs) = [].
Proof. induction rs as [ | q rs IH]; [reflexivity | exact IH]. Qed.

Lemma fuse_writes_read_ops (rs : list (Fuse * Z)) : fuse_writes (read_ops rs) = [].
Proof. induction rs as [ | q rs IH]; [reflexivity | exact IH]. Qed.

Lemma sig_reads_restore_ops (cpu : TargetCpuInfo_t) (n1 n2 n3 n4 n5 n6 : nat) :
  sig_reads (restore_ops cpu n1 n2 n3 n4 n5 n6) = [].
Proof.
  unfold restore_ops. rewrite !sig_reads_app, !sig_reads_write_ops.
  destruct (fuseExtendedBits cpu =? 0); [reflexivity | apply sig_reads_write_ops].
Qed.

Lemma fuse_reads_restore_ops (cpu : TargetCpuInfo_t) (n1 n2 n3 n4 n5 n6 : nat) :
  fuse_reads (restore_ops cpu n1 n2 n3 n4 n5 n6) = [].
Proof.
  unfold restore_ops. rewrite !fuse_reads_app, !fuse_reads_write_ops.
  destruct (fuseExtendedBits cpu =? 0); [reflexivity | apply fuse_reads_write_ops].
Qed.

Lemma fuse_writes_restore_ops (cpu : TargetCpuInfo_t) (n1 n2 n3 n4 n5 n6 : nat) :
  fuse_writes (restore_ops cpu n1 n2 n3 n4 n5 n6) = default_writes cpu.
Proof.
  unfold restore_ops, default_writes.
  rewrite !fuse_writes_app, !fuse_writes_write_ops.
  destruct (fuseExtendedBits cpu =? 0); [reflexivity | ].
  rewrite fuse_writes_write_ops. reflexivity.
Qed.

Lemma verify_tail_read_ops (cpu : TargetCpuInfo_t) (rl rh re : Z) :
  let rd := FuseRead FuseLow rl
            :: (if fuseLowBits cpu =? rl then
                  FuseRead FuseHigh rh
                  :: (if (fuseHighBits cpu =? rh) && negb (0 =? fuseExtendedBits cpu)
                      then [FuseRead FuseExtended re] else [])
                else []) in
  rd = read_ops (fuse_reads rd).
Proof.
  cbn zeta.
  destruct (fuseLowBits cpu =? rl);
    destruct ((fuseHighBits cpu =? rh) && negb (0 =? fuseExtendedBits cpu));
    reflexivity.
Qed.

Lemma reads_as_sig_ops_eq (evs : list Event) (qs : list (Z * Z)) :
  reads_as evs (sig_ops qs) -> sig_reads (transcript evs) = qs.
Proof.
  intros T. rewrite (reads_as_transcript _ _ T). apply sig_reads_sig_ops.
Qed.

Lemma later_readsC (w w' : World) : later w w' -> (readsC w <= readsC w')%nat.
Proof.
  intros [-> | (k & ->)]; [lia | ]. cbn [advance readsC]. lia.
Qed.

Section LoopSeen.

Variable inp : Input.

(** The scan sends at least one signature read for each record it passes,
    and three for the record that matches. *)
Lemma find_device_count (rest : list TargetCpuInfo_t) :
  forall (device : Z) (w : World),
    0 <= device -> device + Z.of_nat (length rest) < 256 ->
    exists r w' qs,
      runs (find_device inp rest device) w r w' (sig_ops qs)
      /\ fst r - device + (match snd r with Some _ => 3 | None => 0 end)
         <= Z.of_nat (length qs).
Proof.
  induction rest as [ | cpu rest IH]; intros device w Hd Hl.
  - exists (device, None), w, []. split; [apply runs_ret | ].
    cbn [fst snd length]. lia.
  - cbn [find_device]. cbn [length] in Hl.
    destruct (Z.eqb_spec (sig_byte cpu 0) 0) as [Hz | Hnz]; cbn [negb].
    + exists (device, None), w, []. split; [apply runs_ret | ].
      cbn [fst snd length]. lia.
    + pose proof (signature_matches_runs inp cpu w) as R. cbn zeta in R.
      set (a0 := reply inp (readsC w + 24)) in *.
      set (a1 := reply inp (readsC w + 56)) in *.
      set (a2 := reply inp (readsC w + 88)) in *.
      destruct (codes_for_length a0 a1 a2 cpu) as (Hlen & Hrange).
      pose proof (cpu_matches_reads a0 a1 a2 cpu) as Hm.
      set (qs1 := combine (codes_for a0 a1 cpu) [a0; a1; a2]) in *.
      set (n := (32 * length (codes_for a0 a1 cpu))%nat) in *.
      destruct (cpu_matches a0 a1 a2 cpu) eqn:Hfound.
      * exists (device, Some cpu), (advance w n), qs1.
        split.
        { rewrite <- (app_nil_r (sig_ops qs1)).
          apply (runs_bind _ _ _ _ _ _ _ _ _ R). apply runs_ret. }
        cbn [fst snd]. rewrite (Hm eq_refl). cbn [matched_reads length]. lia.
      * destruct (IH (uint8 (device + 1)) (advance w n)) as (r & w' & qs & R' & Hc).
        { pose proof (uint8_range (device + 1)). lia. }
        { rewrite uint8_small by lia. lia. }
        rewrite uint8_small in Hc by lia.
        exists r, w', (qs1 ++ qs).
        split.
        { unfold sig_ops. rewrite map_app.
          apply (runs_bind _ _ _ _ _ _ _ _ _ R). exact R'. }
        rewrite length_app, Hlen. lia.
Qed.

(** The block run on a match, when it returns: the writes of the record's
    default values, each with its waits, and then the reads. *)
Lemma on_match_seen (fuel : nat) (device : Z) (cpu : TargetCpuInfo_t) (w w' : World)
      (r : Z * bool) (evs : list Event) :
  fuse_bytes cpu ->
  on_match inp fuel device cpu w = Some (r, w', evs) ->
  exists n1 n2 n3 n4 n5 n6 rs,
    reads_as evs (restore_ops cpu n1 n2 n3 n4 n5 n6 ++ read_ops rs)
    /\ fst r = device
    /\ (snd r = true <-> rs = default_reads cpu).
Proof.
  intros Hb H. unfold on_match in H.
  apply bind_inv in H. destruct H as (u & w1 & e1 & e2 & Hr & H & ->).
  destruct (restore_fuses_returned inp cpu fuel w w1 u e1 Hb Hr)
    as (n1 & n2 & n3 & n4 & n5 & n6 & -> & T1).
  apply bind_inv in H. destruct H as (ok & w2 & e3 & e4 & Hv & H & ->).
  destruct (verify_fuses_runs inp cpu
              (advance w (write_len n1 n2 + write_len n3 n4
                          + (if fuseExtendedBits cpu =? 0 then 0%nat else write_len n5 n6))))
    as (k & R).
  cbn zeta in R.
  destruct (runs_det _ _ _ _ _ _ _ _ R Hv) as (Hok & _ & T2).
  unfold ret in H. apply some3_inv in H. destruct H as (Hres & _ & <-).
  match type of T2 with
  | reads_as _ (FuseRead FuseLow ?rl :: (if _ then FuseRead FuseHigh ?rh :: (if _ then [FuseRead FuseExtended ?re] else []) else [])) =>
      pose proof (verify_tail_read_ops cpu rl rh re) as Hrd;
      pose proof (verify_reads_iff cpu rl rh re) as Hiff
  end.
  cbn zeta in Hrd.
  exists n1, n2, n3, n4, n5, n6. eexists. split; [ | split].
  - apply reads_as_app; [exact T1 | ]. rewrite app_nil_r. rewrite Hrd in T2. exact T2.
  - rewrite <- Hres. reflexivity.
  - rewrite <- Hres. cbn [snd]. rewrite Hok. exact Hiff.
Qed.

Lemma device_loop_seen (fuel : nat) (w w' : World) (r : Z * bool) (evs : list Event) :
  device_loop inp fuel targetCpu 0 w = Some (r, w', evs) ->
  exists qs t m,
    reads_as evs (sig_ops qs ++ t)
    /\ sig_reads t = []
    /\ (forall s0 s1 s2,
           (forall c a, In (c, a) qs -> a = nth (Z.to_nat c) [s0; s1; s2] 0) ->
           (fst r, m) = scan_result s0 s1 s2 targetCpu 0
           /\ map fst qs = requested_codes s0 s1 s2 targetCpu)
    /\ (1 <= length qs <= 21)%nat
    /\ fst r + (match m with Some _ => 3 | None => 0 end) <= Z.of_nat (length qs)
    /\ (readsC w + 32 * length qs <= readsC w')%nat
    /\ match m with
       | Some cpu =>
           0 <= fst r < 7
           /\ nth_error targetCpu (Z.to_nat (fst r)) = Some cpu
           /\ (exists qs', qs = qs' ++ matched_reads cpu)
           /\ exists n1 n2 n3 n4 n5 n6 rs,
                t = restore_ops cpu n1 n2 n3 n4 n5 n6 ++ read_ops rs
                /\ (snd r = true <-> rs = default_reads cpu)
       | None =>
           r = (7, false) /\ t = []
           /\ readsC w' = (readsC w + 32 * length qs)%nat
           /\ forall fuel', device_loop inp fuel' targetCpu 0 w = Some (r, w', evs)
       end.
Proof.
  intros H. rewrite device_loop_factor in H.
  apply bind_inv in H. destruct H as ([d m] & w1 & e1 & e2 & Hf & H & ->).
  destruct (find_device_scan inp targetCpu 0 w) as (rA & wA & qs & RA & _ & PA).
  destruct (runs_det _ _ _ _ _ _ _ _ RA Hf) as (<- & _ & T1).
  pose proof (reads_as_sig_ops_eq _ _ T1) as Eqs.
  destruct (find_device_targetCpu inp w) as (rB & wB & qsB & RB & _ & Hat).
  destruct (runs_det _ _ _ _ _ _ _ _ RB Hf) as (<- & _ & TB).
  rewrite <- (reads_as_sig_ops_eq _ _ TB), Eqs in Hat. clear TB RB qsB wB.
  destruct (find_device_cost inp targetCpu 0 w) as (rC & wC & qsC & RC & Hcost & Hmax & Hmin).
  destruct (runs_det _ _ _ _ _ _ _ _ RC Hf) as (_ & <- & TC).
  rewrite <- (reads_as_sig_ops_eq _ _ TC), Eqs in Hcost, Hmax, Hmin. clear TC RC qsC rC.
  destruct (find_device_count targetCpu 0 w) as (rD & wD & qsD & RD & Hcount);
    [lia | cbn; lia | ].
  destruct (runs_det _ _ _ _ _ _ _ _ RD Hf) as (<- & _ & TD).
  rewrite <- (reads_as_sig_ops_eq _ _ TD), Eqs in Hcount. clear TD RD qsD wD.
  cbn [fst snd] in H, Hat, Hcount.
  assert (Hlen : (1 <= length qs <= 21)%nat).
  { split; [apply Hmin; discriminate | exact Hmax]. }
  destruct m as [cpu | ].
  - destruct Hat as (Hd & Hn & _ & qs' & Hq).
    assert (Hb : fuse_bytes cpu).
    { apply targetCpu_fuse_bytes. exact (find_device_found _ _ _ _ _ _ _ _ Hf). }
    pose proof (on_match_later inp fuel d cpu w1 w' r e2 Hb H) as L.
    apply later_readsC in L.
    destruct (on_match_seen fuel d cpu w1 w' r e2 Hb H)
      as (n1 & n2 & n3 & n4 & n5 & n6 & rs & T2 & Hfst & Hok).
    exists qs, (restore_ops cpu n1 n2 n3 n4 n5 n6 ++ read_ops rs), (Some cpu).
    rewrite Hfst.
    split; [now apply reads_as_app | ].
    split; [rewrite sig_reads_app, sig_reads_restore_ops, sig_reads_read_ops;
            reflexivity | ].
    split; [exact PA | ].
    split; [exact Hlen | ].
    split; [lia | ].
    split; [lia | ].
    split; [lia | ]. split; [exact Hn | ]. split; [exists qs'; exact Hq | ].
    exists n1, n2, n3, n4, n5, n6, rs. split; [reflexivity | exact Hok].
  - pose proof (device_loop_no_match inp) as Hnm.
    unfold ret in H. apply some3_inv in H. destruct H as (<- & <- & <-).
    exists qs, [], None. cbn [fst snd].
    split; [apply reads_as_app; [exact T1 | apply reads_as_nil] | ].
    split; [reflexivity | ].
    split; [exact PA | ].
    split; [exact Hlen | ].
    split; [lia | ].
    split; [lia | ].
    rewrite Hat. split; [reflexivity | ]. split; [reflexivity | ].
    split; [exact Hcost | ].
    intros fuel'. rewrite app_nil_r. rewrite Hat in Hf.
    exact (Hnm fuel' w w1 7 e1 Hf).
Qed.

(** The transcript of a returned device loop, and its signature reads. *)
Lemma device_loop_transcript (evs : list Event) (qs : list (Z * Z)) (t : list Op) :
  reads_as evs (sig_ops qs ++ t) -> sig_reads t = [] ->
  transcript evs = sig_ops qs ++ t /\ sig_reads (transcript evs) = qs.
Proof.
  intros T Hs. rewrite (reads_as_transcript _ _ T). split; [reflexivity | ].
  rewrite sig_reads_app, sig_reads_sig_ops, Hs. apply app_nil_r.
Qed.

Lemma main_loop_after_press (fuel n : nat) (w0 w' : World) (r : Z * bool)
      (evs : list Event) :
  pressed inp (readsB w0) ->
  attempt inp fuel (triggered w0) = Some (r, w', evs) ->
  (forall k, (k < n)%nat -> ~ pressed inp (readsB w' + k)) ->
  exists pb idle,
    main_loop inp (S n) fuel w0
    = Some (tt,
            mkWorld pb (DDRB w') (PORTC w') (DDRC w') (readsB w' + n) (readsC w'),
            ([WrPORTB (or8 (PORTB w0) (bv LED_PIN)); RdPINB (PINB inp (readsB w0))] ++ evs)
            ++ idle)
    /\ forallb idle_event idle = true
    /\ length idle = (2 * n)%nat.
Proof.
  intros Hp H Hidle.
  destruct (main_loop_idle inp fuel n w' Hidle) as (pb & idle & Hrun & Hev & Hlen).
  exists pb, idle. split; [ | split; assumption].
  cbn [main_loop]. eapply bind_run2; [ | exact Hrun].
  exact (main_iteration_pressed inp fuel w0 w' r evs Hp H).
Qed.

End LoopSeen.

(** * The claims *)

(** C1.  For every 8-bit data and instruction pair, [transferByte] drives
    exactly 11 clock pulses: one with both output lines low, then eight that
    carry the bits of data and instruction, most significant bit first, then
    two with both lines low.  In each of the eight data cycles the input is
    read before the two outputs of that cycle are written, and the byte
    returned is built by shifting left and inserting the sample, so that the
    first sample is its most significant bit. *)
Theorem C1_transferByte_frame (inp : Input) (w : World) (data instruction : Z) :
  0 <= data < 256 -> 0 <= instruction < 256 ->
  let rds := pinc_reads inp (readsC w) 8 in
  let bits := combine (bits_msb data) (bits_msb instruction) in
  exists byteRead w' evs,
    transferByte inp data instruction w = Some (byteRead, w', evs)
    /\ evs = lead_events (PORTC w)
             ++ data_events (PORTC w) false bits rds
             ++ trail_events (PORTC w) (Z.testbit instruction 0)
    /\ wire ClkLow (map lview evs)
       = Pulse false false
           :: flat_map (fun sb => [Smp (fst sb); Pulse (fst (snd sb)) (snd (snd sb))])
                (combine (map sdo rds) bits)
           ++ [Pulse false false; Pulse false false]
    /\ pulses_of (wire ClkLow (map lview evs))
       = (false, false) :: bits ++ [(false, false); (false, false)]
    /\ length (pulses_of (wire ClkLow (map lview evs))) = 11%nat
    /\ byteRead = fold_left shift_in (map sdo rds) 0
    /\ map (Z.testbit byteRead) [7; 6; 5; 4; 3; 2; 1; 0] = map sdo rds
    /\ 0 <= byteRead < 256.
Proof.
  intros Hd Hi rds bits.
  exists (reply inp (readsC w)), (advance w 8),
         (tb_events (PORTC w) data instruction rds).
  assert (Hwire : wire ClkLow (map lview (tb_events (PORTC w) data instruction rds))
                  = Pulse false false
                      :: flat_map (fun sb => [Smp (fst sb); Pulse (fst (snd sb)) (snd (snd sb))])
                           (combine (map sdo rds) bits)
                      ++ [Pulse false false; Pulse false false]).
  { subst rds bits.
    unfold tb_events, lead_events, trail_events, pulse_events, pinc_reads, bits_msb.
    cbn [seq map combine data_events app pulse_events].
    unfold pulse_events. cbn [map app].
    rewrite !lview_lines.
    destruct (Z.testbit (PORTC w) HVSP_SCI); reflexivity. }
  split; [now apply transferByte_run | ].
  split; [reflexivity | ].
  split; [exact Hwire | ].
  rewrite Hwire.
  split; [reflexivity | ].
  split; [reflexivity | ].
  subst rds. unfold reply, pinc_reads. cbn [seq map].
  split; [symmetry; apply shift_in_byte | ].
  split; [apply byte_of_bits_testbit | apply byte_of_bits_range].
Qed.

(** C1 at data 0xA5, instruction 0x4C, SDO alternating from high. *)
Lemma C1_transferByte_frame_witness :
  0 <= 0xA5 < 256 /\ 0 <= 0x4C < 256
  /\ exists byteRead w' evs,
       transferByte (input_of (spell 0xAA)) 0xA5 0x4C w_reset = Some (byteRead, w', evs)
       /\ pulses_of (wire ClkLow (map lview evs))
          = (false, false) :: combine (bits_msb 0xA5) (bits_msb 0x4C)
              ++ [(false, false); (false, false)]
       /\ byteRead = 0xAA.
Proof.
  split; [lia | ]. split; [lia | ].
  destruct (C1_transferByte_frame (input_of (spell 0xAA)) w_reset 0xA5 0x4C)
    as (b & w' & evs & Hrun & _ & _ & Hp & _ & Hb & _); [lia | lia | ].
  exists b, w', evs. split; [exact Hrun | ]. split; [exact Hp | ].
  rewrite Hb. reflexivity.
Defined.

(** C6.  Each fuse write sends its four frames, waits on SDO until it reads
    high, sends the load-no-operation frame and waits again.  The waits have
    no timeout: when SDO is high after [n1] low samples in the first wait
    and after [n2] in the second, the call returns (once the fuel covers the
    samples); when SDO stays low throughout either wait, the call returns
    for no amount of fuel. *)
Theorem C6_writeFuse_polls (inp : Input) (k : Fuse) (fuel : nat) (code : Z) (w : World) :
  0 <= code < 256 ->
  (forall n1 n2,
      first_high inp (readsC w + 32) n1 ->
      first_high inp (readsC w + 32 + S n1 + 8) n2 ->
      (n1 < fuel)%nat -> (n2 < fuel)%nat ->
      exists w' evs,
        writeFuse inp k fuel code w = Some (tt, w', evs)
        /\ items evs
           = [Fr (mkFrame 0x40 0x4C (reply inp (readsC w)));
              Fr (mkFrame code 0x2C (reply inp (readsC w + 8)));
              Fr (mkFrame 0x00 (fst (write_opcodes k)) (reply inp (readsC w + 16)));
              Fr (mkFrame 0x00 (snd (write_opcodes k)) (reply inp (readsC w + 24)))]
             ++ polled n1
             ++ [Fr (mkFrame 0x00 0x4C (reply inp (readsC w + 32 + S n1)))]
             ++ polled n2
        /\ transcript evs = FuseWrite k code :: polls n1 ++ LoadNop :: polls n2
        /\ readsC w' = (readsC w + 32 + S n1 + 8 + S n2)%nat)
  /\ (never_high inp (readsC w + 32) -> writeFuse inp k fuel code w = None)
  /\ (forall n1,
         first_high inp (readsC w + 32) n1 ->
         never_high inp (readsC w + 32 + S n1 + 8) ->
         writeFuse inp k fuel code w = None).
Proof.
  intros Hc. split; [ | split].
  - intros n1 n2 H1 H2 Hf1 Hf2.
    destruct (writeFuse_emits inp k fuel code w n1 n2 Hc H1 H2 Hf1 Hf2)
      as (evs & Hrun & Hits).
    destruct (writeFuse_runs inp k fuel code w n1 n2 Hc H1 H2 Hf1 Hf2)
      as (evs' & Hrun' & Hops).
    rewrite Hrun in Hrun'. injection Hrun' as <-.
    exists (advance w (32 + S n1 + 8 + S n2)), evs.
    split; [exact Hrun | ].
    split; [ | split].
    + specialize (Hits []). rewrite app_nil_r in Hits.
      change (items []) with (@nil Item) in Hits. rewrite app_nil_r in Hits.
      exact Hits.
    + apply reads_as_transcript. exact Hops.
    + cbn [advance readsC]. lia.
  - intros Hnever. apply writeFuse_hangs_first; assumption.
  - intros n1 H1 Hnever. apply (writeFuse_hangs_second inp k fuel code w n1); assumption.
Qed.

(** C6 on a line that is high at every read, and on one that never is. *)
Lemma C6_writeFuse_polls_witness :
  0 <= 0x6A < 256
  /\ (exists w' evs,
         writeFuseLowBits (input_of []) 1 0x6A w_reset = Some (tt, w', evs)
         /\ transcript evs = [FuseWrite FuseLow 0x6A; Poll true; LoadNop; Poll true])
  /\ (forall fuel, writeFuseLowBits input_dead fuel 0x6A w_reset = None).
Proof.
  split; [lia | ]. split.
  - destruct (C6_writeFuse_polls (input_of []) FuseLow 1 0x6A w_reset) as (H & _); [lia | ].
    destruct (H 0%nat 0%nat) as (w' & evs & Hrun & _ & Ht & _).
    + split; [intros k Hk; lia | reflexivity].
    + split; [intros k Hk; lia | reflexivity].
    + lia.
    + lia.
    + exists w', evs. split; [exact Hrun | exact Ht].
  - intros fuel.
    destruct (C6_writeFuse_polls input_dead FuseLow fuel 0x6A w_reset) as (_ & H & _); [lia | ].
    apply H. intros k. reflexivity.
Defined.

(** C3.  For every record, the restore step writes the low fuse byte and the
    high fuse byte whatever the record holds, and writes the extended fuse
    byte if and only if the value stored for it is not zero.  The step
    returns whenever SDO answers each wait. *)
Theorem C3_restore_fuses (inp : Input) (cpu : TargetCpuInfo_t) (w : World) :
  fuse_bytes cpu ->
  (live inp ->
   exists fuel w' evs, restore_fuses inp fuel cpu w = Some (tt, w', evs))
  /\ (forall fuel w' evs,
         restore_fuses inp fuel cpu w = Some (tt, w', evs) ->
         fuse_writes (transcript evs)
         = (FuseLow, fuseLowBits cpu) :: (FuseHigh, fuseHighBits cpu)
             :: (if fuseExtendedBits cpu =? 0 then []
                 else [(FuseExtended, fuseExtendedBits cpu)])
         /\ (In FuseExtended (map fst (fuse_writes (transcript evs)))
             <-> fuseExtendedBits cpu <> 0)).
Proof.
  intros Hb. split.
  - intros Hlive.
    destruct (live_write_done inp (readsC w) Hlive) as (n1 & n2 & D1).
    destruct (live_write_done inp (readsC w + write_len n1 n2) Hlive) as (n3 & n4 & D2).
    destruct (live_write_done inp (readsC w + write_len n1 n2 + write_len n3 n4) Hlive)
      as (n5 & n6 & D3).
    set (fuel := S (n1 + n2 + n3 + n4 + n5 + n6)).
    destruct (restore_fuses_runs inp cpu fuel w n1 n2 n3 n4 n5 n6 Hb D1 D2)
      as (evs & Hrun & _); try (unfold fuel; lia).
    { intros _. split; [exact D3 | unfold fuel; lia]. }
    exists fuel. eexists. exists evs. exact Hrun.
  - intros fuel w' evs Hrun.
    destruct (restore_fuses_returned inp cpu fuel w w' tt evs Hb Hrun)
      as (n1 & n2 & n3 & n4 & n5 & n6 & _ & T).
    rewrite (reads_as_transcript _ _ T), !fuse_writes_app, !fuse_writes_write_ops.
    destruct (Z.eqb_spec (fuseExtendedBits cpu) 0) as [E | E].
    + split; [reflexivity | ]. cbn. split; [ | contradiction].
      intros [H | [H | []]]; discriminate.
    + rewrite fuse_writes_write_ops. split; [reflexivity | ].
      cbn. split; [intros _; exact E | intros _; right; right; now left].
Qed.

(** C3 on the ATtiny24 record, with SDO high at every read. *)
Lemma C3_restore_fuses_witness :
  fuse_bytes ATtiny24
  /\ live (input_of [])
  /\ exists fuel w' evs,
       restore_fuses (input_of []) fuel ATtiny24 w_reset = Some (tt, w', evs)
       /\ fuse_writes (transcript evs)
          = [(FuseLow, 0x62); (FuseHigh, 0xDF); (FuseExtended, 0xFF)].
Proof.
  assert (Hb : fuse_bytes ATtiny24) by (repeat split; cbn; lia).
  split; [exact Hb | ]. split; [apply live_input_of | ].
  destruct (C3_restore_fuses (input_of []) ATtiny24 w_reset Hb) as [Hret Hall].
  destruct (Hret (live_input_of [])) as (fuel & w' & evs & Hrun).
  exists fuel, w', evs. split; [exact Hrun | ].
  exact (proj1 (Hall fuel w' evs Hrun)).
Defined.



(** C2.  For every live signature [s0 s1 s2] (the target answers each
    signature read with the byte asked for), the device loop examines the
    records of the table in order and runs its block on the first record
    whose three signature bytes equal it: it returns the index of that
    record, and the fuses it has written are that record's default values.
    If the terminator record is reached first it returns (7, false) and has
    sent signature reads only; so it does for a signature that no record
    of the table has.  The loop returns whenever SDO answers each wait. *)
Theorem C2_device_loop_match (inp : Input) (w : World) (s0 s1 s2 : Z) :
  (live inp ->
   exists fuel r w' evs, device_loop inp fuel targetCpu 0 w = Some (r, w', evs))
  /\ forall fuel r w' evs,
      device_loop inp fuel targetCpu 0 w = Some (r, w', evs) ->
      answers_with [s0; s1; s2] (transcript evs) ->
      map fst (sig_reads (transcript evs)) = requested_codes s0 s1 s2 targetCpu
      /\ match first_match [s0; s1; s2] targetCpu with
         | Some cpu =>
             0 <= fst r < 7
             /\ nth_error targetCpu (Z.to_nat (fst r)) = Some cpu
             /\ signature cpu = [s0; s1; s2]
             /\ fuse_writes (transcript evs) = default_writes cpu
         | None =>
             r = (7, false)
             /\ transcript evs = sig_ops (sig_reads (transcript evs))
             /\ fuse_writes (transcript evs) = []
         end
      /\ ((forall cpu, In cpu targetCpu -> signature cpu <> [s0; s1; s2]) ->
          r = (7, false) /\ fuse_writes (transcript evs) = []).
Proof.
  split; [intros Hlive; exact (device_loop_live inp w Hlive) | ].
  intros fuel r w' evs H Hans.
  destruct (device_loop_seen inp fuel w w' r evs H)
    as (qs & t & m & T & Hs & P & _ & _ & _ & Hm).
  destruct (device_loop_transcript evs qs t T Hs) as (Et & Eq).
  unfold answers_with in Hans. rewrite Eq in Hans.
  destruct (P s0 s1 s2 Hans) as (Hscan & Hcodes).
  pose proof (scan_result_targetCpu s0 s1 s2) as Hsnd.
  rewrite <- Hscan in Hsnd. cbn [snd] in Hsnd.
  rewrite Eq. split; [exact Hcodes | ].
  rewrite Et, fuse_writes_app, fuse_writes_sig_ops. cbn [app].
  destruct (first_match [s0; s1; s2] targetCpu) as [cpu | ] eqn:E; subst m.
  - destruct Hm as (Hd & Hn & _ & n1 & n2 & n3 & n4 & n5 & n6 & rs & -> & _).
    rewrite fuse_writes_app, fuse_writes_restore_ops, fuse_writes_read_ops, app_nil_r.
    split.
    + split; [exact Hd | ]. split; [exact Hn | ].
      split; [exact (proj2 (first_match_sound _ _ _ E)) | reflexivity].
    + intros Habs. rewrite (first_match_absent _ _ Habs) in E. discriminate E.
  - destruct Hm as (-> & -> & _). rewrite app_nil_r.
    split; [repeat split | ]. intros _. split; reflexivity.
Qed.

(** C2 on an ATtiny85, the seventh record of the table. *)
Lemma C2_device_loop_match_witness :
  exists r w' evs,
    device_loop (input_of tiny85_answers) 1 targetCpu 0 w_reset = Some (r, w', evs)
    /\ answers_with [0x1E; 0x93; 0x0B] (transcript evs)
    /\ nth_error targetCpu (Z.to_nat (fst r)) = Some ATtiny85
    /\ fuse_writes (transcript evs)
       = [(FuseLow, 0x62); (FuseHigh, 0xDF); (FuseExtended, 0xFF)].
Proof.
  pose proof tiny85_loop_result as Hres.
  pose proof tiny85_loop_answered as Hans.
  destruct (device_loop (input_of tiny85_answers) 1 targetCpu 0 w_reset)
    as [[[r w'] evs] | ] eqn:Hrun; [ | discriminate Hres].
  cbn [events_of] in Hans.
  exists r, w', evs. split; [reflexivity | ]. split; [exact Hans | ].
  destruct (C2_device_loop_match (input_of tiny85_answers) w_reset 0x1E 0x93 0x0B)
    as (_ & Hret).
  destruct (Hret 1%nat r w' evs Hrun Hans) as (_ & Hm & _).
  change (first_match [0x1E; 0x93; 0x0B] targetCpu) with (Some ATtiny85) in Hm.
  destruct Hm as (_ & Hn & _ & Hw). split; [exact Hn | exact Hw].
Defined.

(** C10.  The device loop does not read the signature once and compare it
    with the table: for each record examined it reads signature byte 0
    afresh, byte 1 only if byte 0 matched that record, and byte 2 only if
    bytes 0 and 1 did.  The signature reads come first in what the loop
    sends, and their number grows with the position reached in the table:
    it is at least the final value of [device], plus three when a record
    matched. *)
Theorem C10_signature_reads (inp : Input) (w : World) (s0 s1 s2 : Z) :
  (live inp ->
   exists fuel r w' evs, device_loop inp fuel targetCpu 0 w = Some (r, w', evs))
  /\ forall fuel r w' evs,
      device_loop inp fuel targetCpu 0 w = Some (r, w', evs) ->
      let t := transcript evs in
      answers_with [s0; s1; s2] t ->
      (exists rest,
          t = sig_ops (sig_reads t) ++ rest /\ sig_reads rest = []
          /\ (fst r = 7 -> rest = []))
      /\ map fst (sig_reads t) = requested_codes s0 s1 s2 targetCpu
      /\ fst r + (if fst r <? 7 then 3 else 0) <= Z.of_nat (length (sig_reads t)).
Proof.
  split; [intros Hlive; exact (device_loop_live inp w Hlive) | ].
  intros fuel r w' evs H t Hans. subst t.
  destruct (device_loop_seen inp fuel w w' r evs H)
    as (qs & t & m & T & Hs & P & _ & Hcount & _ & Hm).
  destruct (device_loop_transcript evs qs t T Hs) as (Et & Eq).
  unfold answers_with in Hans. rewrite Eq in Hans.
  destruct (P s0 s1 s2 Hans) as (_ & Hcodes).
  rewrite Eq. split; [ | split; [exact Hcodes | ]].
  - exists t. split; [exact Et | ]. split; [exact Hs | ].
    intros H7. destruct m as [cpu | ].
    + destruct Hm as (Hd & _). lia.
    + destruct Hm as (_ & -> & _). reflexivity.
  - destruct m as [cpu | ].
    + destruct Hm as (Hd & _).
      destruct (Z.ltb_spec (fst r) 7) as [_ | Hge]; [exact Hcount | lia].
    + destruct Hm as (-> & _). cbn [fst] in *. cbn [Z.ltb Z.compare Pos.compare
        Pos.compare_cont]. exact Hcount.
Qed.

(** C10 on an ATtiny85: sixteen signature reads, not three. *)
Lemma C10_signature_reads_witness :
  exists r w' evs,
    device_loop (input_of tiny85_answers) 1 targetCpu 0 w_reset = Some (r, w', evs)
    /\ answers_with [0x1E; 0x93; 0x0B] (transcript evs)
    /\ map fst (sig_reads (transcript evs))
       = [0; 1; 0; 1; 0; 1; 0; 1; 2; 0; 1; 0; 1; 0; 1; 2].
Proof.
  pose proof tiny85_loop_result as Hres.
  pose proof tiny85_loop_answered as Hans.
  destruct (device_loop (input_of tiny85_answers) 1 targetCpu 0 w_reset)
    as [[[r w'] evs] | ] eqn:Hrun; [ | discriminate Hres].
  cbn [events_of] in Hans.
  exists r, w', evs. split; [reflexivity | ]. split; [exact Hans | ].
  destruct (C10_signature_reads (input_of tiny85_answers) w_reset 0x1E 0x93 0x0B)
    as (_ & Hret).
  destruct (Hret 1%nat r w' evs Hrun Hans) as (_ & Hcodes & _).
  rewrite Hcodes. reflexivity.
Defined.

(** C8.  In every attempt the power-down phase runs in a fixed order: SCI,
    SII and SDI are driven low and the reset line is released (the RST pin
    is set: the transistor inverts), then 10 us pass, and only then is VCC
    switched off.  VCC is still on when the 12 V are removed and the 12 V are
    already off when VCC is removed.  The phase is followed by the LED loop
    alone. *)
Theorem C8_power_down_order (inp : Input) (w : World) :
  (live inp -> exists fuel r w' evs, attempt inp fuel w = Some (r, w', evs))
  /\ forall fuel r w' evs,
      attempt inp fuel w = Some (r, w', evs) ->
      exists pre c1 c2 c3 c4 c5,
        evs = pre
              ++ [WrPORTC c1; WrPORTC c2; WrPORTC c3; WrPORTC c4; DelayUs 10; WrPORTC c5]
              ++ report_events 16 (snd r) (PORTB w)
        /\ Z.testbit c3 HVSP_SCI = false /\ Z.testbit c3 HVSP_SII = false
        /\ Z.testbit c3 HVSP_SDI = false
        /\ Z.testbit c4 HVSP_SCI = false /\ Z.testbit c4 HVSP_SII = false
        /\ Z.testbit c4 HVSP_SDI = false
        /\ Z.testbit c4 HVSP_RST = true
        /\ map (fun c => Z.testbit c HVSP_VCC) [c1; c2; c3; c4] = [true; true; true; true]
        /\ Z.testbit c5 HVSP_VCC = false
        /\ Z.testbit c5 HVSP_RST = true.
Proof.
  split.
  - intros Hlive.
    destruct (device_loop_live inp (powered w) Hlive) as (fuel & r & w1 & sevs & Hd).
    exists fuel, r. do 2 eexists. exact (attempt_run inp fuel w w1 r sevs Hd).
  - intros fuel r w' evs H.
    destruct (attempt_returned inp fuel w w' r evs H) as (w1 & sevs & _ & L & _ & He).
    destruct (later_same _ _ L) as (Hpb & _ & _ & _ & Hvcc & _).
    destruct (powered_same w) as (Hpb0 & _ & _ & Hv & _).
    destruct (power_down_bits (PORTC w1))
      as (c1 & c2 & c3 & c4 & c5 & Hvals & B1 & B2 & B3 & B4 & B5 & B6 & B7
          & V1 & V2 & V3 & V4 & V5 & R5).
    exists (events_of (power_up w) ++ sevs), c1, c2, c3, c4, c5.
    split.
    + rewrite He, <- app_assoc. unfold power_down_events. rewrite Hvals, Hpb, Hpb0.
      reflexivity.
    + rewrite Hvcc, Hv in V1, V2, V3, V4. cbn [map]. rewrite V1, V2, V3, V4.
      repeat split; assumption.
Qed.

(** C9.  After power-down the LED loop runs 16 times with a delay of 250 ms
    each, 4 s in all, and nothing else follows in the attempt: on success
    every iteration drives the LED pin low (lit), on failure every iteration
    inverts it, starting lit.  Then the iteration of the main loop is over:
    it has returned, the button was read once, and while the button is seen
    released the main loop goes on with iterations that only switch the LED
    off and read the button. *)
Theorem C9_report (inp : Input) (fuel n : nat) (w0 w' : World) (r : Z * bool)
        (evs : list Event) :
  pressed inp (readsB w0) ->
  attempt inp fuel (triggered w0) = Some (r, w', evs) ->
  exists pre p vs,
    evs = pre ++ power_down_events p ++ flat_map (fun v => [WrPORTB v; DelayMs 250]) vs
    /\ length vs = 16%nat
    /\ total_ms (flat_map (fun v => [WrPORTB v; DelayMs 250]) vs) = 4000
    /\ map led vs = (if snd r then repeat false 16 else map Nat.odd (seq 0 16))
    /\ main_iteration inp fuel w0
       = Some (tt, w',
               [WrPORTB (or8 (PORTB w0) (bv LED_PIN)); RdPINB (PINB inp (readsB w0))]
               ++ evs)
    /\ readsB w' = S (readsB w0)
    /\ ((forall k, (k < n)%nat -> ~ pressed inp (readsB w' + k)) ->
        exists w'' idle,
          main_loop inp (S n) fuel w0
          = Some (tt, w'',
                  ([WrPORTB (or8 (PORTB w0) (bv LED_PIN)); RdPINB (PINB inp (readsB w0))]
                   ++ evs) ++ idle)
          /\ forallb idle_event idle = true
          /\ length idle = (2 * n)%nat
          /\ PORTC w'' = PORTC w' /\ DDRC w'' = DDRC w'
          /\ readsC w'' = readsC w' /\ readsB w'' = (readsB w' + n)%nat).
Proof.
  intros Hp H.
  destruct (attempt_returned inp fuel (triggered w0) w' r evs H)
    as (w1 & sevs & _ & L & Hw & He).
  destruct (later_same _ _ L) as (Hpb & _ & _ & Hrb & _).
  destruct (powered_same (triggered w0)) as (Hpb0 & Hrb0 & _).
  rewrite Hpb0 in Hpb. cbn [triggered PORTB] in Hpb.
  rewrite Hrb0 in Hrb. cbn [triggered readsB] in Hrb.
  exists (events_of (power_up (triggered w0)) ++ sevs), (PORTC w1),
         (report_values 16 (snd r) (PORTB w1)).
  split; [rewrite He, <- !app_assoc; reflexivity | ].
  split; [apply report_values_length | ].
  split; [exact (report_total_ms 16 (snd r) (PORTB w1)) | ].
  split.
  { destruct (snd r).
    - apply report_values_on.
    - rewrite report_values_blink. apply map_ext. intros i.
      rewrite Hpb. unfold led. port_bits. rewrite <- Nat.negb_even. reflexivity. }
  split; [exact (main_iteration_pressed inp fuel w0 w' r evs Hp H) | ].
  split; [rewrite Hw; unfold finished; cbn [readsB]; exact Hrb | ].
  intros Hidle.
  destruct (main_loop_after_press inp fuel n w0 w' r evs Hp H Hidle)
    as (pb & idle & Hrun & Hev & Hlen).
  do 2 eexists. split; [exact Hrun | ].
  split; [exact Hev | ]. split; [exact Hlen | ].
  cbn [PORTC DDRC readsB readsC]. repeat split.
Qed.

(** C9 on an ATtiny13 that is restored after one press of the button: the
    LED is lit throughout, and two idle iterations follow. *)
Lemma C9_report_witness :
  pressed (input_press_once tiny13_session) (readsB w_reset)
  /\ exists r w' evs,
       attempt (input_press_once tiny13_session) 1 (triggered w_reset) = Some (r, w', evs)
       /\ snd r = true
       /\ (exists pre p vs,
              evs = pre ++ power_down_events p
                    ++ flat_map (fun v => [WrPORTB v; DelayMs 250]) vs
              /\ map led vs = repeat false 16)
       /\ exists w'' idle,
            main_loop (input_press_once tiny13_session) 3 1 w_reset
            = Some (tt, w'',
                    ([WrPORTB (or8 (PORTB w_reset) (bv LED_PIN));
                      RdPINB (PINB (input_press_once tiny13_session) (readsB w_reset))]
                     ++ evs) ++ idle)
            /\ length idle = 4%nat.
Proof.
  assert (Hp : pressed (input_press_once tiny13_session) (readsB w_reset)) by reflexivity.
  split; [exact Hp | ].
  assert (Hres : result_of (attempt (input_press_once tiny13_session) 1 (triggered w_reset))
                 = Some (0, true)) by (vm_compute; reflexivity).
  destruct (attempt (input_press_once tiny13_session) 1 (triggered w_reset))
    as [[[r w'] evs] | ] eqn:Hrun; [ | discriminate Hres].
  cbn [result_of] in Hres. injection Hres as Hr. subst r.
  exists (0, true), w', evs. split; [reflexivity | ]. split; [reflexivity | ].
  destruct (C9_report (input_press_once tiny13_session) 1 2 w_reset w' (0, true) evs Hp Hrun)
    as (pre & p & vs & He & _ & _ & Hled & _ & Hrb & Hnext).
  split; [exists pre, p, vs; split; [exact He | exact Hled] | ].
  destruct Hnext as (w'' & idle & Hloop & _ & Hlen & _).
  { intros k _ Hpress. rewrite Hrb in Hpress. unfold pressed in Hpress.
    cbn [readsB w_reset input_press_once PINB Nat.add] in Hpress. discriminate Hpress. }
  exists w'', idle. split; [exact Hloop | exact Hlen].
Defined.

(** C5.  For every live signature that no record of the table has, the
    attempt ends in failure, with [device] on the terminator record; between
    power-up and power-down there are signature reads only, so no fuse write
    is sent, and the scan is followed at once by the power-down and the LED
    loop. *)
Theorem C5_no_match (inp : Input) (fuel : nat) (w : World) (s0 s1 s2 : Z) :
  let scan := find_device inp targetCpu 0 (powered w) in
  answers_with [s0; s1; s2] (transcript (events_of scan)) ->
  (forall cpu, In cpu targetCpu -> signature cpu <> [s0; s1; s2]) ->
  exists w' evs,
    attempt inp fuel w = Some ((7, false), w', evs)
    /\ evs = events_of (power_up w) ++ events_of scan
             ++ power_down_events (PORTC (state_of (powered w) scan))
             ++ report_events 16 false (PORTB w)
    /\ transcript evs = transcript (events_of scan)
    /\ transcript evs = sig_ops (sig_reads (transcript evs))
    /\ fuse_writes (transcript evs) = [].
Proof.
  intros scan Hans Habs. subst scan.
  destruct (find_device_total inp (powered w) s0 s1 s2 Hans)
    as (w1 & qs & sevs & Hf & L & T & _).
  pose proof (scan_result_targetCpu s0 s1 s2) as Hsnd.
  pose proof (scan_device_targetCpu s0 s1 s2) as Hfst. cbn zeta in Hfst.
  rewrite (first_match_absent _ _ Habs) in Hsnd.
  destruct (scan_result s0 s1 s2 targetCpu 0) as [d m]. cbn [fst snd] in Hsnd, Hfst.
  subst m. subst d.
  rewrite Hf. cbn [events_of state_of].
  pose proof (device_loop_no_match inp fuel _ _ _ _ Hf) as Hd.
  pose proof (attempt_run inp fuel w w1 (7, false) sevs Hd) as Hrun. cbn [snd] in Hrun.
  destruct (later_same _ _ L) as (Hpb & _).
  destruct (powered_same w) as (Hpb0 & _).
  rewrite Hpb, Hpb0 in Hrun.
  do 2 eexists. split; [exact Hrun | ]. split; [reflexivity | ].
  rewrite <- Hpb0, <- Hpb.
  rewrite (attempt_transcript w w1 false sevs (sig_ops qs) T).
  rewrite (reads_as_transcript _ _ T).
  split; [reflexivity | ].
  split; [now rewrite sig_reads_sig_ops | apply fuse_writes_sig_ops].
Qed.

(** C5 on a target whose signature 0x1E 0x95 0x0F is not in the table. *)
Lemma C5_no_match_witness :
  answers_with [0x1E; 0x95; 0x0F]
    (transcript (events_of (find_device (input_of unknown_answers) targetCpu 0
                              (powered w_reset))))
  /\ (forall cpu, In cpu targetCpu -> signature cpu <> [0x1E; 0x95; 0x0F])
  /\ exists w' evs,
       attempt (input_of unknown_answers) 1 w_reset = Some ((7, false), w', evs)
       /\ fuse_writes (transcript evs) = [].
Proof.
  split; [exact unknown_answered | ]. split; [exact unknown_absent | ].
  destruct (C5_no_match (input_of unknown_answers) 1 w_reset 0x1E 0x95 0x0F
              unknown_answered unknown_absent)
    as (w' & evs & Hrun & _ & _ & _ & Hw).
  exists w', evs. split; [exact Hrun | exact Hw].
Defined.

(** C7.  For a target whose signature bytes read 0x1E, 0x90, 0x07, whose
    waits end after [n1] .. [n4] low samples and whose low and high fuse
    read back as 0x6A and 0xFF, the attempt stops at the first record
    (ATtiny13), writes 0x6A to the low and 0xFF to the high fuse, writes no
    extended fuse, reads the two fuses back and declares success. *)
Theorem C7_tiny13 (inp : Input) (fuel : nat) (w : World) (n1 n2 n3 n4 : nat) :
  let c := readsC w in
  let len := (write_len n1 n2 + write_len n3 n4)%nat in
  reply inp (c + 24) = 0x1E -> reply inp (c + 56) = 0x90 -> reply inp (c + 88) = 0x07 ->
  write_done inp (c + 96) n1 n2 ->
  write_done inp (c + 96 + write_len n1 n2) n3 n4 ->
  (n1 < fuel)%nat -> (n2 < fuel)%nat -> (n3 < fuel)%nat -> (n4 < fuel)%nat ->
  reply inp (c + 96 + len + 16) = 0x6A ->
  reply inp (c + 96 + len + 40) = 0xFF ->
  exists w' evs,
    attempt inp fuel w = Some ((0, true), w', evs)
    /\ transcript evs
       = [SigRead 0 0x1E; SigRead 1 0x90; SigRead 2 0x07]
         ++ write_ops FuseLow 0x6A n1 n2
         ++ write_ops FuseHigh 0xFF n3 n4
         ++ [FuseRead FuseLow 0x6A; FuseRead FuseHigh 0xFF]
    /\ fuse_writes (transcript evs) = [(FuseLow, 0x6A); (FuseHigh, 0xFF)].
Proof.
  intros c len S0 S1 S2 D1 D2 Hf1 Hf2 Hf3 Hf4 Rl Rh. subst c len.
  destruct (powered_same w) as (_ & _ & Hrc & _).
  rewrite <- Hrc in S0, S1, S2, D1, D2, Rl, Rh.
  set (wp := powered w) in *.
  assert (Hb : fuse_bytes ATtiny13) by (repeat split; cbn; lia).
  destruct (on_match_runs inp fuel 0 ATtiny13 (advance wp 96) n1 n2 n3 n4 0 0 Hb)
    as (k & R); try assumption.
  { intros E. exfalso. apply E. reflexivity. }
  change (fuseExtendedBits ATtiny13) with 0 in R.
  change (fuseLowBits ATtiny13) with 0x6A in R.
  change (fuseHighBits ATtiny13) with 0xFF in R.
  cbn [Z.eqb] in R.
  replace (readsC (advance wp 96) + (write_len n1 n2 + write_len n3 n4 + 0) + 16)%nat
    with (readsC wp + 96 + (write_len n1 n2 + write_len n3 n4) + 16)%nat in R
    by (cbn [advance readsC]; lia).
  replace (readsC (advance wp 96) + (write_len n1 n2 + write_len n3 n4 + 0) + 40)%nat
    with (readsC wp + 96 + (write_len n1 n2 + write_len n3 n4) + 40)%nat in R
    by (cbn [advance readsC]; lia).
  rewrite Rl, Rh in R. cbn [Z.eqb Pos.eqb andb orb negb app] in R.
  assert (Hd : runs (device_loop inp fuel targetCpu 0) wp (0, true)
                    (advance (advance wp 96) k)
                    (sig_ops [(0, 0x1E); (1, 0x90); (2, 0x07)]
                     ++ (write_ops FuseLow 0x6A n1 n2
                         ++ write_ops FuseHigh 0xFF n3 n4 ++ [])
                        ++ [FuseRead FuseLow 0x6A; FuseRead FuseHigh 0xFF])).
  { change targetCpu with (ATtiny13 :: List.tl targetCpu).
    rewrite <- S0, <- S1, <- S2 at 1.
    apply device_loop_head_match.
    - cbn. discriminate.
    - rewrite S0, S1, S2. reflexivity.
    - exact R. }
  destruct Hd as (sevs & Hd & T).
  pose proof (attempt_run inp fuel w _ (0, true) sevs Hd) as Hrun.
  do 2 eexists. split; [exact Hrun | ].
  rewrite (attempt_transcript w _ true sevs _ T).
  rewrite app_nil_r, <- !app_assoc. cbn [sig_ops map fst snd app].
  split; [reflexivity | ].
  cbn [fuse_writes flat_map app].
  change (flat_map _ ?l) with (fuse_writes l).
  rewrite !fuse_writes_app, !fuse_writes_write_ops. reflexivity.
Qed.

(** C7 on a session in which each wait ends at its first sample. *)
Lemma C7_tiny13_witness :
  exists w' evs,
    attempt (input_of tiny13_session) 1 w_reset = Some ((0, true), w', evs)
    /\ fuse_writes (transcript evs) = [(FuseLow, 0x6A); (FuseHigh, 0xFF)].
Proof.
  assert (Hfh : forall from : nat,
             sdo (PINC (input_of tiny13_session) (from + 0)) = true ->
             first_high (input_of tiny13_session) from 0).
  { intros from H. split; [intros k Hk; lia | exact H]. }
  destruct (C7_tiny13 (input_of tiny13_session) 1 w_reset 0 0 0 0)
    as (w' & evs & Hrun & _ & Hw);
    try (vm_compute; reflexivity); try lia;
    try (split; apply Hfh; vm_compute; reflexivity).
  exists w', evs. split; [exact Hrun | exact Hw].
Defined.

(** * Further properties of the firmware *)

(** X1.  [clockit] always returns and is seen on the lines as exactly one
    clock pulse, held for 1 us, that carries the levels of SDI and SII driven
    at the call.  It leaves SCI low and every other bit of PORTC, and every
    other register, as it found them, and reads no input. *)
Theorem X1_clockit_pulse (w : World) :
  exists w' a b,
    clockit w = Some (tt, w', [WrPORTC a; DelayUs 1; WrPORTC b])
    /\ wire ClkLow (map lview [WrPORTC a; DelayUs 1; WrPORTC b])
       = [Pulse (Z.testbit (PORTC w) HVSP_SDI) (Z.testbit (PORTC w) HVSP_SII)]
    /\ Z.testbit a HVSP_SCI = true
    /\ Z.testbit (PORTC w') HVSP_SCI = false
    /\ (forall n, 0 <= n < 8 -> n <> HVSP_SCI ->
                  Z.testbit a n = Z.testbit (PORTC w) n
                  /\ Z.testbit (PORTC w') n = Z.testbit (PORTC w) n)
    /\ PORTB w' = PORTB w /\ DDRB w' = DDRB w /\ DDRC w' = DDRC w
    /\ readsB w' = readsB w /\ readsC w' = readsC w.
Proof.
  do 3 eexists. split; [apply clockit_any | ].
  cbn [PORTB DDRB PORTC DDRC readsB readsC map lview wire].
  split.
  - unfold HVSP_SDI, HVSP_SII, HVSP_SCI.
    rewrite !testbit_and8_nbv, !testbit_or8_bv by lia.
    cbn [Z.eqb Pos.eqb negb Z.ltb Z.compare Pos.compare Pos.compare_cont
         orb andb emitted clock_step app].
    rewrite !orb_false_r, !andb_true_r, !orb_true_r.
    cbn [emitted clock_step app wire]. reflexivity.
  - split; [port_bits; reflexivity | ].
    split; [port_bits; reflexivity | ].
    split; [ | repeat split].
    intros n Hn Hne. unfold HVSP_SCI in *.
    rewrite testbit_and8_nbv, !testbit_or8_bv by lia.
    destruct (Z.eqb_spec 3 n); [lia | ].
    destruct (Z.ltb_spec n 8); [ | lia].
    cbn [negb]. rewrite !orb_false_r, !andb_true_r. split; reflexivity.
Qed.

(** X2.  A frame touches nothing but the three programming outputs:
    [transferByte] writes only PORTC, reads only PINC (eight times) and
    delays only for the 1 us of each clock pulse; every value it writes to
    PORTC has all bits other than SDI, SII and SCI (so VCC and RST) as they
    were at the call; it returns with SDI, SII and SCI low. *)
Theorem X2_transferByte_keeps_lines (inp : Input) (data instruction : Z) (w : World) :
  0 <= data < 256 -> 0 <= instruction < 256 ->
  exists byteRead w' evs,
    transferByte inp data instruction w = Some (byteRead, w', evs)
    /\ forallb frame_event evs = true
    /\ (forall v n, In (WrPORTC v) evs ->
                    0 <= n < 8 -> n <> HVSP_SDI -> n <> HVSP_SII -> n <> HVSP_SCI ->
                    Z.testbit v n = Z.testbit (PORTC w) n)
    /\ Z.testbit (PORTC w') HVSP_SDI = false
    /\ Z.testbit (PORTC w') HVSP_SII = false
    /\ Z.testbit (PORTC w') HVSP_SCI = false
    /\ (forall n, 0 <= n < 8 -> n <> HVSP_SDI -> n <> HVSP_SII -> n <> HVSP_SCI ->
                  Z.testbit (PORTC w') n = Z.testbit (PORTC w) n)
    /\ PORTB w' = PORTB w /\ DDRB w' = DDRB w /\ DDRC w' = DDRC w
    /\ readsB w' = readsB w /\ readsC w' = (readsC w + 8)%nat.
Proof.
  intros Hd Hi. do 3 eexists. split; [now apply transferByte_run | ].
  unfold pinc_reads. cbn [seq map].
  split; [apply tb_events_frame_events | ].
  split.
  { intros v n Hin Hn H0 H1 H3.
    destruct (tb_events_writes _ _ _ _ _ _ _ _ _ _ _ _ Hin) as (a & b & c & ->).
    now apply testbit_lines_kept. }
  unfold advance. cbn [PORTB DDRB PORTC DDRC readsB readsC].
  unfold HVSP_SDI, HVSP_SII, HVSP_SCI.
  rewrite !testbit_lines by lia.
  repeat (split; [reflexivity | ]).
  split; [ | repeat split].
  intros n Hn H0 H1 H3. now apply testbit_lines_kept.
Qed.

(** X2 on a powered target: VCC stays high and the RST pin low through the
    frame. *)
Lemma X2_transferByte_keeps_lines_witness :
  0 <= 0xA5 < 256 /\ 0 <= 0x4C < 256
  /\ exists byteRead w' evs,
       transferByte (input_of (spell 0xAA)) 0xA5 0x4C w_powered = Some (byteRead, w', evs)
       /\ (forall v, In (WrPORTC v) evs ->
                     Z.testbit v HVSP_VCC = true /\ Z.testbit v HVSP_RST = false).
Proof.
  split; [lia | ]. split; [lia | ].
  destruct (X2_transferByte_keeps_lines (input_of (spell 0xAA)) 0xA5 0x4C w_powered)
    as (b & w' & evs & Hrun & _ & Hk & _); [lia | lia | ].
  exists b, w', evs. split; [exact Hrun | ].
  intros v Hin. split.
  - rewrite (Hk v HVSP_VCC Hin); unfold HVSP_VCC, HVSP_SDI, HVSP_SII, HVSP_SCI;
      [reflexivity | lia | lia | lia | lia].
  - rewrite (Hk v HVSP_RST Hin); unfold HVSP_RST, HVSP_SDI, HVSP_SII, HVSP_SCI;
      [reflexivity | lia | lia | lia | lia].
Defined.

(** X3.  What [transferByte] sends can be read back off the lines: an
    analyser that watches SDI, SII, SCI and SDO decodes the events of one
    call, whatever the state of PORTC at the call, as exactly one frame whose
    data and instruction bytes are the two arguments and whose response byte
    is the value the call returned. *)
Theorem X3_transferByte_decodes (inp : Input) (data instruction : Z) (w : World) :
  0 <= data < 256 -> 0 <= instruction < 256 ->
  exists byteRead w' evs,
    transferByte inp data instruction w = Some (byteRead, w', evs)
    /\ items evs = [Fr (mkFrame data instruction byteRead)]
    /\ (forall before after,
           forallb quiet before = true ->
           items (before ++ evs ++ after)
           = Fr (mkFrame data instruction byteRead) :: items after).
Proof.
  intros Hd Hi.
  destruct (transferByte_emits inp data instruction w Hd Hi) as (evs & Hrun & Hf).
  exists (reply inp (readsC w)), (advance w 8), evs.
  split; [exact Hrun | ]. split.
  - specialize (Hf []). rewrite app_nil_r in Hf. exact Hf.
  - intros before after Hq. unfold items at 1. rewrite wire_quiet by exact Hq.
    apply Hf.
Qed.

(** X3 at data 0xA5, instruction 0x4C, with SDO spelling 0xAA. *)
Lemma X3_transferByte_decodes_witness :
  0 <= 0xA5 < 256 /\ 0 <= 0x4C < 256
  /\ exists w' evs,
       transferByte (input_of (spell 0xAA)) 0xA5 0x4C w_powered = Some (0xAA, w', evs)
       /\ items evs = [Fr (mkFrame 0xA5 0x4C 0xAA)].
Proof.
  split; [lia | ]. split; [lia | ].
  destruct (X3_transferByte_decodes (input_of (spell 0xAA)) 0xA5 0x4C w_powered)
    as (b & w' & evs & Hrun & Hit & _); [lia | lia | ].
  assert (Hb : result_of (transferByte (input_of (spell 0xAA)) 0xA5 0x4C w_powered)
               = Some 0xAA) by (vm_compute; reflexivity).
  rewrite Hrun in Hb. cbn [result_of] in Hb. injection Hb as ->.
  exists w', evs. split; [exact Hrun | exact Hit].
Defined.

(** X4.  [getSignature] always returns.  It sends four frames: 0x08/0x4C,
    the byte index with 0x0C, 0x00/0x68 and 0x00/0x6C; its result is the
    byte sampled during the fourth frame alone, the samples of the first
    three frames are dropped.  It makes 32 reads of PINC and leaves the
    programming outputs low. *)
Theorem X4_getSignature (inp : Input) (code : Z) (w : World) :
  0 <= code < 256 ->
  exists w' evs,
    getSignature inp code w = Some (reply inp (readsC w + 24), w', evs)
    /\ items evs
       = [Fr (mkFrame 0x08 0x4C (reply inp (readsC w)));
          Fr (mkFrame code 0x0C (reply inp (readsC w + 8)));
          Fr (mkFrame 0x00 0x68 (reply inp (readsC w + 16)));
          Fr (mkFrame 0x00 0x6C (reply inp (readsC w + 24)))]
    /\ transcript evs = [SigRead code (reply inp (readsC w + 24))]
    /\ readsC w' = (readsC w + 32)%nat
    /\ PORTC w' = lines (PORTC w) false false false.
Proof.
  intros Hc.
  destruct (getSignature_emits inp code w Hc) as (evs & Hrun & Hf).
  exists (advance w 32), evs. split; [exact Hrun | ].
  assert (Hit : items evs
                = [Fr (mkFrame 0x08 0x4C (reply inp (readsC w)));
                   Fr (mkFrame code 0x0C (reply inp (readsC w + 8)));
                   Fr (mkFrame 0x00 0x68 (reply inp (readsC w + 16)));
                   Fr (mkFrame 0x00 0x6C (reply inp (readsC w + 24)))]).
  { specialize (Hf []). rewrite app_nil_r in Hf. exact Hf. }
  split; [exact Hit | ]. split.
  - unfold transcript. rewrite Hit. reflexivity.
  - split; reflexivity.
Qed.

(** X4 for signature byte 1 of a target that answers 0x93 in the fourth
    frame. *)
Lemma X4_getSignature_witness :
  0 <= 1 < 256
  /\ exists w' evs,
       getSignature (input_of (silence 3 ++ spell 0x93)) 1 w_powered = Some (0x93, w', evs)
       /\ transcript evs = [SigRead 1 0x93].
Proof.
  split; [lia | ].
  destruct (X4_getSignature (input_of (silence 3 ++ spell 0x93)) 1 w_powered)
    as (w' & evs & Hrun & _ & Ht & _); [lia | ].
  exists w', evs. split; [exact Hrun | exact Ht].
Defined.

(** X5.  Each of the three fuse reads always returns.  It sends three
    frames, 0x04/0x4C and two with data 0x00 and the instruction bytes of
    its fuse (0x68 0x6C for low, 0x7A 0x7E for high, 0x6A 0x6E for
    extended); its result is the byte sampled during the third frame; it
    makes 24 reads of PINC and waits for nothing. *)
Theorem X5_readFuse (inp : Input) (k : Fuse) (w : World) :
  exists w' evs,
    readFuse inp k w = Some (reply inp (readsC w + 16), w', evs)
    /\ items evs
       = [Fr (mkFrame 0x04 0x4C (reply inp (readsC w)));
          Fr (mkFrame 0x00 (fst (read_opcodes k)) (reply inp (readsC w + 8)));
          Fr (mkFrame 0x00 (snd (read_opcodes k)) (reply inp (readsC w + 16)))]
    /\ transcript evs = [FuseRead k (reply inp (readsC w + 16))]
    /\ readsC w' = (readsC w + 24)%nat
    /\ PORTC w' = lines (PORTC w) false false false.
Proof.
  destruct (readFuse_emits inp k w) as (evs & Hrun & Hf).
  exists (advance w 24), evs. split; [exact Hrun | ].
  assert (Hit : items evs
                = [Fr (mkFrame 0x04 0x4C (reply inp (readsC w)));
                   Fr (mkFrame 0x00 (fst (read_opcodes k)) (reply inp (readsC w + 8)));
                   Fr (mkFrame 0x00 (snd (read_opcodes k)) (reply inp (readsC w + 16)))]).
  { specialize (Hf []). rewrite app_nil_r in Hf. exact Hf. }
  split; [exact Hit | ]. split.
  - unfold transcript. rewrite Hit. destruct k; reflexivity.
  - split; reflexivity.
Qed.

(** X6.  [pollSDO] returns exactly when SDO is seen high at one of its
    reads: after [n] low samples and one high sample it has made [n + 1]
    reads of PINC and done nothing else, no register is written; and if it
    returned, such a sample was seen. *)
Theorem X6_pollSDO (inp : Input) (fuel : nat) (w : World) :
  (forall n, first_high inp (readsC w) n -> (n < fuel)%nat ->
             pollSDO inp fuel w
             = Some (tt, skip w (S n), map RdPINC (pinc_reads inp (readsC w) (S n))))
  /\ (forall u w' evs,
         pollSDO inp fuel w = Some (u, w', evs) ->
         exists n, first_high inp (readsC w) n /\ (n < fuel)%nat
                   /\ w' = skip w (S n)
                   /\ evs = map RdPINC (pinc_reads inp (readsC w) (S n))
                   /\ map sdo (pinc_reads inp (readsC w) (S n)) = repeat false n ++ [true]).
Proof.
  split.
  - intros n Hh Hf. now apply pollSDO_run.
  - intros u w' evs H.
    destruct (pollSDO_inv inp fuel w w' u evs H) as (n & Hh & Hf).
    exists n. split; [exact Hh | ]. split; [exact Hf | ].
    rewrite (pollSDO_run inp n fuel w Hh Hf) in H.
    destruct (some3_inv _ _ _ _ _ _ H) as (_ & <- & <-).
    split; [reflexivity | ]. split; [reflexivity | ].
    now apply first_high_samples.
Qed.

(** X6 on a line that is low twice and then high. *)
Lemma X6_pollSDO_witness :
  first_high (input_of [0x00; 0x00]) 0 2
  /\ pollSDO (input_of [0x00; 0x00]) 3 w_powered
     = Some (tt, skip w_powered 3, [RdPINC 0x00; RdPINC 0x00; RdPINC 0x04]).
Proof.
  assert (H : first_high (input_of [0x00; 0x00]) 0 2).
  { split; [ | reflexivity].
    intros k Hk. destruct k as [ | [ | k]]; [reflexivity | reflexivity | lia]. }
  split; [exact H | ].
  destruct (X6_pollSDO (input_of [0x00; 0x00]) 3 w_powered) as (Hrun & _).
  apply (Hrun 2%nat H). lia.
Defined.

(** X7.  Entering programming mode runs in a fixed order, whatever the
    registers held: with the four programming pins low, VCC off and the 12 V
    off (RST pin high), VCC is switched on; 60 us later the 12 V are applied
    (RST pin low) with the programming pins still low; 20 us later SDO is
    made an input, the other five pins staying outputs; then 300 us pass.
    Before the first delay only PORTC and DDRC are written.  No clock pulse
    is sent and no input is read. *)
Theorem X7_power_up_sequence (w : World) :
  let pins := [HVSP_SDI; HVSP_SII; HVSP_SDO; HVSP_SCI; HVSP_VCC; HVSP_RST] in
  exists w' pre c0 a b d,
    power_up w
    = Some (tt, w',
            pre ++ [WrPORTC c0; WrPORTC a; DelayUs 60; WrPORTC b; DelayUs 20;
                    WrDDRC d; DelayUs 300])
    /\ forallb port_write pre = true
    /\ map (Z.testbit c0) pins = [false; false; false; false; false; true]
    /\ map (Z.testbit a) pins = [false; false; false; false; true; true]
    /\ map (Z.testbit b) pins = [false; false; false; false; true; false]
    /\ map (Z.testbit d) pins = [true; true; false; true; true; true]
    /\ PORTC w' = b /\ DDRC w' = d
    /\ PORTB w' = PORTB w /\ DDRB w' = DDRB w
    /\ readsB w' = readsB w /\ readsC w' = readsC w
    /\ wire ClkLow (map lview (events_of (power_up w))) = [].
Proof.
  intros pins. subst pins.
  eexists. eexists [_; _; _; _; _; _; _; _; _; _; _]. do 4 eexists.
  split; [rewrite power_up_closed; reflexivity | ].
  split; [reflexivity | ].
  cbn [map].
  split; [port_bits; reflexivity | ].
  split; [port_bits; reflexivity | ].
  split; [port_bits; reflexivity | ].
  split; [port_bits; reflexivity | ].
  cbn [PORTB DDRB PORTC DDRC readsB readsC].
  do 6 (split; [reflexivity | ]).
  pose proof (wire_quiet (events_of (power_up w)) [] (power_up_quiet w)) as H.
  rewrite app_nil_r in H. exact H.
Qed.

(** X8.  Whatever the registers hold when [main] starts, it enters its loop
    with DDRB = 0x01: the LED pin is the only output of port B (DDRB is
    assigned, not or-ed) and the push-button pin is an input; with the LED
    pin high (LED off) and the pull-up of the push button on; and with the
    other six bits of PORTB, and PORTC and DDRC, as they were.  It reads no
    input and waits for nothing before the loop. *)
Theorem X8_main_init (inp : Input) (n fuel : nat) (w : World) :
  exists b1 b2,
    main inp n fuel w
    = match main_loop inp n fuel (mkWorld b2 1 (PORTC w) (DDRC w) (readsB w) (readsC w)) with
      | Some (u, w2, e2) =>
          Some (u, w2, [WrDDRB 1; WrPORTB b1; WrDDRB 1; WrPORTB b2] ++ e2)
      | None => None
      end
    /\ Z.testbit b1 LED_PIN = true
    /\ Z.testbit b2 LED_PIN = true
    /\ Z.testbit b2 SWITCH_PIN = true
    /\ (forall k, 2 <= k < 8 -> Z.testbit b2 k = Z.testbit (PORTB w) k)
    /\ Z.testbit 1 LED_PIN = true /\ Z.testbit 1 SWITCH_PIN = false.
Proof.
  destruct w as [pb db p dc rb rc]. cbn [PORTB DDRB PORTC DDRC readsB readsC].
  exists (or8 pb (bv LED_PIN)), (or8 (or8 pb (bv LED_PIN)) (bv SWITCH_PIN)).
  split.
  - unfold main.
    unfold bind at 1. unfold DDRB_assign at 1. cbn [PORTB DDRB PORTC DDRC readsB readsC].
    unfold bind at 1. unfold PORTB_or at 1. cbn [PORTB DDRB PORTC DDRC readsB readsC].
    unfold bind at 1. unfold DDRB_and at 1. cbn [PORTB DDRB PORTC DDRC readsB readsC].
    unfold bind at 1. unfold PORTB_or at 1. cbn [PORTB DDRB PORTC DDRC readsB readsC].
    change (uint8 (bv LED_PIN)) with 1. change (and8 1 (nbv SWITCH_PIN)) with 1.
    destruct (main_loop inp n fuel
                (mkWorld (or8 (or8 pb (bv LED_PIN)) (bv SWITCH_PIN)) 1 p dc rb rc))
      as [[[u w2] e2] | ]; reflexivity.
  - split; [port_bits; reflexivity | ].
    split; [port_bits; reflexivity | ].
    split; [port_bits; reflexivity | ].
    split; [ | split; reflexivity].
    intros k Hk. unfold LED_PIN, SWITCH_PIN. rewrite !testbit_or8_bv by lia.
    destruct (Z.eqb_spec 0 k); [lia | ]. destruct (Z.eqb_spec 1 k); [lia | ].
    destruct (Z.ltb_spec k 8); [ | lia].
    now rewrite !orb_false_r, !andb_true_r.
Qed.

(** X9.  While the push button is not seen pressed the firmware does
    nothing to the target: [n] iterations of the main loop return, for any
    fuel, after [n] reads of PINB; each iteration writes PORTB once with the
    LED pin high (LED off) and reads PINB once; PORTC, DDRC and DDRB are not
    written, PINC is not read, and nothing is seen on the programming
    lines. *)
Theorem X9_main_loop_idle (inp : Input) (fuel n : nat) (w : World) :
  (forall k, (k < n)%nat -> ~ pressed inp (readsB w + k)) ->
  exists w' evs,
    main_loop inp n fuel w = Some (tt, w', evs)
    /\ forallb idle_event evs = true
    /\ length evs = (2 * n)%nat
    /\ PORTC w' = PORTC w /\ DDRC w' = DDRC w /\ DDRB w' = DDRB w
    /\ readsC w' = readsC w /\ readsB w' = (readsB w + n)%nat
    /\ transcript evs = [].
Proof.
  intros Hidle.
  destruct (main_loop_idle inp fuel n w Hidle) as (pb & evs & Hrun & Hev & Hlen).
  do 2 eexists. split; [exact Hrun | ].
  split; [exact Hev | ]. split; [exact Hlen | ].
  cbn [PORTB DDRB PORTC DDRC readsB readsC].
  do 5 (split; [reflexivity | ]).
  apply reads_as_transcript. apply reads_as_quiet. now apply idle_event_quiet.
Qed.

(** X9 on three iterations with the button released. *)
Lemma X9_main_loop_idle_witness :
  (forall k, (k < 3)%nat -> ~ pressed input_released (readsB w_reset + k))
  /\ exists w' evs,
       main_loop input_released 3 0 w_reset = Some (tt, w', evs)
       /\ length evs = 6%nat /\ PORTC w' = 0 /\ transcript evs = [].
Proof.
  assert (H : forall k, (k < 3)%nat -> ~ pressed input_released (readsB w_reset + k)).
  { intros k _ Hp. unfold pressed in Hp. discriminate Hp. }
  split; [exact H | ].
  destruct (X9_main_loop_idle input_released 0 3 w_reset H)
    as (w' & evs & Hrun & _ & Hlen & Hc & _ & _ & _ & _ & Ht).
  exists w', evs. split; [exact Hrun | ]. split; [exact Hlen | ].
  split; [exact Hc | exact Ht].
Defined.

(** X10.  The device loop never leaves the table, whatever the target
    answers: when it returns, [device] is between 0 and 7, and at least
    [device] signature reads were sent, three more when a record matched.
    [device] is 7, the index of the terminator record, exactly when no fuse
    was written; the loop has then sent signature reads only and reports
    failure.  Otherwise [device] is the index of the record whose three
    signature bytes were read last.  The loop returns whenever SDO answers
    each wait. *)
Theorem X10_scan_stays_in_table (inp : Input) (w : World) :
  (live inp ->
   exists fuel r w' evs, device_loop inp fuel targetCpu 0 w = Some (r, w', evs))
  /\ forall fuel r w' evs,
      device_loop inp fuel targetCpu 0 w = Some (r, w', evs) ->
      0 <= fst r <= 7
      /\ fst r + (if fst r <? 7 then 3 else 0)
         <= Z.of_nat (length (sig_reads (transcript evs)))
      /\ (fst r = 7 <-> fuse_writes (transcript evs) = [])
      /\ (fst r = 7 ->
          snd r = false /\ transcript evs = sig_ops (sig_reads (transcript evs)))
      /\ (fst r < 7 ->
          exists cpu qs,
            nth_error targetCpu (Z.to_nat (fst r)) = Some cpu
            /\ sig_reads (transcript evs) = qs ++ matched_reads cpu).
Proof.
  split; [intros Hlive; exact (device_loop_live inp w Hlive) | ].
  intros fuel r w' evs H.
  destruct (device_loop_seen inp fuel w w' r evs H)
    as (qs & t & m & T & Hs & _ & _ & Hcount & _ & Hm).
  destruct (device_loop_transcript evs qs t T Hs) as (Et & Eq).
  rewrite Eq, Et, fuse_writes_app, fuse_writes_sig_ops. cbn [app].
  destruct m as [cpu | ].
  - destruct Hm as (Hd & Hn & (qs' & Hq) & n1 & n2 & n3 & n4 & n5 & n6 & rs & -> & _).
    rewrite fuse_writes_app, fuse_writes_restore_ops.
    split; [lia | ].
    split; [destruct (Z.ltb_spec (fst r) 7); [exact Hcount | lia] | ].
    split; [split; [intros H7; lia | intros Hw; discriminate Hw] | ].
    split; [intros H7; lia | ].
    intros _. exists cpu, qs'. split; [exact Hn | exact Hq].
  - destruct Hm as (-> & -> & _). cbn [fst snd] in *.
    split; [lia | ].
    split; [exact Hcount | ].
    split; [split; reflexivity | ].
    split; [intros _; rewrite app_nil_r; split; reflexivity | ].
    intros H7. lia.
Qed.

(** X10 on a target whose signature is in no record. *)
Lemma X10_scan_stays_in_table_witness :
  exists r w' evs,
    device_loop (input_of unknown_answers) 0 targetCpu 0 w_reset = Some (r, w', evs)
    /\ fst r = 7
    /\ fuse_writes (transcript evs) = [].
Proof.
  pose proof unknown_loop_result as Hres.
  destruct (device_loop (input_of unknown_answers) 0 targetCpu 0 w_reset)
    as [[[r w'] evs] | ] eqn:Hrun; [ | discriminate Hres].
  cbn [result_of] in Hres. injection Hres as Hr. subst r.
  exists (7, false), w', evs. split; [reflexivity | ]. split; [reflexivity | ].
  destruct (X10_scan_stays_in_table (input_of unknown_answers) w_reset) as (_ & Hret).
  destruct (Hret 0%nat (7, false) w' evs Hrun) as (_ & _ & Hiff & _).
  apply Hiff. reflexivity.
Defined.

(** X11.  Fuses are written only to a target that has just identified
    itself: in every attempt that returns, either no record matched, the
    result is (7, false) and the attempt consists of signature reads alone;
    or the signature reads end with the three bytes of the record at the
    returned index read in a row, no signature is read after them, and the
    fuse writes of the attempt are exactly that record's default values, low
    then high then (if not zero) extended. *)
Theorem X11_writes_follow_match (inp : Input) (fuel : nat) (w w' : World)
        (r : Z * bool) (evs : list Event) :
  attempt inp fuel w = Some (r, w', evs) ->
  (r = (7, false)
   /\ transcript evs = sig_ops (sig_reads (transcript evs))
   /\ fuse_writes (transcript evs) = [])
  \/ (exists cpu qs t,
         0 <= fst r < 7
         /\ nth_error targetCpu (Z.to_nat (fst r)) = Some cpu
         /\ transcript evs = sig_ops (qs ++ matched_reads cpu) ++ t
         /\ sig_reads t = []
         /\ fuse_writes (transcript evs) = default_writes cpu).
Proof.
  intros H.
  destruct (attempt_returned inp fuel w w' r evs H) as (w1 & sevs & Hd & _ & _ & ->).
  destruct (device_loop_returned inp fuel (powered w) w1 r sevs Hd)
    as (qs & t & T & Hs & Hcase).
  rewrite (attempt_transcript w w1 (snd r) sevs _ T).
  destruct Hcase as [[-> ->] | (cpu & qs' & Hr & Hn & -> & Hw & _)].
  - left. rewrite app_nil_r, sig_reads_sig_ops, fuse_writes_sig_ops. repeat split.
  - right. exists cpu, qs', t.
    split; [exact Hr | ]. split; [exact Hn | ]. split; [reflexivity | ].
    split; [exact Hs | ].
    rewrite fuse_writes_app, fuse_writes_sig_ops. exact Hw.
Qed.

(** X11 on an ATtiny13 that is restored. *)
Lemma X11_writes_follow_match_witness :
  exists r w' evs,
    attempt (input_of tiny13_session) 1 w_reset = Some (r, w', evs)
    /\ fuse_writes (transcript evs) = [(FuseLow, 0x6A); (FuseHigh, 0xFF)].
Proof.
  assert (Hres : result_of (attempt (input_of tiny13_session) 1 w_reset)
                 = Some (0, true)) by (vm_compute; reflexivity).
  destruct (attempt (input_of tiny13_session) 1 w_reset)
    as [[[r w'] evs] | ] eqn:Hrun; [ | discriminate Hres].
  cbn [result_of] in Hres. injection Hres as Hr. subst r.
  exists (0, true), w', evs. split; [reflexivity | ].
  destruct (X11_writes_follow_match (input_of tiny13_session) 1 w_reset w' (0, true) evs Hrun)
    as [(Hr & _) | (cpu & qs & t & _ & Hn & _ & _ & Hw)].
  - discriminate Hr.
  - cbn [fst Z.to_nat] in Hn. injection Hn as <-. exact Hw.
Defined.

(** X12.  Every attempt that returns leaves the target switched off and the
    lines at rest, whether it succeeded or not: VCC is off, the 12 V are off
    (RST pin high), SDI, SII and SCI are low, SDO is still an input and the
    other five pins outputs.  After a success the LED is left lit; after a
    failure its sixteen inversions leave it as it was at the call.  The
    push button is not read during the attempt. *)
Theorem X12_attempt_leaves (inp : Input) (fuel : nat) (w w' : World)
        (r : Z * bool) (evs : list Event) :
  let pins := [HVSP_SDI; HVSP_SII; HVSP_SDO; HVSP_SCI; HVSP_VCC; HVSP_RST] in
  attempt inp fuel w = Some (r, w', evs) ->
  map (Z.testbit (PORTC w')) [HVSP_SDI; HVSP_SII; HVSP_SCI; HVSP_VCC; HVSP_RST]
  = [false; false; false; false; true]
  /\ map (Z.testbit (DDRC w')) pins = [true; true; false; true; true; true]
  /\ led (PORTB w') = (if snd r then false else led (PORTB w))
  /\ DDRB w' = DDRB w /\ readsB w' = readsB w.
Proof.
  intros pins H. subst pins.
  destruct (attempt_returned inp fuel w w' r evs H) as (w1 & sevs & _ & L & -> & _).
  destruct (later_same _ _ L) as (Hpb & Hdb & Hdc & Hrb & _).
  destruct (powered_same w) as (Hpb0 & Hrb0 & _).
  unfold finished. cbn [PORTB DDRB PORTC DDRC readsB readsC].
  split; [ | split; [ | split; [ | split]]].
  - unfold power_down_values. cbn [last map]. port_bits. reflexivity.
  - rewrite Hdc. unfold powered. rewrite power_up_closed.
    cbn [state_of DDRC]. unfold power_up_ddrs. cbn [last map]. port_bits. reflexivity.
  - rewrite Hpb, Hpb0. destruct (snd r).
    + apply report_last_on_pos.
    + rewrite report_last_blink. apply xorb_false_r.
  - rewrite Hdb. unfold powered. rewrite power_up_closed. reflexivity.
  - rewrite Hrb. exact Hrb0.
Qed.

(** X12 on a target whose signature is in no record. *)
Lemma X12_attempt_leaves_witness :
  exists r w' evs,
    attempt (input_of unknown_answers) 1 w_reset = Some (r, w', evs)
    /\ Z.testbit (PORTC w') HVSP_VCC = false
    /\ Z.testbit (PORTC w') HVSP_RST = true.
Proof.
  assert (Hres : result_of (attempt (input_of unknown_answers) 1 w_reset)
                 = Some (7, false)) by (vm_compute; reflexivity).
  destruct (attempt (input_of unknown_answers) 1 w_reset)
    as [[[r w'] evs] | ] eqn:Hrun; [ | discriminate Hres].
  exists r, w', evs. split; [reflexivity | ].
  destruct (X12_attempt_leaves (input_of unknown_answers) 1 w_reset w' r evs Hrun)
    as (Hc & _).
  cbn [map] in Hc. injection Hc as _ _ _ Hv Hr. split; [exact Hv | exact Hr].
Defined.



(** X14.  Success is never reported on trust.  An attempt that returns
    success has matched a record, and an attempt that has matched a record
    has sent, in this order: signature reads that end with the three bytes
    of that record, the writes of that record's default fuse values (low,
    high and, if not zero, extended), each with its completed waits, and
    after them the fuse reads; it reports success exactly when those reads
    returned the low, the high and (if not zero) the extended default value.
    Nothing else is sent. *)
Theorem X14_success_means_verified (inp : Input) (fuel : nat) (w w' : World)
        (r : Z * bool) (evs : list Event) :
  attempt inp fuel w = Some (r, w', evs) ->
  (snd r = true -> fst r < 7)
  /\ (fst r < 7 ->
      exists cpu qs n1 n2 n3 n4 n5 n6 rs,
        nth_error targetCpu (Z.to_nat (fst r)) = Some cpu
        /\ transcript evs
           = sig_ops (qs ++ matched_reads cpu)
             ++ restore_ops cpu n1 n2 n3 n4 n5 n6
             ++ read_ops rs
        /\ (snd r = true <-> rs = default_reads cpu)).
Proof.
  intros H.
  destruct (attempt_returned inp fuel w w' r evs H) as (w1 & sevs & Hd & _ & _ & ->).
  destruct (device_loop_seen inp fuel (powered w) w1 r sevs Hd)
    as (qs & t & m & T & _ & _ & _ & _ & _ & Hm).
  rewrite (attempt_transcript w w1 (snd r) sevs _ T).
  destruct m as [cpu | ].
  - destruct Hm as (Hr & Hn & (qs' & ->) & n1 & n2 & n3 & n4 & n5 & n6 & rs & -> & Hok).
    split; [intros _; lia | ].
    intros _. exists cpu, qs', n1, n2, n3, n4, n5, n6, rs.
    split; [exact Hn | ]. split; [reflexivity | exact Hok].
  - destruct Hm as (-> & _). cbn [fst snd].
    split; [discriminate | ]. intros H7. lia.
Qed.

(** X14 on an ATtiny13 that is restored. *)
Lemma X14_success_means_verified_witness :
  exists r w' evs,
    attempt (input_of tiny13_session) 1 (triggered w_reset) = Some (r, w', evs)
    /\ snd r = true
    /\ exists qs n1 n2 n3 n4 n5 n6,
         transcript evs
         = sig_ops (qs ++ matched_reads ATtiny13)
           ++ restore_ops ATtiny13 n1 n2 n3 n4 n5 n6
           ++ read_ops [(FuseLow, 0x6A); (FuseHigh, 0xFF)].
Proof.
  assert (Hres : result_of (attempt (input_of tiny13_session) 1 (triggered w_reset))
                 = Some (0, true)) by (vm_compute; reflexivity).
  destruct (attempt (input_of tiny13_session) 1 (triggered w_reset))
    as [[[r w'] evs] | ] eqn:Hrun; [ | discriminate Hres].
  cbn [result_of] in Hres. injection Hres as Hr. subst r.
  exists (0, true), w', evs. split; [reflexivity | ]. split; [reflexivity | ].
  destruct (X14_success_means_verified (input_of tiny13_session) 1 (triggered w_reset) w'
              (0, true) evs Hrun) as (_ & Hm).
  destruct Hm as (cpu & qs & n1 & n2 & n3 & n4 & n5 & n6 & rs & Hn & Ht & Hok);
    [cbn [fst]; lia | ].
  cbn [fst Z.to_nat] in Hn. injection Hn as <-.
  cbn [snd] in Hok. rewrite (proj1 Hok eq_refl) in Ht.
  exists qs, n1, n2, n3, n4, n5, n6. exact Ht.
Defined.

(** X15.  The scan of the device loop has a bounded cost, whatever the
    target answers: a device loop that returns has sent at least one and at
    most 21 signature reads (three for each of the seven records), all of
    them before anything else, and has made at least 32 reads of PINC for
    each.  When no record matched that is all: exactly 32 reads of PINC for
    each signature read, and the loop has waited for nothing, so it returns
    the same with any fuel. *)
Theorem X15_scan_cost (inp : Input) (fuel : nat) (w w' : World) (r : Z * bool)
        (evs : list Event) :
  device_loop inp fuel targetCpu 0 w = Some (r, w', evs) ->
  let n := length (sig_reads (transcript evs)) in
  (1 <= n <= 21)%nat
  /\ (exists rest,
         transcript evs = sig_ops (sig_reads (transcript evs)) ++ rest
         /\ sig_reads rest = [])
  /\ (readsC w + 32 * n <= readsC w')%nat
  /\ (fst r = 7 ->
      readsC w' = (readsC w + 32 * n)%nat
      /\ transcript evs = sig_ops (sig_reads (transcript evs))
      /\ forall fuel', device_loop inp fuel' targetCpu 0 w = Some (r, w', evs)).
Proof.
  intros H n. subst n.
  destruct (device_loop_seen inp fuel w w' r evs H)
    as (qs & t & m & T & Hs & _ & Hlen & _ & Hcost & Hm).
  destruct (device_loop_transcript evs qs t T Hs) as (Et & Eq).
  rewrite Eq. split; [exact Hlen | ].
  split; [exists t; split; [exact Et | exact Hs] | ].
  split; [exact Hcost | ].
  intros H7. destruct m as [cpu | ].
  - destruct Hm as (Hd & _). lia.
  - destruct Hm as (_ & -> & Hc & Hall). rewrite app_nil_r in Et.
    split; [exact Hc | ]. split; [exact Et | exact Hall].
Qed.

(** X15 on a target whose signature is in no record. *)
Lemma X15_scan_cost_witness :
  exists r w' evs,
    device_loop (input_of unknown_answers) 0 targetCpu 0 w_reset = Some (r, w', evs)
    /\ (1 <= length (sig_reads (transcript evs)) <= 21)%nat
    /\ readsC w' = (32 * length (sig_reads (transcript evs)))%nat.
Proof.
  pose proof unknown_loop_result as Hres.
  destruct (device_loop (input_of unknown_answers) 0 targetCpu 0 w_reset)
    as [[[r w'] evs] | ] eqn:Hrun; [ | discriminate Hres].
  cbn [result_of] in Hres. injection Hres as Hr. subst r.
  exists (7, false), w', evs. split; [reflexivity | ].
  destruct (X15_scan_cost (input_of unknown_answers) 0 w_reset w' (7, false) evs Hrun)
    as (Hlen & _ & _ & H7).
  split; [exact Hlen | ].
  destruct (H7 eq_refl) as (Hc & _). exact Hc.
Defined.
